(** * QuickSight sync: export and import of an analysis and its assets

    A shallow embedding of [src/quicksight/essentials.py],
    [src/quicksight/export_assets.py] and [src/quicksight/import_assets.py].

    Python values that travel through the program are JSON documents (the
    provider's responses and the dump file), so they are embedded as the
    [json] tree below.  A Python [dict] keeps its insertion order, which the
    program observes when it iterates over [values()], hence dictionaries are
    association lists.  The two identifier remap tables are only ever looked
    up and extended, so they are finite maps; the identifier sets built with
    [set(...)] are finite sets.  Exceptions are values of [exn] and a function
    that may raise returns a [result]. *)

From Stdlib Require Import ZArith Ascii String.
From stdpp Require Import base option list strings gmap.

Local Open Scope string_scope.
Local Open Scope Z_scope.
Local Open Scope list_scope.

(** ** Values *)

(** A number is an integer: the numbers the program itself reads are status
    codes and version numbers.  A number with a fraction could only sit in a
    part of a document that the program passes on untouched, and is left out
    of the embedding. *)
#[warnings="-register-all"]
Inductive json : Type :=
| JNull
| JBool (b : bool)
| JNum (n : Z)
| JStr (s : string)
| JList (items : list json)
| JDict (fields : list (string * json)).

Abbreviation dict := (list (string * json)).

(** The exceptions the three modules can raise or let through.
    [ValueError] keeps the reason, since the callers tell the cases apart by
    their message only. *)
Inductive value_error : Type :=
| RequestFailed (status : json) (response : dict)
| NoAssetsFound (filters : json)
| MultipleAssetsFound (filters : json) (ids : list json)
| DescribeFailed (response : dict)
| Required (what : string)
| MissingSection (message : string)
| InvalidLiteral (text : string).

Inductive exn : Type :=
| KeyError (key : string)
| IndexError (message : string)
| TypeError
| AttributeError
| ValueError (why : value_error)
| ClientError (code : string).

Inductive result (A : Type) : Type :=
| Ok (a : A)
| Raise (e : exn).
Arguments Ok {A} a.
Arguments Raise {A} e.

#[export] Instance result_ret : MRet result := @Ok.
#[export] Instance result_bind : MBind result := fun A B f m =>
  match m with
  | Ok a => f a
  | Raise e => Raise e
  end.
#[export] Instance result_fmap : FMap result := fun A B f m =>
  match m with
  | Ok a => Ok (f a)
  | Raise e => Raise e
  end.

(** ** Strings *)

Module Str.

(** [s.split(sep)] for a separator of one character. *)
Fixpoint split (sep : ascii) (s : string) : list string :=
  match s with
  | EmptyString => [EmptyString]
  | String c rest =>
      if Ascii.eqb c sep then EmptyString :: split sep rest
      else match split sep rest with
           | seg :: segs => String c seg :: segs
           | [] => [String c EmptyString]
           end
  end.

Fixpoint has_char (c : ascii) (s : string) : bool :=
  match s with
  | EmptyString => false
  | String c' rest => Ascii.eqb c' c || has_char c rest
  end.

(** [needle in haystack] on two strings. *)
Fixpoint contains (needle haystack : string) : bool :=
  String.prefix needle haystack
  || match haystack with
     | EmptyString => false
     | String _ rest => contains needle rest
     end.

Fixpoint chars (s : string) : list string :=
  match s with
  | EmptyString => []
  | String c rest => String c EmptyString :: chars rest
  end.

End Str.

(** ** Dictionaries *)

Module Dict.

Fixpoint get (k : string) (d : dict) : option json :=
  match d with
  | [] => None
  | (k', v) :: rest => if String.eqb k' k then Some v else get k rest
  end.

Definition mem (k : string) (d : dict) : bool :=
  match get k d with Some _ => true | None => false end.

(** [d[k] = v]: an existing key keeps its position. *)
Fixpoint set (k : string) (v : json) (d : dict) : dict :=
  match d with
  | [] => [(k, v)]
  | (k', v') :: rest =>
      if String.eqb k' k then (k, v) :: rest else (k', v') :: set k v rest
  end.

Definition remove (k : string) (d : dict) : dict :=
  List.filter (fun kv => negb (String.eqb (fst kv) k)) d.

(** [d.update(...)] with keyword arguments, applied in their order. *)
Definition update (kwargs d : dict) : dict :=
  fold_left (fun acc kv => set (fst kv) (snd kv) acc) kwargs d.

Definition values (d : dict) : list json := snd <$> d.
Definition keys (d : dict) : list string := fst <$> d.

End Dict.

(** ** The operations of Python the program applies to JSON values *)

Definition is_none (v : json) : bool :=
  match v with JNull => true | _ => false end.

(** [v[k]] with a string [k]. *)
Definition py_getitem (v : json) (k : string) : result json :=
  match v with
  | JDict d => match Dict.get k d with
               | Some x => Ok x
               | None => Raise (KeyError k)
               end
  | _ => Raise TypeError
  end.

(** [v[k] = x] with a string [k]. *)
Definition py_setitem (v : json) (k : string) (x : json) : result json :=
  match v with
  | JDict d => Ok (JDict (Dict.set k x d))
  | _ => Raise TypeError
  end.

(** [v.get(k)] and [v.get(k, dflt)]; the first is the second at [None]. *)
Definition py_get (v : json) (k : string) (dflt : json) : result json :=
  match v with
  | JDict d => Ok (default dflt (Dict.get k d))
  | _ => Raise AttributeError
  end.

(** [k in v] with a string [k]: a key of a dictionary, an item of a list, a
    substring of a string; the other values are not containers. *)
Definition py_in (k : string) (v : json) : result bool :=
  match v with
  | JDict d => Ok (Dict.mem k d)
  | JList l =>
      Ok (existsb (fun x => match x with JStr s => String.eqb s k | _ => false end) l)
  | JStr s => Ok (Str.contains k s)
  | _ => Raise TypeError
  end.

(** [for x in v]: a dictionary yields its keys, a string its characters. *)
Definition py_iter (v : json) : result (list json) :=
  match v with
  | JList l => Ok l
  | JDict d => Ok (JStr <$> Dict.keys d)
  | JStr s => Ok (JStr <$> Str.chars s)
  | _ => Raise TypeError
  end.

(** [v.values()] *)
Definition py_values (v : json) : result (list json) :=
  match v with
  | JDict d => Ok (Dict.values d)
  | _ => Raise AttributeError
  end.

(** [len(v)] *)
Definition py_len (v : json) : result nat :=
  match v with
  | JList l => Ok (length l)
  | JDict d => Ok (length d)
  | JStr s => Ok (String.length s)
  | _ => Raise TypeError
  end.

(** The integer a value stands for in an order comparison with an [int];
    [bool] is a subclass of [int], everything else refuses the comparison. *)
Definition py_int_of (v : json) : result Z :=
  match v with
  | JNum n => Ok n
  | JBool b => Ok (if b then 1 else 0)
  | _ => Raise TypeError
  end.

(** [v + suffix] with a string [suffix]. *)
Definition py_add_str (v : json) (suffix : string) : result json :=
  match v with
  | JStr s => Ok (JStr (s +:+ suffix))
  | _ => Raise TypeError
  end.

(** [l[-1]] and [l[i]] on a list. *)
Definition py_last {A} (l : list A) : result A :=
  match last l with
  | Some x => Ok x
  | None => Raise (IndexError "list index out of range")
  end.

Definition py_nth {A} (l : list A) (i : nat) : result A :=
  match l !! i with
  | Some x => Ok x
  | None => Raise (IndexError "list index out of range")
  end.

(** Traversal of a list by a function that may raise: the first exception
    ends it, as in a comprehension. *)
Fixpoint traverse {A B} (f : A -> result B) (l : list A) : result (list B) :=
  match l with
  | [] => Ok []
  | x :: rest => y ← f x; ys ← traverse f rest; Ok (y :: ys)
  end.

(** * essentials.py *)

(** ** Arn transformation functions *)

Definition get_id_from_arn (arn : string) : result string :=
  py_last (Str.split "/" arn).

Definition get_account_id_from_arn (arn : string) : result string :=
  py_nth (Str.split ":" arn) 4.

(** The same call on a value that was read from a document: only a string
    has [split]. *)
Definition get_id_from_arn_of (arn : json) : result string :=
  match arn with
  | JStr s => get_id_from_arn s
  | _ => Raise AttributeError
  end.

(** [200 <= status < 300], and its complement as the program writes it. *)
Definition success_status (status : Z) : bool :=
  (200 <=? status) && (status <? 300).

(** ** General functions *)

(** The generator is consumed at once by [set(...)] at each of its uses, so
    it is the list of what it yields, or its first exception.  The
    [IndexError] carries the message without the printed entry. *)
Definition get_asset_ids_from_definition
    (definitions : json) (arn_key : string) : result (list string) :=
  items ← py_iter definitions;
  traverse (fun dataset =>
      present ← py_in arn_key dataset;
      if negb present then Raise (IndexError ("Key " +:+ arn_key +:+ " not found"))
      else arn ← py_getitem dataset arn_key; get_id_from_arn_of arn)
    items.

(** * The provider

    The control-plane client is an opaque collaborator: an operation takes
    keyword arguments and either returns a response document or raises.  It
    may keep state of its own (an object created by one call exists for the
    next).  [respond] is that behaviour; the calls a run makes are recorded
    in order, so that statements can speak about what was sent. *)

Inductive operation : Type :=
| describe_analysis_definition
| describe_analysis_permissions
| describe_data_set
| describe_data_set_permissions
| describe_data_source
| describe_data_source_permissions
| search_analyses
| search_data_sets
| search_data_sources
| search_dashboards
| create_data_source
| update_data_source
| create_data_set
| update_data_set
| create_analysis
| update_analysis
| create_dashboard
| update_dashboard
| update_dashboard_published_version.

Record request : Type := Request { req_op : operation; req_kwargs : dict }.

Section Provider.

Variable pstate : Type.
Variable respond : pstate -> operation -> dict -> result dict * pstate.

Record world : Type := World { provider : pstate; sent : list request }.

Definition io (A : Type) : Type := world -> result A * world.

#[export] Instance io_ret : MRet io := fun A a w => (Ok a, w).
#[export] Instance io_bind : MBind io := fun A B f m w =>
  match m w with
  | (Ok a, w') => f a w'
  | (Raise e, w') => (Raise e, w')
  end.

Definition lift {A} (r : result A) : io A := fun w => (r, w).
Definition raise {A} (e : exn) : io A := lift (Raise e).

(** One call of a client method with keyword arguments. *)
Definition invoke (op : operation) (kwargs : dict) : io dict := fun w =>
  let '(r, p) := respond (provider w) op kwargs in
  (r, World p (sent w ++ [Request op kwargs])).

(** [try: m  except ClientError as err: handler err]; any other exception
    passes through. *)
Definition except_client_error {A} (m : io A) (handler : string -> io A) : io A :=
  fun w =>
    match m w with
    | (Raise (ClientError code), w') => handler code w'
    | other => other
    end.

Fixpoint for_each {A B} (f : A -> io B) (l : list A) : io (list B) :=
  match l with
  | [] => mret []
  | x :: rest => y ← f x; ys ← for_each f rest; mret (y :: ys)
  end.

(** [response.get("Status", 0)] read as a number. *)
Definition status_of (response : dict) : result Z :=
  py_int_of (default (JNum 0) (Dict.get "Status" response)).

Definition find_assets (account_id : string) (search_fn : operation)
    (filters : json) (lookup_field : string) : io json :=
  let params := [("AwsAccountId", JStr account_id);
                 ("Filters", filters);
                 ("MaxResults", JNum 10)] in
  response ← invoke search_fn params;
  status ← lift (status_of response);
  if negb (success_status status)
  then raise (ValueError (RequestFailed (JNum status) response))
  else
    n ← lift (py_len (default (JList []) (Dict.get lookup_field response)));
    if Nat.eqb n 0
    then raise (ValueError (NoAssetsFound filters))
    else lift (py_getitem (JDict response) lookup_field).

(** [describe_fn(AwsAccountId=account_id, **params)]: a keyword given
    twice is a [TypeError] of the call itself. *)
Definition describe_asset (account_id : string) (describe_fn : operation)
    (params : dict) (lookup_field : option string) : io json :=
  if Dict.mem "AwsAccountId" params then raise TypeError
  else
    response ← invoke describe_fn (("AwsAccountId", JStr account_id) :: params);
    status ← lift (status_of response);
    if success_status status
    then match lookup_field with
         | Some (String c f) =>
             mret (default JNull (Dict.get (String c f) response))
         | _ => mret (JDict response)
         end
    else raise (ValueError (DescribeFailed response)).

(** ** Functions to find asset ids *)

Definition find_asset_ids (account_id : string) (search_fn : operation)
    (filters : json) (lookup_field id_key : string) : io (list json) :=
  assets ← find_assets account_id search_fn filters lookup_field;
  lift (items ← py_iter assets;
        traverse (fun asset => py_get asset id_key JNull) items).

Definition find_asset_id (account_id : string) (search_fn : operation)
    (filters : json) (lookup_field id_key : string) : io json :=
  ids ← find_asset_ids account_id search_fn filters lookup_field id_key;
  if Nat.ltb 1 (length ids)
  then raise (ValueError (MultipleAssetsFound filters ids))
  else lift (py_nth ids 0).

(** ** Create or update *)

(** [params.pop("Permissions")] *)
Definition py_pop (k : string) (d : dict) : result dict :=
  if Dict.mem k d then Ok (Dict.remove k d) else Raise (KeyError k).

(** The update branch removes entries from [params] itself; the callers
    read only [Name] and the identifier from it afterwards, which the
    removal leaves alone, so the response is all that is returned here. *)
Definition create_or_update_asset (params : dict)
    (create_fn update_fn : operation) : io dict :=
  response ← except_client_error (invoke create_fn params) (fun code =>
    if String.eqb code "ResourceExistsException" then
      params1 ← lift (py_pop "Permissions" params);
      let params2 := if Dict.mem "Type" params1
                     then Dict.remove "Type" params1 else params1 in
      invoke update_fn params2
    else raise (ClientError code));
  status ← lift (status_of response);
  if negb (success_status status)
  then raise (ValueError (RequestFailed (JNum status) response))
  else mret response.

End Provider.

Arguments World {pstate} provider sent.
Arguments provider {pstate} w.
Arguments sent {pstate} w.
Arguments lift {pstate A} r w.
Arguments raise {pstate A} e w.
Arguments invoke {pstate} respond op kwargs w.
Arguments except_client_error {pstate A} m handler w.
Arguments for_each {pstate A B} f l.
Arguments find_assets {pstate} respond account_id search_fn filters lookup_field.
Arguments describe_asset {pstate} respond account_id describe_fn params lookup_field.
Arguments find_asset_ids {pstate} respond account_id search_fn filters lookup_field id_key.
Arguments find_asset_id {pstate} respond account_id search_fn filters lookup_field id_key.
Arguments create_or_update_asset {pstate} respond params create_fn update_fn.

(** * export_assets.py *)

(** ** Functions to get asset ids from definitions *)

Definition get_analysis_dataset_ids (analysis_definition : json)
    : result (gset string) :=
  definition ← py_get analysis_definition "Definition" JNull;
  declarations ← py_get definition "DataSetIdentifierDeclarations" JNull;
  ids ← get_asset_ids_from_definition declarations "DataSetArn";
  Ok (list_to_set ids).

(** [[e.get(k) for e in l if k in e]] *)
Definition present_fields (k : string) (l : list json) : result (list json) :=
  @concat json <$> traverse (fun e =>
      present ← py_in k e;
      if (present : bool) then v ← py_get e k JNull; Ok [v] else Ok [])
    l.

Definition get_rls_dataset_ids (dataset_definitions : list json)
    : result (gset string) :=
  rls_dataset_definitions ←
    present_fields "RowLevelPermissionDataSet" dataset_definitions;
  if Nat.eqb (length rls_dataset_definitions) 0 then Ok ∅
  else
    ids ← get_asset_ids_from_definition (JList rls_dataset_definitions) "Arn";
    Ok (list_to_set ids).

Definition get_datasource_ids (dataset_definitions : list json)
    : result (gset string) :=
  datasorce_references ←
    @concat json <$> traverse (fun ds =>
        tables ← py_get ds "PhysicalTableMap" (JDict []);
        refs ← py_values tables;
        present_fields "RelationalTable" refs)
      dataset_definitions;
  if Nat.eqb (length datasorce_references) 0 then Ok ∅
  else
    ids ← get_asset_ids_from_definition
            (JList datasorce_references) "DataSourceArn";
    Ok (list_to_set ids).

(** ** Functions to dump asset definitions *)

Definition dump_analysis (definition permissions : json) : result dict :=
  analysis_id ← py_getitem definition "AnalysisId";
  name ← py_getitem definition "Name";
  body ← py_getitem definition "Definition";
  Ok [("AnalysisId", analysis_id);
      ("Name", name);
      ("Definition", body);
      ("Permissions", permissions)].

Definition dump_dataset (definition permissions : json) : result dict :=
  dataset_id ← py_getitem definition "DataSetId";
  name ← py_getitem definition "Name";
  physical ← py_getitem definition "PhysicalTableMap";
  logical ← py_getitem definition "LogicalTableMap";
  columns ← py_getitem definition "OutputColumns";
  mode ← py_getitem definition "ImportMode";
  rls ← py_get definition "RowLevelPermissionDataSet" JNull;
  usage ← py_get definition "DataSetUsageConfiguration" JNull;
  Ok [("DataSetId", dataset_id);
      ("Name", name);
      ("PhysicalTableMap", physical);
      ("LogicalTableMap", logical);
      ("OutputColumns", columns);
      ("ImportMode", mode);
      ("Permissions", permissions);
      ("RowLevelPermissionDataSet", rls);
      ("DataSetUsageConfiguration", usage)].

Definition dump_data_source (definition permissions : json) : result dict :=
  datasource_id ← py_getitem definition "DataSourceId";
  name ← py_getitem definition "Name";
  type ← py_getitem definition "Type";
  parameters ← py_getitem definition "DataSourceParameters";
  vpc ← py_get definition "VpcConnectionProperties" JNull;
  ssl ← py_get definition "SslProperties" JNull;
  error_info ← py_get definition "ErrorInfo" JNull;
  Ok [("DataSourceId", datasource_id);
      ("Name", name);
      ("Type", type);
      ("DataSourceParameters", parameters);
      ("Credentials", JNull);
      ("Permissions", permissions);
      ("VpcConnectionProperties", vpc);
      ("SslProperties", ssl);
      ("ErrorInfo", error_info)].

(** The client object handed to [get_dump]; its behaviour is [respond]. *)
Inductive boto3_client : Type := QuickSightClient.

Section ExportAssets.

Variable pstate : Type.
Variable respond : pstate -> operation -> dict -> result dict * pstate.

Let io := io pstate.

(** ** Functions to get asset definitions *)

Definition get_analysis_definition (account_id analysis_id : string) : io json :=
  describe_asset respond account_id describe_analysis_definition
    [("AnalysisId", JStr analysis_id)] None.

Definition get_analysis_permissions (account_id analysis_id : string) : io json :=
  describe_asset respond account_id describe_analysis_permissions
    [("AnalysisId", JStr analysis_id)] (Some "Permissions").

Definition get_dataset_definition (account_id dataset_id : string) : io json :=
  describe_asset respond account_id describe_data_set
    [("DataSetId", JStr dataset_id)] (Some "DataSet").

Definition get_dataset_permissions (account_id dataset_id : string) : io json :=
  describe_asset respond account_id describe_data_set_permissions
    [("DataSetId", JStr dataset_id)] (Some "Permissions").

Definition get_datasource_definition (account_id datasource_id : string) : io json :=
  describe_asset respond account_id describe_data_source
    [("DataSourceId", JStr datasource_id)] (Some "DataSource").

Definition get_datasource_permissions (account_id datasource_id : string) : io json :=
  describe_asset respond account_id describe_data_source_permissions
    [("DataSourceId", JStr datasource_id)] (Some "Permissions").

(** [{"definition": ..., "permissions": ...}] for one identifier. *)
Definition fetch (definition_of permissions_of : string -> io json)
    (id : string) : io json :=
  definition ← definition_of id;
  permissions ← permissions_of id;
  mret (JDict [("definition", definition); ("permissions", permissions)]).

(** [dump(definition=row["definition"], permissions=row["permissions"])] *)
Definition dump_row (dump : json -> json -> result dict) (row : json)
    : result json :=
  definition ← py_getitem row "definition";
  permissions ← py_getitem row "permissions";
  JDict <$> dump definition permissions.

(** ** Main function to dump the assets related to an analysis

    A set is iterated in the order of [elements]; Python leaves that order
    unspecified. *)
Definition get_dump (account_id : option string)
    (qs_client : option boto3_client) (analysis_id : option string) : io dict :=
  match account_id, qs_client, analysis_id with
  | None, _, _ => raise (ValueError (Required "account_id is required"))
  | Some _, None, _ => raise (ValueError (Required "qs_client is required"))
  | Some _, Some _, None =>
      raise (ValueError (Required "analysis_id is required"))
  | Some account_id, Some _, Some analysis_id =>
      analysis_definition ← get_analysis_definition account_id analysis_id;
      analysis_permissions ← get_analysis_permissions account_id analysis_id;
      analysis_dataset_ids ←
        lift (get_analysis_dataset_ids analysis_definition);
      analysis_dataset_definitions ←
        for_each
          (fetch (get_dataset_definition account_id)
                 (get_dataset_permissions account_id))
          (elements analysis_dataset_ids);
      rls_dataset_ids ←
        lift (get_rls_dataset_ids analysis_dataset_definitions);
      rls_dataset_definitions ←
        for_each
          (fetch (get_dataset_definition account_id)
                 (get_dataset_permissions account_id))
          (elements rls_dataset_ids);
      datasource_ids ←
        lift
          (rows ← traverse (fun row => py_getitem row "definition")
                    (analysis_dataset_definitions ++ rls_dataset_definitions);
           get_datasource_ids rows);
      datasource_definitions ←
        for_each
          (fetch (get_datasource_definition account_id)
                 (get_datasource_permissions account_id))
          (elements datasource_ids);
      lift
        (analysis ← dump_analysis analysis_definition analysis_permissions;
         analysis_datasets ←
           traverse (dump_row dump_dataset) analysis_dataset_definitions;
         security_datasets ←
           traverse (dump_row dump_dataset) rls_dataset_definitions;
         datasources ←
           traverse (dump_row dump_data_source) datasource_definitions;
         Ok [("analysis", JDict analysis);
             ("analysis_datasets", JList analysis_datasets);
             ("security_datasets", JList security_datasets);
             ("datasources", JList datasources)])
  end.

End ExportAssets.

(** * import_assets.py

    The import rewrites locators inside the documents it was given: the
    tables of a dataset and the declarations of the analysis are shared
    between the prepared copy and the dump, so a [prepare_*] function returns
    the prepared definition together with the caller's document as the
    rewrite leaves it. *)

Definition IMPORT_SUFFIX : string := "-imported".

(** [v.items()] *)
Definition py_items (v : json) : result dict :=
  match v with
  | JDict d => Ok d
  | _ => Raise AttributeError
  end.

(** [table[k]] on a remap table. *)
Definition remap (table : gmap string json) (k : string) : result json :=
  match table !! k with
  | Some v => Ok v
  | None => Raise (KeyError k)
  end.

(** [{r["org_id"]: r["arn"] for r in results}] added to [table].  The keys
    are the strings [import_datasource] and [import_dataset] took the
    identifier from; a key of another hashable kind would never be looked
    up by [remap]. *)
Fixpoint record_ids (results : list dict) (table : gmap string json)
    : result (gmap string json) :=
  match results with
  | [] => Ok table
  | r :: rest =>
      org_id ← py_getitem (JDict r) "org_id";
      arn ← py_getitem (JDict r) "arn";
      match org_id with
      | JStr id => record_ids rest (<[id := arn]> table)
      | JList _ | JDict _ => Raise TypeError
      | _ => record_ids rest table
      end
  end.

(** ** Datasource import functions *)

Definition prepare_datasource_definition (account_id : string) (datasource : json)
    : result dict :=
  fields ← py_items datasource;
  let definition := List.filter (fun kv => negb (is_none (snd kv))) fields in
  name ← py_getitem datasource "Name";
  new_name ← py_add_str name IMPORT_SUFFIX;
  Ok (Dict.update [("Name", new_name); ("AwsAccountId", JStr account_id)]
        definition).

(** ** Dataset import functions *)

(** One turn of the loop over the physical tables. *)
Definition rewrite_table (datasource_id_map : gmap string json) (table : json)
    : result json :=
  relational ← py_getitem table "RelationalTable";
  old_arn ← py_getitem relational "DataSourceArn";
  id ← get_id_from_arn_of old_arn;
  new_arn ← remap datasource_id_map id;
  relational' ← py_setitem relational "DataSourceArn" new_arn;
  py_setitem table "RelationalTable" relational'.

Definition rewrite_tables (datasource_id_map : gmap string json) (tables : dict)
    : result dict :=
  traverse (fun kv => pair (fst kv) <$> rewrite_table datasource_id_map (snd kv))
    tables.

(** The row-level-security part; [None] when the guard of the [if] is
    false. *)
Definition rewrite_rls (dataset_id_map : gmap string json) (definition : dict)
    : result (option json) :=
  match Dict.get "RowLevelPermissionDataSet" definition with
  | None => Ok None
  | Some rls =>
      has_arn ← py_in "Arn" rls;
      if (has_arn : bool) then
        old_arn ← py_getitem rls "Arn";
        id ← get_id_from_arn_of old_arn;
        new_arn ← remap dataset_id_map id;
        Some <$> py_setitem rls "Arn" new_arn
      else Ok None
  end.

Definition set_if_some (k : string) (v : option json) (d : dict) : dict :=
  match v with
  | Some x => Dict.set k x d
  | None => d
  end.

Definition prepare_dataset_definition (account_id : string) (dataset : json)
    (datasource_id_map dataset_id_map : gmap string json)
    : result (dict * json) :=
  fields ← py_items dataset;
  let definition :=
    List.filter (fun kv => negb (String.eqb (fst kv) "OutputColumns")
                           && negb (is_none (snd kv))) fields in
  name ← py_getitem dataset "Name";
  new_name ← py_add_str name IMPORT_SUFFIX;
  let definition :=
    Dict.update [("Name", new_name); ("AwsAccountId", JStr account_id)]
      definition in
  physical ← py_getitem (JDict definition) "PhysicalTableMap";
  tables ← py_items physical;
  tables' ← rewrite_tables datasource_id_map tables;
  let definition := Dict.set "PhysicalTableMap" (JDict tables') definition in
  rls' ← rewrite_rls dataset_id_map definition;
  Ok (set_if_some "RowLevelPermissionDataSet" rls' definition,
      JDict (set_if_some "RowLevelPermissionDataSet" rls'
               (Dict.set "PhysicalTableMap" (JDict tables') fields))).

(** ** Analysis and dashboard *)

Definition rewrite_declaration (dataset_id_map : gmap string json) (ds : json)
    : result json :=
  old_arn ← py_getitem ds "DataSetArn";
  id ← get_id_from_arn_of old_arn;
  new_arn ← remap dataset_id_map id;
  py_setitem ds "DataSetArn" new_arn.

(** The loop over the declarations; only a list has items the body
    accepts, the other iterables pass when they are empty. *)
Definition rewrite_declarations (dataset_id_map : gmap string json)
    (declarations : json) : result json :=
  items ← py_iter declarations;
  items' ← traverse (rewrite_declaration dataset_id_map) items;
  match declarations with
  | JList _ => Ok (JList items')
  | _ => Ok declarations
  end.

Definition prepare_analysis_definition (account_id : string)
    (dataset_id_map : gmap string json) (analysis : json)
    : result (dict * json) :=
  name ← py_getitem analysis "Name";
  target_analysis_name ← py_add_str name "-imported";
  analysis_id ← py_getitem analysis "AnalysisId";
  target_analysis_id ← py_add_str analysis_id "-imported";
  fields ← py_items analysis;
  let definition :=
    Dict.update [("Name", target_analysis_name);
                 ("AnalysisId", target_analysis_id);
                 ("AwsAccountId", JStr account_id)] fields in
  body ← py_getitem (JDict definition) "Definition";
  declarations ← py_get body "DataSetIdentifierDeclarations" JNull;
  declarations' ← rewrite_declarations dataset_id_map declarations;
  body' ← py_setitem body "DataSetIdentifierDeclarations" declarations';
  Ok (Dict.set "Definition" body' definition,
      JDict (Dict.set "Definition" body' fields)).

(** The fixed publish options and permission grants of a dashboard. *)
Definition availability (status : string) : json :=
  JDict [("AvailabilityStatus", JStr status)].

Definition DASHBOARD_PUBLISH_OPTIONS : json :=
  JDict [("AdHocFilteringOption", availability "DISABLED");
         ("ExportToCSVOption", availability "ENABLED");
         ("SheetControlsOption", JDict [("VisibilityState", JStr "COLLAPSED")]);
         ("SheetLayoutElementMaximizationOption", availability "ENABLED");
         ("VisualMenuOption", availability "ENABLED");
         ("VisualAxisSortOption", availability "ENABLED");
         ("ExportWithHiddenFieldsOption", availability "DISABLED");
         ("DataPointDrillUpDownOption", availability "ENABLED");
         ("DataPointMenuLabelOption", availability "ENABLED");
         ("DataPointTooltipOption", availability "ENABLED")].

Definition DASHBOARD_PERMISSIONS : json :=
  JList
    [JDict [("Principal",
             JStr "arn:aws:quicksight:us-east-1:157367673944:group/default/Reporting_management");
            ("Actions",
             JList [JStr "quicksight:DescribeDashboard";
                    JStr "quicksight:QueryDashboard";
                    JStr "quicksight:ListDashboardVersions"])];
     JDict [("Principal",
             JStr "arn:aws:quicksight:us-east-1:157367673944:user/default/dmitrii.kharitonov+dev@vindow.com");
            ("Actions",
             JList [JStr "quicksight:DescribeDashboard";
                    JStr "quicksight:ListDashboardVersions";
                    JStr "quicksight:UpdateDashboardPermissions";
                    JStr "quicksight:QueryDashboard";
                    JStr "quicksight:UpdateDashboard";
                    JStr "quicksight:DeleteDashboard";
                    JStr "quicksight:UpdateDashboardPublishedVersion";
                    JStr "quicksight:DescribeDashboardPermissions"])]].

(** [analysis.copy()] followed by [pop] with a string: a list has [copy]
    but its [pop] wants an index. *)
Definition prepare_dashboard_definition (account_id : string) (analysis : json)
    : result dict :=
  match analysis with
  | JDict fields =>
      analysis_id ← py_getitem analysis "AnalysisId";
      id ← py_add_str analysis_id "_dashboard";
      let definition := Dict.remove "AnalysisId" fields in
      analysis_name ← py_getitem (JDict definition) "Name";
      name ← py_add_str analysis_name "_dashboard";
      let definition := Dict.remove "Name" definition in
      let definition :=
        Dict.update [("AwsAccountId", JStr account_id);
                     ("Name", name);
                     ("DashboardId", id);
                     ("DashboardPublishOptions", DASHBOARD_PUBLISH_OPTIONS)]
          definition in
      Ok (Dict.set "Permissions" DASHBOARD_PERMISSIONS definition)
  | JList _ => Raise TypeError
  | _ => Raise AttributeError
  end.

Section ImportAssets.

Variable pstate : Type.
Variable respond : pstate -> operation -> dict -> result dict * pstate.

(** [int(s)] on a string, [None] where Python raises [ValueError]. *)
Variable py_int : string -> option Z.

Let io := io pstate.

Definition import_datasource (datasource : dict) : io dict :=
  _ ← lift (py_getitem (JDict datasource) "Name");
  original_datasource_id ← lift (py_getitem (JDict datasource) "DataSourceId");
  target_datasource_id ← lift (py_add_str original_datasource_id IMPORT_SUFFIX);
  let params := Dict.set "DataSourceId" target_datasource_id datasource in
  response ← create_or_update_asset respond params create_data_source update_data_source;
  lift
    (name ← py_getitem (JDict datasource) "Name";
     arn ← py_getitem (JDict response) "Arn";
     new_id ← py_getitem (JDict response) "DataSourceId";
     Ok [("name", name);
         ("arn", arn);
         ("new_id", new_id);
         ("org_id", original_datasource_id)]).

Definition import_datasources (account_id : string) (datasources : json)
    : io (list dict) :=
  items ← lift (py_iter datasources);
  for_each (fun ds =>
      definition ← lift (prepare_datasource_definition account_id ds);
      import_datasource definition)
    items.

Definition import_dataset (dataset : dict) : io dict :=
  _ ← lift (py_getitem (JDict dataset) "Name");
  original_dataset_id ← lift (py_getitem (JDict dataset) "DataSetId");
  target_dataset_id ← lift (py_add_str original_dataset_id IMPORT_SUFFIX);
  let dataset := Dict.set "DataSetId" target_dataset_id dataset in
  response ← create_or_update_asset respond dataset create_data_set update_data_set;
  lift
    (name ← py_getitem (JDict dataset) "Name";
     arn ← py_getitem (JDict response) "Arn";
     new_id ← py_getitem (JDict response) "DataSetId";
     Ok [("name", name);
         ("arn", arn);
         ("new_id", new_id);
         ("org_id", original_dataset_id);
         ("ingestion_id", default JNull (Dict.get "IngestionId" response));
         ("ingestion_arn", default JNull (Dict.get "IngestionArn" response))]).

(** The results, and the documents of [datasets] after the rewrite. *)
Definition import_datasets (account_id : string) (datasets : json)
    (datasource_id_map dataset_id_map : gmap string json)
    : io (list dict * json) :=
  items ← lift (py_iter datasets);
  pairs ← for_each (fun ds =>
      prepared ← lift
        (prepare_dataset_definition account_id ds
           datasource_id_map dataset_id_map);
      imported ← import_dataset (fst prepared);
      mret (imported, snd prepared))
    items;
  mret (fst <$> pairs,
        match datasets with
        | JList _ => JList (snd <$> pairs)
        | _ => datasets
        end).

Definition import_analysis (analysis : dict) : io dict :=
  _ ← lift (py_getitem (JDict analysis) "Name");
  response ← create_or_update_asset respond analysis create_analysis update_analysis;
  lift
    (name ← py_getitem (JDict analysis) "Name";
     arn ← py_getitem (JDict response) "Arn";
     id ← py_getitem (JDict response) "AnalysisId";
     Ok [("name", name); ("arn", arn); ("id", id)]).

Definition get_dashboard_version (version_arn : json) : result Z :=
  match version_arn with
  | JStr s =>
      text ← py_last (Str.split "/" s);
      match py_int text with
      | Some n => Ok n
      | None => Raise (ValueError (InvalidLiteral text))
      end
  | _ => Raise AttributeError
  end.

Definition import_dashboard (account_id : string) (dashboard : dict) : io dict :=
  response ← create_or_update_asset respond dashboard create_dashboard update_dashboard;
  version_arn ← lift (py_getitem (JDict response) "VersionArn");
  version ← lift (get_dashboard_version version_arn);
  dashboard_id ← lift (py_getitem (JDict response) "DashboardId");
  publish_response ←
    invoke respond update_dashboard_published_version
      [("AwsAccountId", JStr account_id);
       ("DashboardId", dashboard_id);
       ("VersionNumber", JNum version)];
  lift
    (_ ← py_getitem (JDict dashboard) "DashboardId";
     _ ← py_getitem (JDict publish_response) "Status";
     id ← py_getitem (JDict response) "DashboardId";
     arn ← py_getitem (JDict response) "Arn";
     publish_status ← py_getitem (JDict publish_response) "Status";
     Ok [("id", id);
         ("arn", arn);
         ("version", JNum version);
         ("publish_status", publish_status)]).

(** ** Main function to import the assets of a dump *)

Definition require_section (k message : string) (assets_dump : json)
    : result unit :=
  present ← py_in k assets_dump;
  if (present : bool) then Ok tt
  else Raise (ValueError (MissingSection message)).

Definition import_dump (account_id : string) (assets_dump : json) : io dict :=
  _ ← lift (require_section "datasources" "No datasources in dump file." assets_dump);
  _ ← lift (require_section "analysis_datasets" "No datasets in dump file." assets_dump);
  _ ← lift (require_section "analysis" "No analysis in dump file." assets_dump);
  datasources_section ← lift (py_getitem assets_dump "datasources");
  datasources ← import_datasources account_id datasources_section;
  datasource_id_map ← lift (record_ids datasources ∅);
  security_section ← lift (py_getitem assets_dump "security_datasets");
  security ← import_datasets account_id security_section datasource_id_map ∅;
  let security_datasets := fst security in
  dataset_id_map ← lift (record_ids security_datasets ∅);
  datasets_section ← lift (py_getitem assets_dump "analysis_datasets");
  imported ← import_datasets account_id datasets_section
               datasource_id_map dataset_id_map;
  let analysis_datasets := fst imported in
  dataset_id_map ← lift (record_ids analysis_datasets dataset_id_map);
  analysis_section ← lift (py_getitem assets_dump "analysis");
  prepared ← lift
    (prepare_analysis_definition account_id dataset_id_map analysis_section);
  analysis ← import_analysis (fst prepared);
  dashboard_definition ← lift
    (prepare_dashboard_definition account_id (snd prepared));
  dashboard ← import_dashboard account_id dashboard_definition;
  assets_dump' ← lift
    (d ← py_setitem assets_dump "security_datasets" (snd security);
     d ← py_setitem d "analysis_datasets" (snd imported);
     py_setitem d "analysis" (snd prepared));
  mret [("target_account", JStr account_id);
        ("assets_dump", assets_dump');
        ("datasources", JList (JDict <$> datasources));
        ("security_datasets", JList (JDict <$> security_datasets));
        ("analysis_datasets", JList (JDict <$> analysis_datasets));
        ("analysis", JDict analysis);
        ("dashboard", JDict dashboard)].

End ImportAssets.

(** * The vocabulary of the statements *)

(** The locator [scheme:partition:service:region:account:kind/identifier]. *)
Definition locator (scheme partition service region account kind identifier : string)
    : string :=
  scheme +:+ String ":" (partition +:+ String ":" (service +:+ String ":"
    (region +:+ String ":" (account +:+ String ":"
      (kind +:+ String "/" identifier))))).

Definition ALREADY_EXISTS : exn := ClientError "ResourceExistsException".

(** The check of the status that follows either call. *)
Definition validated (answer : result dict) : result dict :=
  response ← answer;
  status ← status_of response;
  if negb (success_status status)
  then Raise (ValueError (RequestFailed (JNum status) response))
  else Ok response.

(** The keyword arguments of a search. *)
Definition search_kwargs (account_id : string) (filters : json) : dict :=
  [("AwsAccountId", JStr account_id);
   ("Filters", filters);
   ("MaxResults", JNum 10)].

Definition id_of (id_key : string) (asset : dict) : json :=
  default JNull (Dict.get id_key asset).

(** The shape of a dataset record of the dump, as far as
    [prepare_dataset_definition] reads it: the name is a string, the
    physical-table map is a dictionary of tables, a relational table is a
    dictionary whose data-source locator is a string, and the
    row-level-security reference is null or a dictionary whose locator is a
    string.  Every field may be missing. *)
Definition absent_or (shape : json -> bool) (o : option json) : bool :=
  match o with
  | None => true
  | Some v => shape v
  end.

Definition is_str (v : json) : bool :=
  match v with JStr _ => true | _ => false end.

Definition reference_shape (arn_key : string) (v : json) : bool :=
  match v with
  | JDict d => absent_or is_str (Dict.get arn_key d)
  | _ => false
  end.

Definition table_shape (table : json) : bool :=
  match table with
  | JDict t =>
      absent_or (reference_shape "DataSourceArn") (Dict.get "RelationalTable" t)
  | _ => false
  end.

Definition dataset_shape (dataset : dict) : bool :=
  absent_or is_str (Dict.get "Name" dataset)
  && absent_or (fun v => match v with
                         | JNull => true
                         | JDict tables => forallb table_shape (Dict.values tables)
                         | _ => false
                         end)
       (Dict.get "PhysicalTableMap" dataset)
  && absent_or (fun v => is_none v || reference_shape "Arn" v)
       (Dict.get "RowLevelPermissionDataSet" dataset).

(** A table of the dump that [rewrite_table] accepts: a relational table
    whose data source has an entry in the remap table. *)
Definition relational_and_mapped (datasource_id_map : gmap string json)
    (table : json) : Prop :=
  exists relational arn id,
    py_getitem table "RelationalTable" = Ok relational /\
    py_getitem relational "DataSourceArn" = Ok (JStr arn) /\
    get_id_from_arn arn = Ok id /\
    is_Some (datasource_id_map !! id).

(** The row-level-security reference of a record names [id]. *)
Definition rls_names (dataset : dict) (id : string) : Prop :=
  exists rls arn,
    Dict.get "RowLevelPermissionDataSet" dataset = Some (JDict rls) /\
    Dict.get "Arn" rls = Some (JStr arn) /\
    get_id_from_arn arn = Ok id.

(** An outcome that is a value or a [KeyError]. *)
Definition ok_or_key_error {A} (r : result A) : Prop :=
  (exists a, r = Ok a) \/ (exists k, r = Raise (KeyError k)).

(** A table of the dump without a [RelationalTable] key. *)
Definition not_relational (table : json) : Prop :=
  exists t, table = JDict t /\ Dict.get "RelationalTable" t = None.

(** What the comprehension keeps of a field. *)
Definition kept (o : option json) : option json :=
  match o with
  | Some v => if is_none v then None else Some v
  | None => None
  end.

(** The fields [prepare_dataset_definition] keeps of a dataset record. *)
Definition prepared_fields (dataset : dict) : dict :=
  List.filter (fun kv => negb (String.eqb (fst kv) "OutputColumns")
                         && negb (is_none (snd kv))) dataset.

Definition section_size (k : string) (bundle : dict) : option nat :=
  match Dict.get k bundle with
  | Some (JList entries) => Some (length entries)
  | _ => None
  end.

Definition is_row (row : json) : Prop :=
  exists definition permissions,
    row = JDict [("definition", definition); ("permissions", permissions)].

Section Runs.

Variable pstate : Type.

(** The world after more calls. *)
Definition after (w : world pstate) (p : pstate) (calls : list request)
    : world pstate :=
  World p (sent w ++ calls).

(** Every call a computation makes satisfies [P]. *)
Definition sends {A} (P : request -> Prop) (m : io pstate A) : Prop :=
  forall w r w',
    m w = (r, w') -> exists calls, sent w' = sent w ++ calls /\ Forall P calls.

(** The first call a computation makes is [q], however it ends. *)
Definition starts_with {A} (q : request) (m : io pstate A) : Prop :=
  forall w r w', m w = (r, w') -> exists rest, sent w' = sent w ++ q :: rest.

End Runs.

Arguments after {pstate} w p calls.
Arguments sends {pstate A} P m.
Arguments starts_with {pstate A} q m.

Definition anything : request -> Prop := fun _ => True.

(** A physical table whose data-source locator is [arn]. *)
Definition points_to (arn : json) (table : json) : Prop :=
  exists relational,
    py_getitem table "RelationalTable" = Ok relational /\
    py_getitem relational "DataSourceArn" = Ok arn.

(** Keyword arguments whose physical tables all point to [arn]. *)
Definition carries (arn : json) (params : dict) : Prop :=
  exists tables,
    Dict.get "PhysicalTableMap" params = Some (JDict tables) /\
    Forall (points_to arn) (Dict.values tables).

Definition dataset_creation_carries (arn : json) (q : request) : Prop :=
  req_op q = create_data_set -> carries arn (req_kwargs q).

(** A physical table of the dump that refers to the data source [id]. *)
Definition refers_to (id : string) (table : json) : Prop :=
  exists t relational arn,
    table = JDict t /\
    Dict.get "RelationalTable" t = Some (JDict relational) /\
    Dict.get "DataSourceArn" relational = Some (JStr arn) /\
    get_id_from_arn arn = Ok id.

(** Every locator of a remap table is [arn]. *)
Definition maps_only_to (arn : json) (table : gmap string json) : Prop :=
  forall k v, table !! k = Some v -> v = arn.

(** The part of [import_dump] that follows the import of the analysis
    datasets, and the part that follows the import of the data sources; they
    only name the two ends of the body of [import_dump]. *)
Section Stages.

Variable pstate : Type.
Variable respond : pstate -> operation -> dict -> result dict * pstate.
Variable py_int : string -> option Z.

Definition after_datasets (account_id : string) (assets_dump : json)
    (datasources : list dict) (security : list dict * json)
    (dataset_id_map : gmap string json) (imported : list dict * json)
    : io pstate dict :=
  let security_datasets := fst security in
  let analysis_datasets := fst imported in
  dataset_id_map ← lift (record_ids analysis_datasets dataset_id_map);
  analysis_section ← lift (py_getitem assets_dump "analysis");
  prepared ← lift
    (prepare_analysis_definition account_id dataset_id_map analysis_section);
  analysis ← import_analysis pstate respond (fst prepared);
  dashboard_definition ← lift
    (prepare_dashboard_definition account_id (snd prepared));
  dashboard ← import_dashboard pstate respond py_int account_id dashboard_definition;
  assets_dump' ← lift
    (d ← py_setitem assets_dump "security_datasets" (snd security);
     d ← py_setitem d "analysis_datasets" (snd imported);
     py_setitem d "analysis" (snd prepared));
  mret [("target_account", JStr account_id);
        ("assets_dump", assets_dump');
        ("datasources", JList (JDict <$> datasources));
        ("security_datasets", JList (JDict <$> security_datasets));
        ("analysis_datasets", JList (JDict <$> analysis_datasets));
        ("analysis", JDict analysis);
        ("dashboard", JDict dashboard)].

Definition after_datasources (account_id : string) (assets_dump : json)
    (datasources : list dict) : io pstate dict :=
  datasource_id_map ← lift (record_ids datasources ∅);
  security_section ← lift (py_getitem assets_dump "security_datasets");
  security ← import_datasets pstate respond account_id security_section
               datasource_id_map ∅;
  dataset_id_map ← lift (record_ids (fst security) ∅);
  datasets_section ← lift (py_getitem assets_dump "analysis_datasets");
  imported ← import_datasets pstate respond account_id datasets_section
               datasource_id_map dataset_id_map;
  after_datasets account_id assets_dump datasources security
    dataset_id_map imported.

End Stages.

(** The bundle of the scenario: one data source, one analysis dataset, no
    security dataset. *)
Definition single_dataset_bundle (bundle : dict) (datasource dataset : json)
    : Prop :=
  Dict.get "datasources" bundle = Some (JList [datasource]) /\
  Dict.get "analysis_datasets" bundle = Some (JList [dataset]) /\
  Dict.get "security_datasets" bundle = Some (JList []) /\
  is_Some (Dict.get "analysis" bundle).

(** A dataset record with a name and an identifier, whose physical tables
    [tables] all refer to the data source [id], and without a
    row-level-security reference. *)
Definition dataset_over (id : string) (dataset : json) (tables : dict) : Prop :=
  exists fields name dataset_id,
    dataset = JDict fields /\
    NoDup (Dict.keys fields) /\
    Dict.get "Name" fields = Some (JStr name) /\
    Dict.get "DataSetId" fields = Some (JStr dataset_id) /\
    Dict.get "PhysicalTableMap" fields = Some (JDict tables) /\
    Forall (refers_to id) (Dict.values tables) /\
    kept (Dict.get "RowLevelPermissionDataSet" fields) = None.

(** A data-source record with the identifier [id]. *)
Definition datasource_named (id : string) (datasource : json) : Prop :=
  exists fields,
    datasource = JDict fields /\
    NoDup (Dict.keys fields) /\
    Dict.get "DataSourceId" fields = Some (JStr id).

(** * Two providers to run the program against *)

(** [int(s)] on a string of decimal digits. *)
Module Decimal.

Definition digit (c : ascii) : option Z :=
  let n := Z.of_nat (nat_of_ascii c) in
  if (48 <=? n) && (n <=? 57) then Some (n - 48) else None.

Fixpoint digits (s : string) (acc : Z) : option Z :=
  match s with
  | EmptyString => Some acc
  | String c rest =>
      match digit c with
      | Some d => digits rest (10 * acc + d)
      | None => None
      end
  end.

Definition parse (s : string) : option Z :=
  match s with
  | EmptyString => None
  | _ => digits s 0
  end.

End Decimal.

(** A target account: it remembers which objects exist, refuses to create
    one twice and answers with locators of its own. *)
Module Target.

Definition state : Type := list string.

Definition kind_of (op : operation) : option (string * string) :=
  match op with
  | create_data_source | update_data_source => Some ("datasource", "DataSourceId")
  | create_data_set | update_data_set => Some ("dataset", "DataSetId")
  | create_analysis | update_analysis => Some ("analysis", "AnalysisId")
  | create_dashboard | update_dashboard => Some ("dashboard", "DashboardId")
  | _ => None
  end.

Definition is_create (op : operation) : bool :=
  match op with
  | create_data_source | create_data_set | create_analysis | create_dashboard => true
  | _ => false
  end.

Definition arn_of (kind id : string) : string :=
  "arn:aws:quicksight:eu-west-1:222222222222:" +:+ kind +:+ "/" +:+ id.

Definition answer (kind id_key id : string) : dict :=
  [("Status", JNum 200);
   ("Arn", JStr (arn_of kind id));
   (id_key, JStr id);
   ("VersionArn", JStr (arn_of kind id +:+ "/version/1"))].

Definition known (name : string) (existing : state) : bool :=
  existsb (String.eqb name) existing.

Definition respond (existing : state) (op : operation) (kwargs : dict)
    : result dict * state :=
  match op, kind_of op with
  | update_dashboard_published_version, _ =>
      (Ok [("Status", JNum 200)], existing)
  | _, Some (kind, id_key) =>
      match Dict.get id_key kwargs with
      | Some (JStr id) =>
          let name := kind +:+ "/" +:+ id in
          if is_create op then
            if known name existing
            then (Raise (ClientError "ResourceExistsException"), existing)
            else (Ok (answer kind id_key id), existing ++ [name])
          else
            if known name existing
            then (Ok (answer kind id_key id), existing)
            else (Raise (ClientError "ResourceNotFoundException"), existing)
      | _ => (Raise (ClientError "InvalidParameterValueException"), existing)
      end
  | _, None => (Raise (ClientError "AccessDeniedException"), existing)
  end.

Definition fresh : world state := World [] [].

End Target.

(** A source account with one analysis over two datasets, [orders] and
    [customers]; [orders] is restricted by the rules dataset [rules]; the
    three datasets read from the one data source [warehouse]. *)
Module Source.

Definition arn_of (kind id : string) : string :=
  "arn:aws:quicksight:eu-west-1:111111111111:" +:+ kind +:+ "/" +:+ id.

Definition table (name : string) : json :=
  JDict [("RelationalTable",
          JDict [("DataSourceArn", JStr (arn_of "datasource" "warehouse"));
                 ("Name", JStr name);
                 ("InputColumns", JList [])])].

Definition dataset (id : string) (extra : dict) : dict :=
  [("Arn", JStr (arn_of "dataset" id));
   ("DataSetId", JStr id);
   ("Name", JStr id);
   ("PhysicalTableMap", JDict [("t1", table id)]);
   ("LogicalTableMap", JDict []);
   ("OutputColumns", JList []);
   ("ImportMode", JStr "SPICE")] ++ extra.

Definition orders : dict :=
  dataset "orders"
    [("RowLevelPermissionDataSet",
      JDict [("Arn", JStr (arn_of "dataset" "rules"));
             ("PermissionPolicy", JStr "GRANT_ACCESS")])].

Definition customers : dict := dataset "customers" [].
Definition rules : dict := dataset "rules" [].

Definition warehouse : dict :=
  [("Arn", JStr (arn_of "datasource" "warehouse"));
   ("DataSourceId", JStr "warehouse");
   ("Name", JStr "Warehouse");
   ("Type", JStr "REDSHIFT");
   ("DataSourceParameters", JDict [("RedshiftParameters", JDict [])])].

Definition analysis : dict :=
  [("Status", JNum 200);
   ("AnalysisId", JStr "sales");
   ("Name", JStr "Sales");
   ("Definition",
    JDict [("DataSetIdentifierDeclarations",
            JList [JDict [("Identifier", JStr "orders");
                          ("DataSetArn", JStr (arn_of "dataset" "orders"))];
                   JDict [("Identifier", JStr "customers");
                          ("DataSetArn", JStr (arn_of "dataset" "customers"))]]);
           ("Sheets", JList [])])].

Definition found (field : string) (document : dict) : result dict :=
  Ok [("Status", JNum 200); (field, JDict document)].

Definition not_found : result dict :=
  Raise (ClientError "ResourceNotFoundException").

Definition permissions : result dict :=
  Ok [("Status", JNum 200); ("Permissions", JList [])].

Definition names (id : string) (v : option json) : bool :=
  match v with
  | Some (JStr s) => String.eqb s id
  | _ => false
  end.

Definition respond (_ : unit) (op : operation) (kwargs : dict)
    : result dict * unit :=
  (match op with
   | describe_analysis_definition =>
       if names "sales" (Dict.get "AnalysisId" kwargs) then Ok analysis
       else not_found
   | describe_data_set =>
       let id := Dict.get "DataSetId" kwargs in
       if names "orders" id then found "DataSet" orders
       else if names "customers" id then found "DataSet" customers
       else if names "rules" id then found "DataSet" rules
       else not_found
   | describe_data_source =>
       if names "warehouse" (Dict.get "DataSourceId" kwargs)
       then found "DataSource" warehouse
       else not_found
   | describe_analysis_permissions
   | describe_data_set_permissions
   | describe_data_source_permissions => permissions
   | search_data_sets =>
       Ok [("Status", JNum 200);
           ("DataSetSummaries", JList [JDict orders; JDict customers])]
   | search_data_sources =>
       Ok [("Status", JNum 200); ("DataSourceSummaries", JList [JDict warehouse])]
   | search_dashboards =>
       Ok [("Status", JNum 200); ("DashboardSummaryList", JList [])]
   | _ => Raise (ClientError "AccessDeniedException")
   end, tt).

Definition start : world unit := World tt [].

End Source.

(** * The statements on concrete runs *)

Module Examples.

(** A dump with the data source [warehouse] and the dataset [customers]
    of the source account. *)
Definition datasource : json :=
  JDict (Source.warehouse ++ [("Credentials", JNull); ("Permissions", JList [])]).

Definition dataset : json :=
  JDict (Source.customers ++ [("Permissions", JList []);
                              ("RowLevelPermissionDataSet", JNull)]).

Definition bundle : dict :=
  [("analysis",
    JDict [("AnalysisId", JStr "sales");
           ("Name", JStr "Sales");
           ("Definition",
            JDict [("DataSetIdentifierDeclarations",
                    JList [JDict [("Identifier", JStr "customers");
                                  ("DataSetArn",
                                   JStr (Source.arn_of "dataset" "customers"))]])]);
           ("Permissions", JList [])]);
   ("analysis_datasets", JList [dataset]);
   ("security_datasets", JList []);
   ("datasources", JList [datasource])].

Definition new_arn : json :=
  JStr (Target.arn_of "datasource" "warehouse-imported").

(** A target account where the data source already exists. *)
Definition occupied : world Target.state :=
  World ["datasource/warehouse"] [].

Definition with_permissions : dict :=
  [("DataSourceId", JStr "warehouse");
   ("Name", JStr "Warehouse");
   ("Type", JStr "REDSHIFT");
   ("Permissions", JList [])].

Definition without_permissions : dict :=
  [("DataSourceId", JStr "warehouse");
   ("Name", JStr "Warehouse");
   ("Type", JStr "REDSHIFT")].

(** A dataset with a physical table that is not relational. *)
Definition uploaded : dict :=
  [("DataSetId", JStr "uploads");
   ("Name", JStr "Uploads");
   ("PhysicalTableMap",
    JDict [("t1", JDict [("S3Source", JDict [("DataSourceArn", JStr "x/y")])])])].

End Examples.

(** A dump of the data source [warehouse] alone, with every section but
    [security_datasets]. *)
Definition dump_without_security_datasets : json :=
  JDict [("analysis", JDict [("AnalysisId", JStr "sales");
                             ("Name", JStr "Sales");
                             ("Definition",
                              JDict [("DataSetIdentifierDeclarations", JList [])]);
                             ("Permissions", JList [])]);
         ("analysis_datasets", JList []);
         ("datasources",
          JList [JDict [("DataSourceId", JStr "warehouse");
                        ("Name", JStr "Warehouse");
                        ("Type", JStr "REDSHIFT");
                        ("DataSourceParameters", JDict []);
                        ("Credentials", JNull);
                        ("Permissions", JList [])]])].

(** * The vocabulary of the further statements *)

(** How often a character occurs in a string. *)
Fixpoint count_char (c : ascii) (s : string) : nat :=
  match s with
  | EmptyString => 0
  | String c' rest => (if Ascii.eqb c' c then 1 else 0) + count_char c rest
  end.

(** The exception of [get_asset_ids_from_definition] for an entry without
    the key. *)
Definition KEY_NOT_FOUND (arn_key : string) : exn :=
  IndexError ("Key " +:+ arn_key +:+ " not found").

(** A provider that answers every call with two matches and no status. *)
Module Silent.

Definition answer : dict :=
  [("Matches", JList [JDict [("Id", JStr "a")]; JDict [("Id", JStr "b")]])].

Definition respond (_ : unit) (_ : operation) (_ : dict) : result dict * unit :=
  (Ok answer, tt).

Definition start : world unit := World tt [].

End Silent.

(** The operations that only read. *)
Definition is_describe (op : operation) : bool :=
  match op with
  | describe_analysis_definition
  | describe_analysis_permissions
  | describe_data_set
  | describe_data_set_permissions
  | describe_data_source
  | describe_data_source_permissions => true
  | _ => false
  end.

(** A dataset definition with no relational physical table. *)
Definition without_relational_tables (dataset : dict) : Prop :=
  Dict.get "PhysicalTableMap" dataset = None \/
  exists tables,
    Dict.get "PhysicalTableMap" dataset = Some (JDict tables) /\
    Forall not_relational (Dict.values tables).

(** The description of an analysis that declares the datasets [declarations]. *)
Definition declares (analysis_definition : json) (declarations : list dict) : Prop :=
  exists fields definition,
    analysis_definition = JDict fields /\
    Dict.get "Definition" fields = Some (JDict definition) /\
    Dict.get "DataSetIdentifierDeclarations" definition
      = Some (JList (JDict <$> declarations)).

(** A reference whose locator under [arn_key] is a string with the
    identifier [id]. *)
Definition identifies (arn_key : string) (reference : dict) (id : string) : Prop :=
  exists arn,
    Dict.get arn_key reference = Some (JStr arn) /\ get_id_from_arn arn = Ok id.

(** A dictionary without a null value. *)
Definition without_nulls (d : dict) : Prop :=
  Forall (fun kv => is_none (snd kv) = false) d.

(** A declaration whose dataset locator is an entry of the remap table. *)
Definition remapped (dataset_id_map : gmap string json) (declaration : json)
    : Prop :=
  exists id arn,
    dataset_id_map !! id = Some arn /\
    py_getitem declaration "DataSetArn" = Ok arn.

(** The keys [prepare_dashboard_definition] removes or sets. *)
Definition dashboard_keys : list string :=
  ["AnalysisId"; "Name"; "AwsAccountId"; "DashboardId";
   "DashboardPublishOptions"; "Permissions"].

(** The place of an operation in the course of an import: data sources,
    datasets, analysis, dashboard, publication; 0 for the operations an
    import has no use for. *)
Definition stage (op : operation) : nat :=
  match op with
  | create_data_source | update_data_source => 1
  | create_data_set | update_data_set => 2
  | create_analysis | update_analysis => 3
  | create_dashboard | update_dashboard => 4
  | update_dashboard_published_version => 5
  | _ => 0
  end.

Definition in_stages (lo hi : nat) (q : request) : Prop :=
  (lo <= stage (req_op q) <= hi)%nat.

Definition stage_le (q q' : request) : Prop :=
  (stage (req_op q) <= stage (req_op q'))%nat.

(** No call is followed, at any distance, by a call of an earlier stage. *)
Fixpoint in_stage_order (calls : list request) : Prop :=
  match calls with
  | [] => True
  | q :: rest => Forall (stage_le q) rest /\ in_stage_order rest
  end.

(** The calls of a computation are of the stages [lo] to [hi], in order. *)
Definition staged {pstate A} (lo hi : nat) (m : io pstate A) : Prop :=
  forall w r w',
    m w = (r, w') ->
    exists calls,
      sent w' = sent w ++ calls /\
      Forall (in_stages lo hi) calls /\
      in_stage_order calls.

(** The request that publishes a version of a dashboard. *)
Definition publication (account_id : string) (id : json) (version : Z)
    : request :=
  Request update_dashboard_published_version
    [("AwsAccountId", JStr account_id);
     ("DashboardId", id);
     ("VersionNumber", JNum version)].

(** What [int] makes of a text, or its error. *)
Definition parsed (py_int : string -> option Z) (text : string) : result Z :=
  match py_int text with
  | Some n => Ok n
  | None => Raise (ValueError (InvalidLiteral text))
  end.

(** The section [k] of the result of an import has one entry for each item
    of the section [k] of the dump. *)
Definition reported (k : string) (bundle result : dict) : Prop :=
  exists section items,
    Dict.get k bundle = Some section /\
    py_iter section = Ok items /\
    section_size k result = Some (length items).

(** The keyword arguments of a describe call. *)
Definition describe_kwargs (account_id : string) (params : dict) : dict :=
  ("AwsAccountId", JStr account_id) :: params.

(** What [describe_asset] returns from a response. *)
Definition looked_up (lookup_field : option string) (response : dict) : json :=
  match lookup_field with
  | Some (String c f) => default JNull (Dict.get (String c f) response)
  | _ => JDict response
  end.

(** * Properties *)

(** ** Splitting locators *)

Module StrFacts.
Import Str.

Lemma split_sep (sep : ascii) (rest : string) :
  split sep (String sep rest) = EmptyString :: split sep rest.
Proof. simpl. by rewrite Ascii.eqb_refl. Qed.

Lemma split_not_nil (sep : ascii) (s : string) : split sep s ≠ [].
Proof.
  destruct s as [|c s]; simpl; [done|].
  destruct (Ascii.eqb c sep); [done|].
  by destruct (split sep s).
Qed.

Lemma has_char_cons (sep c : ascii) (s : string) :
  has_char sep (String c s) = false ->
  Ascii.eqb c sep = false /\ has_char sep s = false.
Proof. simpl. by intros [? ?]%orb_false_iff. Qed.

(** A separator after a segment that has none cuts exactly there. *)
Lemma split_segment (sep : ascii) (a b : string) :
  has_char sep a = false ->
  split sep (a +:+ String sep b) = a :: split sep b.
Proof.
  induction a as [|c a IH]; intros Hfree.
  - apply split_sep.
  - apply has_char_cons in Hfree as [Hc Ha].
    change (String c a +:+ String sep b) with (String c (a +:+ String sep b)).
    cbn [split]. rewrite Hc, (IH Ha). done.
Qed.

Lemma split_whole (sep : ascii) (a : string) :
  has_char sep a = false -> split sep a = [a].
Proof.
  induction a as [|c a IH]; intros Hfree; [done|].
  apply has_char_cons in Hfree as [Hc Ha].
  cbn [split]. by rewrite Hc, (IH Ha).
Qed.

Lemma append_cons_assoc (a b d : string) (c : ascii) :
  a +:+ String c (b +:+ d) = (a +:+ String c b) +:+ d.
Proof.
  induction a as [|c' a IH]; [done|].
  change (String c' (a +:+ String c (b +:+ d))
          = String c' ((a +:+ String c b) +:+ d)).
  by rewrite IH.
Qed.

(** What comes before a separator only adds segments in front. *)
Lemma split_after (sep : ascii) (p b : string) :
  exists seg segs, split sep (p +:+ String sep b) = seg :: segs ++ split sep b.
Proof.
  induction p as [|c p (seg & segs & IH)].
  - exists EmptyString, []. apply split_sep.
  - change (String c p +:+ String sep b) with (String c (p +:+ String sep b)).
    cbn [split]. rewrite IH. destruct (Ascii.eqb c sep).
    + by exists EmptyString, (seg :: segs).
    + by exists (String c seg), segs.
Qed.

Lemma last_split_after (sep : ascii) (p b : string) :
  last (split sep (p +:+ String sep b)) = last (split sep b).
Proof.
  destruct (split_after sep p b) as (seg & segs & ->).
  rewrite app_comm_cons, last_app.
  pose proof (split_not_nil sep b) as Hne.
  destruct (split sep b) as [|x l] using rev_ind; [done|].
  by rewrite last_snoc.
Qed.

End StrFacts.

(** C7. For a locator [scheme:partition:service:region:account:kind/identifier]
    (the five leading segments free of [:], the identifier free of [/]),
    [get_id_from_arn] returns the part after the final [/], and
    [get_account_id_from_arn] returns the segment of index 4 among those
    separated by [:]. *)
Theorem arn_extraction
    (scheme partition service region account kind identifier : string) :
  Str.has_char ":" scheme = false ->
  Str.has_char ":" partition = false ->
  Str.has_char ":" service = false ->
  Str.has_char ":" region = false ->
  Str.has_char ":" account = false ->
  Str.has_char "/" identifier = false ->
  let arn := locator scheme partition service region account kind identifier in
  get_id_from_arn arn = Ok identifier /\
  get_account_id_from_arn arn = Ok account /\
  (Str.split ":" arn) !! 4%nat = Some account.
Proof.
  intros H0 H1 H2 H3 H4 Hid arn. subst arn. unfold locator.
  split; [|split].
  - unfold get_id_from_arn, py_last.
    rewrite !StrFacts.append_cons_assoc.
    rewrite StrFacts.last_split_after, (StrFacts.split_whole _ _ Hid). done.
  - unfold get_account_id_from_arn, py_nth.
    rewrite !StrFacts.split_segment by done. done.
  - rewrite !StrFacts.split_segment by done. done.
Qed.

Lemma arn_extraction_witness :
  get_id_from_arn "arn:aws:quicksight:region:account:asset/123" = Ok "123" /\
  get_account_id_from_arn "arn:aws:quicksight:region:account:asset/123"
    = Ok "account".
Proof.
  pose proof (arn_extraction "arn" "aws" "quicksight" "region" "account"
                "asset" "123" eq_refl eq_refl eq_refl eq_refl eq_refl eq_refl)
    as (Hid & Hacc & _).
  split; [exact Hid | exact Hacc].
Defined.

(** ** Reasoning about functions that may raise *)

Lemma bind_ok {A B} (m : result A) (f : A -> result B) (b : B) :
  m ≫= f = Ok b <-> exists a, m = Ok a /\ f a = Ok b.
Proof.
  destruct m as [a|e]; simpl; split.
  - intros H. by exists a.
  - by intros (a' & [= ->] & H).
  - done.
  - by intros (a' & [=] & _).
Qed.

Lemma fmap_ok {A B} (m : result A) (f : A -> B) (b : B) :
  f <$> m = Ok b <-> exists a, m = Ok a /\ f a = b.
Proof.
  destruct m as [a|e]; simpl; split.
  - intros [= <-]. by exists a.
  - by intros (a' & [= ->] & ->).
  - done.
  - by intros (a' & [=] & _).
Qed.

(** Splits a successful run of a sequence of steps into its steps. *)
Ltac ok_steps :=
  repeat match goal with
    | H : _ ≫= _ = Ok _ |- _ => apply bind_ok in H as (? & ? & H)
    | H : _ <$> _ = Ok _ |- _ => apply fmap_ok in H as (? & ? & H)
    | H : Ok _ = Ok _ |- _ => injection H as H
    | H : Raise _ = Ok _ |- _ => discriminate H
    | H : (if ?b then _ else _) = Ok _ |- _ => destruct b eqn:?
    end.

Lemma traverse_ok {A B} (f : A -> result B) (l : list A) (l' : list B) :
  traverse f l = Ok l' <-> Forall2 (fun x y => f x = Ok y) l l'.
Proof.
  revert l'. induction l as [|x l IH]; intros l'; simpl.
  - split; [intros [= <-]; constructor | by inversion 1].
  - split.
    + intros H. ok_steps. subst l'. constructor; [done|]. by apply IH.
    + inversion 1 as [|? y ? ys Hx Hl]; subst.
      rewrite Hx. simpl. apply IH in Hl. by rewrite Hl.
Qed.

(** ** Row-level-security extraction *)

Lemma present_fields_absent (k : string) (l : list json) :
  Forall (fun e => py_in k e = Ok false) l -> present_fields k l = Ok [].
Proof.
  unfold present_fields. induction 1 as [|e l He _ IH]; [done|].
  simpl. rewrite He. simpl.
  destruct (traverse _ l) as [ys|err]; simpl in *; [|done].
  by injection IH as ->.
Qed.

(** C6. When no dataset definition of the list has a
    [RowLevelPermissionDataSet] field, [get_rls_dataset_ids] returns the
    empty set; it does not raise. *)
Theorem get_rls_dataset_ids_no_rls (dataset_definitions : list dict) :
  Forall (fun ds => Dict.get "RowLevelPermissionDataSet" ds = None)
    dataset_definitions ->
  get_rls_dataset_ids (JDict <$> dataset_definitions) = Ok ∅.
Proof.
  intros Hnone. unfold get_rls_dataset_ids.
  rewrite present_fields_absent; [done|].
  apply Forall_fmap. eapply Forall_impl; [exact Hnone|].
  intros ds Hds. simpl. unfold Dict.mem. by rewrite Hds.
Qed.

Lemma get_rls_dataset_ids_no_rls_witness :
  get_rls_dataset_ids
    [JDict [("DataSetId", JStr "sales"); ("Name", JStr "Sales")];
     JDict [("DataSetId", JStr "costs"); ("PhysicalTableMap", JDict [])]]
  = Ok ∅.
Proof.
  apply (get_rls_dataset_ids_no_rls
           [[("DataSetId", JStr "sales"); ("Name", JStr "Sales")];
            [("DataSetId", JStr "costs"); ("PhysicalTableMap", JDict [])]]).
  repeat constructor.
Defined.

(** ** The credential field of an exported data source *)

Lemma dump_data_source_ok (definition permissions : json) (record : dict) :
  dump_data_source definition permissions = Ok record ->
  Dict.get "Credentials" record = Some JNull.
Proof.
  intros H. unfold dump_data_source in H. ok_steps. by subst record.
Qed.

(** C8. Whatever the definition and the permission list are, a record that
    [dump_data_source] builds has [Credentials] equal to null; and it does
    build one for every definition that carries the four mandatory fields. *)
Theorem dump_data_source_credentials (definition permissions : json) :
  (forall record,
      dump_data_source definition permissions = Ok record ->
      Dict.get "Credentials" record = Some JNull) /\
  (forall fields,
      definition = JDict fields ->
      Forall (fun k => Dict.mem k fields = true)
        ["DataSourceId"; "Name"; "Type"; "DataSourceParameters"] ->
      exists record,
        dump_data_source definition permissions = Ok record /\
        Dict.get "Credentials" record = Some JNull /\
        Dict.get "Permissions" record = Some permissions).
Proof.
  split.
  - apply dump_data_source_ok.
  - intros fields -> Hreq.
    repeat match goal with
      | H : Forall _ (_ :: _) |- _ => apply Forall_cons in H as [? H]
      end.
    unfold dump_data_source, py_getitem, Dict.mem in *.
    repeat match goal with
      | H : match Dict.get ?k fields with _ => _ end = true |- _ =>
          destruct (Dict.get k fields); [clear H | discriminate H]
      end.
    simpl. eexists. split; [reflexivity|]. done.
Qed.

Lemma dump_data_source_credentials_witness :
  exists record,
    dump_data_source
      (JDict [("DataSourceId", JStr "warehouse");
              ("Name", JStr "Warehouse");
              ("Type", JStr "REDSHIFT");
              ("DataSourceParameters", JDict []);
              ("Credentials", JStr "secret")])
      (JList []) = Ok record /\
    Dict.get "Credentials" record = Some JNull.
Proof.
  destruct (dump_data_source_credentials
              (JDict [("DataSourceId", JStr "warehouse");
                      ("Name", JStr "Warehouse");
                      ("Type", JStr "REDSHIFT");
                      ("DataSourceParameters", JDict []);
                      ("Credentials", JStr "secret")])
              (JList [])) as [_ Htotal].
  destruct (Htotal _ eq_refl) as (record & Hrun & Hcred & _).
  - repeat constructor.
  - exists record. split; [exact Hrun | exact Hcred].
Defined.

(** ** Runs against a provider *)

Lemma dict_remove_absent (k : string) (d : dict) :
  Dict.mem k d = false -> Dict.remove k d = d.
Proof.
  unfold Dict.mem, Dict.remove. induction d as [|[k' v] d IH]; [done|].
  simpl. destruct (String.eqb k' k); [done|]. simpl.
  intros H. by rewrite (IH H).
Qed.


Lemma traverse_get_dicts (k : string) (l : list dict) :
  traverse (fun asset => py_get asset k JNull) (JDict <$> l)
  = Ok ((fun d => default JNull (Dict.get k d)) <$> l).
Proof.
  induction l as [|d l IH]; [done|].
  rewrite !fmap_cons. cbn [traverse]. by rewrite IH.
Qed.

Section ProviderFacts.

Variable pstate : Type.
Variable respond : pstate -> operation -> dict -> result dict * pstate.

Lemma invoke_run (op : operation) (kwargs : dict) (w : world pstate) r p :
  respond (provider w) op kwargs = (r, p) ->
  invoke respond op kwargs w = (r, after w p [Request op kwargs]).
Proof. unfold invoke. by intros ->. Qed.

(** C9. When [params] has no [Permissions] key and the create function
    raises the already-exists error, [create_or_update_asset] raises
    [KeyError] for [Permissions]; the create call is the only call made. *)
Theorem create_or_update_asset_without_permissions
    (params : dict) (create_fn update_fn : operation) (w : world pstate)
    (p : pstate) :
  Dict.mem "Permissions" params = false ->
  respond (provider w) create_fn params = (Raise ALREADY_EXISTS, p) ->
  create_or_update_asset respond params create_fn update_fn w
  = (Raise (KeyError "Permissions"), after w p [Request create_fn params]).
Proof.
  intros Hperm Hcreate.
  unfold create_or_update_asset.
  unfold mbind, io_bind, except_client_error.
  rewrite (invoke_run _ _ _ _ _ Hcreate). simpl.
  unfold lift, py_pop. by rewrite Hperm.
Qed.

(** C3 (as amended). When [params] has a [Permissions] key and the create
    function raises the already-exists error, the update function is
    called, right after the create call, with [params] less its
    [Permissions] entry and less its [Type] entry; when the create function
    raises anything else, that exception is the outcome and the create call
    is the only call made. *)
Theorem create_or_update_asset_policy
    (params : dict) (create_fn update_fn : operation) (w : world pstate)
    (p : pstate) (e : exn) :
  respond (provider w) create_fn params = (Raise e, p) ->
  (e = ALREADY_EXISTS ->
   Dict.mem "Permissions" params = true ->
   let update_params := Dict.remove "Type" (Dict.remove "Permissions" params) in
   forall answer p',
     respond p update_fn update_params = (answer, p') ->
     create_or_update_asset respond params create_fn update_fn w
     = (validated answer,
        after w p' [Request create_fn params;
                    Request update_fn update_params])) /\
  (e <> ALREADY_EXISTS ->
   create_or_update_asset respond params create_fn update_fn w
   = (Raise e, after w p [Request create_fn params])).
Proof.
  intros Hcreate.
  unfold create_or_update_asset.
  unfold mbind, io_bind, except_client_error.
  rewrite (invoke_run _ _ _ _ _ Hcreate). split.
  - intros -> Hperm answer p' Hupdate. simpl.
    unfold lift, py_pop. rewrite Hperm.
    assert (Hsame : (if Dict.mem "Type" (Dict.remove "Permissions" params)
                     then Dict.remove "Type" (Dict.remove "Permissions" params)
                     else Dict.remove "Permissions" params)
                    = Dict.remove "Type" (Dict.remove "Permissions" params)).
    { destruct (Dict.mem "Type" _) eqn:E; [done|].
      symmetry. by apply dict_remove_absent. }
    rewrite Hsame. unfold invoke, after. cbn [provider sent]. rewrite Hupdate.
    rewrite <- app_assoc. cbn [app]. unfold validated.
    destruct answer as [response|e']; [|done]. simpl.
    destruct (status_of response) as [status|e'']; [|done]. simpl.
    by destruct (success_status status).
  - intros Hother. destruct e as [| | | | |code]; try done.
    destruct (String.eqb code "ResourceExistsException") eqn:E.
    + apply String.eqb_eq in E. by subst code.
    + done.
Qed.

(** C4. When the search answers with a success status and the list
    [matches] under the lookup field, [find_asset_id] raises the not-found
    error for no match, returns the identifier of the match for exactly
    one, and raises the cardinality error for two or more. *)
Theorem find_asset_id_cardinality
    (account_id : string) (search_fn : operation) (filters : json)
    (lookup_field id_key : string) (w : world pstate)
    (response : dict) (p : pstate) (status : Z) (matches : list dict) :
  respond (provider w) search_fn (search_kwargs account_id filters)
    = (Ok response, p) ->
  status_of response = Ok status ->
  success_status status = true ->
  Dict.get lookup_field response = Some (JList (JDict <$> matches)) ->
  find_asset_id respond account_id search_fn filters lookup_field id_key w
  = (match matches with
     | [] => Raise (ValueError (NoAssetsFound filters))
     | [asset] => Ok (id_of id_key asset)
     | _ => Raise (ValueError
                     (MultipleAssetsFound filters (id_of id_key <$> matches)))
     end,
     after w p [Request search_fn (search_kwargs account_id filters)]).
Proof.
  intros Hsearch Hstatus Hsuccess Hfound.
  unfold find_asset_id, find_asset_ids, find_assets.
  unfold mbind, io_bind. fold (search_kwargs account_id filters).
  rewrite (invoke_run _ _ _ _ _ Hsearch).
  unfold lift at 1. rewrite Hstatus, Hsuccess. cbn [negb].
  unfold lift at 1. rewrite Hfound.
  destruct matches as [|asset [|asset' more]]; [done| |].
  - cbn. unfold lift. rewrite Hfound. done.
  - cbn. unfold lift. rewrite Hfound. cbn.
    by rewrite traverse_get_dicts.
Qed.

End ProviderFacts.

(** ** Dictionaries with distinct keys *)

Module DictFacts.

Lemma get_set (k k' : string) (v : json) (d : dict) :
  Dict.get k (Dict.set k' v d)
  = if String.eqb k' k then Some v else Dict.get k d.
Proof.
  induction d as [|[k0 v0] d IH]; simpl.
  - by destruct (String.eqb k' k).
  - destruct (String.eqb k0 k') eqn:E0; simpl.
    + apply String.eqb_eq in E0 as ->. by destruct (String.eqb k' k).
    + destruct (String.eqb k0 k) eqn:E1; [|done].
      apply String.eqb_eq in E1 as ->.
      rewrite String.eqb_sym in E0. by rewrite E0.
Qed.

Lemma get_none_not_key (k : string) (d : dict) :
  k ∉ Dict.keys d -> Dict.get k d = None.
Proof.
  induction d as [|[k0 v0] d IH]; [done|]. simpl.
  intros Hk. apply not_elem_of_cons in Hk as [Hne Hk].
  destruct (String.eqb k0 k) eqn:E; [|by apply IH].
  apply String.eqb_eq in E. by subst.
Qed.

Lemma keys_filter (P : string * json -> bool) (k : string) (d : dict) :
  k ∉ Dict.keys d -> k ∉ Dict.keys (List.filter P d).
Proof.
  induction d as [|[k0 v0] d IH]; [done|]. simpl.
  intros Hk. apply not_elem_of_cons in Hk as [Hne Hk].
  destruct (P (k0, v0)); simpl; [|by apply IH].
  apply not_elem_of_cons. split; [done | by apply IH].
Qed.

(** Filtering a dictionary keeps or drops the one entry of a key. *)
Lemma get_filter (P : string * json -> bool) (k : string) (d : dict) :
  NoDup (Dict.keys d) ->
  Dict.get k (List.filter P d)
  = match Dict.get k d with
    | Some v => if P (k, v) then Some v else None
    | None => None
    end.
Proof.
  induction d as [|[k0 v0] d IH]; [done|]. simpl.
  intros Hnodup. apply NoDup_cons in Hnodup as [Hfresh Hnodup].
  destruct (String.eqb k0 k) eqn:E.
  - apply String.eqb_eq in E as ->.
    destruct (P (k, v0)); simpl.
    + by rewrite String.eqb_refl.
    + apply get_none_not_key. by apply keys_filter.
  - destruct (P (k0, v0)); simpl; [rewrite E|]; by apply IH.
Qed.

Lemma mem_get (k : string) (d : dict) :
  Dict.mem k d = true <-> is_Some (Dict.get k d).
Proof.
  unfold Dict.mem. destruct (Dict.get k d); split; done.
Qed.

End DictFacts.

Lemma get_id_from_arn_total (arn : string) :
  exists id, get_id_from_arn arn = Ok id.
Proof.
  unfold get_id_from_arn, py_last.
  pose proof (StrFacts.split_not_nil "/" arn) as Hne.
  destruct (Str.split "/" arn) as [|seg segs] using rev_ind; [done|].
  rewrite last_snoc. by eexists.
Qed.

(** ** Preparing a dataset for import *)

Module PrepareFacts.

Lemma remap_spec (table : gmap string json) (k : string) :
  (exists v, table !! k = Some v /\ remap table k = Ok v) \/
  (table !! k = None /\ remap table k = Raise (KeyError k)).
Proof. unfold remap. destruct (table !! k); [left|right]; eauto. Qed.

Lemma rewrite_table_ok (m : gmap string json) (table table' : json) :
  rewrite_table m table = Ok table' -> relational_and_mapped m table.
Proof.
  unfold rewrite_table. intros H. ok_steps.
  match goal with
  | H : get_id_from_arn_of ?a = Ok _ |- _ =>
      destruct a; try discriminate H; simpl in H
  end.
  match goal with
  | H : remap _ _ = Ok _ |- _ =>
      unfold remap in H;
      match type of H with
      | context [m !! ?i] => destruct (m !! i) eqn:Hm; [|discriminate H]
      end
  end.
  repeat eexists; eauto.
Qed.

Lemma rewrite_table_shape (m : gmap string json) (table : json) :
  table_shape table = true -> ok_or_key_error (rewrite_table m table).
Proof.
  unfold table_shape, rewrite_table. destruct table as [| | | | |t]; try done.
  cbn [py_getitem]. destruct (Dict.get "RelationalTable" t) as [rt|];
    [|intros _; right; by eexists].
  cbn [absent_or reference_shape mbind result_bind].
  destruct rt as [| | | | |rt]; try done.
  cbn [py_getitem reference_shape].
  destruct (Dict.get "DataSourceArn" rt) as [arn|];
    [|intros _; right; by eexists].
  cbn [absent_or mbind result_bind]. destruct arn as [| | |arn| |]; try done.
  intros _. cbn [get_id_from_arn_of].
  destruct (get_id_from_arn_total arn) as [id ->]. cbn [mbind result_bind].
  destruct (remap_spec m id) as [(v & _ & ->)|[_ ->]].
  - left. by eexists.
  - right. by eexists.
Qed.

Lemma traverse_ok_or_key_error {A B} (f : A -> result B) (l : list A) :
  Forall (fun x => ok_or_key_error (f x)) l ->
  ok_or_key_error (traverse f l).
Proof.
  induction 1 as [|x l Hx _ IH]; [left; by eexists|].
  cbn [traverse]. destruct Hx as [[y ->]|[k ->]]; [|right; by eexists].
  cbn [mbind result_bind].
  destruct IH as [[ys ->]|[k ->]]; [left|right]; by eexists.
Qed.

Lemma rewrite_tables_shape (m : gmap string json) (tables : dict) :
  forallb table_shape (Dict.values tables) = true ->
  ok_or_key_error (rewrite_tables m tables).
Proof.
  intros Hshape. apply traverse_ok_or_key_error.
  apply Is_true_true_2, forallb_True in Hshape.
  unfold Dict.values in Hshape. rewrite Forall_fmap in Hshape.
  eapply Forall_impl; [exact Hshape|]. intros [k table] Ht. simpl in *.
  apply Is_true_true in Ht.
  destruct (rewrite_table_shape m table Ht) as [[t' ->]|[k' ->]];
    [left|right]; by eexists.
Qed.

Lemma rewrite_tables_ok (m : gmap string json) (tables tables' : dict) :
  rewrite_tables m tables = Ok tables' ->
  Forall (relational_and_mapped m) (Dict.values tables).
Proof.
  unfold rewrite_tables. intros H%traverse_ok.
  apply Forall_fmap. induction H as [|[k t] [k' t'] l l' Hx _ IH];
    constructor; [|done].
  simpl in *. apply fmap_ok in Hx as (t'' & Hx & _).
  by eapply rewrite_table_ok.
Qed.

End PrepareFacts.

Module PrepareDataset.
Import PrepareFacts.

Section Run.

Variable account_id : string.
Variable dataset : dict.
Variable datasource_id_map dataset_id_map : gmap string json.
Hypothesis distinct_keys : NoDup (Dict.keys dataset).

Lemma get_prepared (k : string) (new_name : json) :
  String.eqb "Name" k = false ->
  String.eqb "AwsAccountId" k = false ->
  String.eqb k "OutputColumns" = false ->
  Dict.get k (Dict.update [("Name", new_name);
                           ("AwsAccountId", JStr account_id)] (prepared_fields dataset))
  = kept (Dict.get k dataset).
Proof.
  intros Hname Haccount Hcolumns. unfold Dict.update. cbn [fold_left fst snd].
  rewrite !DictFacts.get_set, Hname, Haccount.
  unfold prepared_fields. rewrite DictFacts.get_filter by done.
  unfold kept. destruct (Dict.get k dataset) as [v|]; [|done].
  cbn [fst snd]. rewrite Hcolumns. cbn [negb andb]. by destruct (is_none v).
Qed.

Lemma prepare_ok_tables (definition : dict) (document : json) :
  prepare_dataset_definition account_id (JDict dataset)
    datasource_id_map dataset_id_map = Ok (definition, document) ->
  exists tables,
    Dict.get "PhysicalTableMap" dataset = Some (JDict tables) /\
    Forall (relational_and_mapped datasource_id_map) (Dict.values tables).
Proof.
  unfold prepare_dataset_definition. cbn [py_items mbind result_bind].
  fold (prepared_fields dataset). intros H. ok_steps.
  match goal with
  | H : py_getitem (JDict (Dict.update _ _)) _ = Ok ?physical |- _ =>
      unfold py_getitem in H; rewrite get_prepared in H by done;
      rename H into Hphysical, physical into tables_value
  end.
  unfold kept in Hphysical.
  destruct (Dict.get "PhysicalTableMap" dataset) as [v|]; [|done].
  destruct (is_none v); [done|]. injection Hphysical as ->.
  match goal with
  | H : py_items _ = Ok ?t |- _ =>
      destruct tables_value; try discriminate H; injection H as ->
  end.
  eexists. split; [done|]. by eapply rewrite_tables_ok.
Qed.

Lemma prepare_ok_rls (definition : dict) (document : json) (id : string) :
  prepare_dataset_definition account_id (JDict dataset)
    datasource_id_map dataset_id_map = Ok (definition, document) ->
  rls_names dataset id ->
  is_Some (dataset_id_map !! id).
Proof.
  unfold prepare_dataset_definition. cbn [py_items mbind result_bind].
  fold (prepared_fields dataset). intros H (rls & arn & Hrls & Harn & Hid). ok_steps.
  match goal with
  | H : rewrite_rls _ _ = Ok _ |- _ =>
      unfold rewrite_rls in H;
      rewrite DictFacts.get_set in H; cbn [String.eqb Ascii.eqb Bool.eqb] in H;
      rewrite get_prepared, Hrls in H by done;
      cbn [kept is_none py_in mbind result_bind] in H;
      unfold Dict.mem, py_getitem in H; rewrite Harn in H;
      cbn [mbind result_bind get_id_from_arn_of] in H;
      rewrite Hid in H; cbn [mbind result_bind] in H;
      unfold remap in H
  end.
  destruct (dataset_id_map !! id); [done|]. ok_steps.
Qed.

Lemma prepare_shape :
  dataset_shape dataset = true ->
  ok_or_key_error
    (prepare_dataset_definition account_id (JDict dataset)
       datasource_id_map dataset_id_map).
Proof.
  unfold dataset_shape.
  intros [[Hname Htables]%andb_prop Hrls]%andb_prop.
  unfold prepare_dataset_definition.
  cbn [py_items py_getitem mbind result_bind]. fold (prepared_fields dataset).
  destruct (Dict.get "Name" dataset) as [name|];
    [|right; eexists; reflexivity].
  cbn [absent_or] in Hname. destruct name as [| | |name| |]; try done.
  cbn [py_add_str mbind result_bind]. rewrite get_prepared by done.
  destruct (Dict.get "PhysicalTableMap" dataset) as [physical|];
    [|right; eexists; reflexivity].
  cbn [absent_or] in Htables.
  destruct physical as [| | | | |tables]; try done;
    [right; eexists; reflexivity|].
  cbn [kept is_none py_items mbind result_bind].
  destruct (rewrite_tables_shape datasource_id_map tables Htables)
    as [[tables' ->]|[k ->]]; [|right; eexists; reflexivity].
  cbn [mbind result_bind]. unfold rewrite_rls.
  rewrite DictFacts.get_set. cbn [String.eqb Ascii.eqb Bool.eqb].
  rewrite get_prepared by done.
  destruct (Dict.get "RowLevelPermissionDataSet" dataset) as [rls|];
    [|left; eexists; reflexivity].
  cbn [absent_or] in Hrls.
  destruct rls as [| | | | |rls]; try done;
    [left; eexists; reflexivity|].
  cbn [kept is_none py_in py_getitem mbind result_bind]. unfold Dict.mem.
  cbn [is_none orb reference_shape] in Hrls.
  destruct (Dict.get "Arn" rls) as [arn|]; [|left; eexists; reflexivity].
  cbn [absent_or] in Hrls. destruct arn as [| | |arn| |]; try done.
  cbn [get_id_from_arn_of mbind result_bind].
  destruct (get_id_from_arn_total arn) as [id ->]. cbn [mbind result_bind].
  destruct (remap_spec dataset_id_map id) as [(v & _ & ->)|[_ ->]];
    [left|right]; eexists; reflexivity.
Qed.

End Run.

End PrepareDataset.

(** C10. For a dataset record (distinct keys, fields of the shape of the
    dump) that has a physical table without a [RelationalTable] key, or whose
    row-level-security reference names a dataset that the dataset remap table
    does not have, [prepare_dataset_definition] raises [KeyError]; and
    whenever it returns, every physical table is a relational table whose
    data-source identifier is in the data-source remap table. *)
Theorem prepare_dataset_definition_key_errors
    (account_id : string) (dataset : dict)
    (datasource_id_map dataset_id_map : gmap string json) :
  NoDup (Dict.keys dataset) ->
  (dataset_shape dataset = true ->
   (exists tables,
       Dict.get "PhysicalTableMap" dataset = Some (JDict tables) /\
       Exists not_relational (Dict.values tables)) \/
   (exists id, rls_names dataset id /\ dataset_id_map !! id = None) ->
   exists key,
     prepare_dataset_definition account_id (JDict dataset)
       datasource_id_map dataset_id_map = Raise (KeyError key)) /\
  (forall definition document,
      prepare_dataset_definition account_id (JDict dataset)
        datasource_id_map dataset_id_map = Ok (definition, document) ->
      exists tables,
        Dict.get "PhysicalTableMap" dataset = Some (JDict tables) /\
        Forall (relational_and_mapped datasource_id_map) (Dict.values tables)).
Proof.
  intros Hkeys. split.
  - intros Hshape Hbad.
    destruct (PrepareDataset.prepare_shape account_id dataset
                datasource_id_map dataset_id_map Hkeys Hshape)
      as [[[definition document] Hok]|Hkey]; [exfalso|exact Hkey].
    destruct Hbad as [(tables & Htables & Hbad)|(id & Hnames & Hmissing)].
    + destruct (PrepareDataset.prepare_ok_tables _ _ _ _ Hkeys _ _ Hok)
        as (tables' & Htables' & Hall).
      rewrite Htables in Htables'. injection Htables' as <-.
      apply Exists_exists in Hbad as (table & Hin & t & -> & Hnone).
      rewrite Forall_forall in Hall.
      destruct (Hall _ Hin) as (relational & _ & _ & Hget & _).
      unfold py_getitem in Hget. by rewrite Hnone in Hget.
    + destruct (PrepareDataset.prepare_ok_rls _ _ _ _ Hkeys _ _ _ Hok Hnames)
        as [v Hv].
      by rewrite Hmissing in Hv.
  - intros definition document Hok.
    by eapply PrepareDataset.prepare_ok_tables.
Qed.

(** ** The calls of a run *)

Section Calls.

Variable pstate : Type.
Variable respond : pstate -> operation -> dict -> result dict * pstate.

Lemma bind_run {A B} (m : io pstate A) (f : A -> io pstate B) (w : world pstate) :
  (m ≫= f) w
  = match m w with
    | (Ok a, w1) => f a w1
    | (Raise e, w1) => (Raise e, w1)
    end.
Proof. reflexivity. Qed.

Lemma bind_run_ok {A B} (m : io pstate A) (f : A -> io pstate B)
    (w w' : world pstate) (b : B) :
  (m ≫= f) w = (Ok b, w') ->
  exists a w1, m w = (Ok a, w1) /\ f a w1 = (Ok b, w').
Proof.
  rewrite bind_run. destruct (m w) as [[a|e] w1]; [|done]. eauto.
Qed.

Lemma sends_lift {A} (P : request -> Prop) (r : result A) :
  sends P (lift r : io pstate A).
Proof.
  intros w r' w' [= <- <-]. exists []. by rewrite app_nil_r.
Qed.

Lemma sends_ret {A} (P : request -> Prop) (a : A) :
  sends P (mret a : io pstate A).
Proof. apply (sends_lift P (Ok a)). Qed.

Lemma sends_raise {A} (P : request -> Prop) (e : exn) :
  sends P (raise e : io pstate A).
Proof. apply sends_lift. Qed.

Lemma sends_bind {A B} (P : request -> Prop)
    (m : io pstate A) (f : A -> io pstate B) :
  sends P m -> (forall a, sends P (f a)) -> sends P (m ≫= f).
Proof.
  intros Hm Hf w r w'. rewrite bind_run.
  destruct (m w) as [[a|e] w1] eqn:Hrun;
    destruct (Hm _ _ _ Hrun) as (calls & Hsent & Hcalls).
  - intros Hrest. destruct (Hf a _ _ _ Hrest) as (calls' & Hsent' & Hcalls').
    exists (calls ++ calls'). rewrite Hsent', Hsent, app_assoc.
    split; [done | by apply Forall_app].
  - intros [= <- <-]. by exists calls.
Qed.

Lemma sends_invoke (P : request -> Prop) (op : operation) (kwargs : dict) :
  P (Request op kwargs) -> sends P (invoke respond op kwargs).
Proof.
  intros HP w r w'. unfold invoke.
  destruct (respond (provider w) op kwargs) as [r0 p]. intros [= <- <-].
  exists [Request op kwargs]. split; [done | by constructor].
Qed.

Lemma sends_except {A} (P : request -> Prop)
    (m : io pstate A) (handler : string -> io pstate A) :
  sends P m -> (forall code, sends P (handler code)) ->
  sends P (except_client_error m handler).
Proof.
  intros Hm Hh w r w'. unfold except_client_error.
  destruct (m w) as [[a|e] w1] eqn:Hrun;
    destruct (Hm _ _ _ Hrun) as (calls & Hsent & Hcalls).
  - intros [= <- <-]. by exists calls.
  - destruct e as [| | | | |code];
      try (intros [= <- <-]; by exists calls).
    intros Hrest. destruct (Hh code _ _ _ Hrest) as (calls' & Hsent' & Hcalls').
    exists (calls ++ calls'). rewrite Hsent', Hsent, app_assoc.
    split; [done | by apply Forall_app].
Qed.

Lemma sends_for_each {A B} (P : request -> Prop)
    (f : A -> io pstate B) (l : list A) :
  (forall x, sends P (f x)) -> sends P (for_each f l).
Proof.
  intros Hf. induction l as [|x l IH]; [apply sends_ret|].
  cbn [for_each]. apply sends_bind; [done|]. intros y.
  apply sends_bind; [done|]. intros ys. apply sends_ret.
Qed.

Lemma sends_weaken {A} (P Q : request -> Prop) (m : io pstate A) :
  (forall q, P q -> Q q) -> sends P m -> sends Q m.
Proof.
  intros HPQ Hm w r w' Hrun.
  destruct (Hm _ _ _ Hrun) as (calls & Hsent & Hcalls).
  exists calls. split; [done|]. by eapply Forall_impl.
Qed.

(** [create_or_update_asset] sends [params] to the create function and,
    possibly, something to the update function. *)
Lemma sends_create_or_update (P : request -> Prop) (params : dict)
    (create_fn update_fn : operation) :
  P (Request create_fn params) ->
  (forall kwargs, P (Request update_fn kwargs)) ->
  sends P (create_or_update_asset respond params create_fn update_fn).
Proof.
  intros Hcreate Hupdate. unfold create_or_update_asset.
  apply sends_bind.
  - apply sends_except; [by apply sends_invoke|]. intros code.
    destruct (String.eqb code "ResourceExistsException"); [|apply sends_raise].
    apply sends_bind; [apply sends_lift|]. intros params1.
    by apply sends_invoke.
  - intros response. apply sends_bind; [apply sends_lift|]. intros status.
    destruct (negb (success_status status)); [apply sends_raise|apply sends_ret].
Qed.

End Calls.

(** ** The security datasets of an export *)

Section ExportFacts.

Variable pstate : Type.
Variable respond : pstate -> operation -> dict -> result dict * pstate.

Lemma lift_run_ok {A} (r : result A) (w w' : world pstate) (a : A) :
  lift r w = (Ok a, w') -> r = Ok a /\ w' = w.
Proof. by intros [= -> ->]. Qed.

Lemma fetch_rows (definition_of permissions_of : string -> io pstate json)
    (ids : list string) (w w' : world pstate) (rows : list json) :
  for_each (fetch pstate definition_of permissions_of) ids w = (Ok rows, w') ->
  Forall is_row rows.
Proof.
  revert w rows. induction ids as [|id ids IH]; intros w rows.
  - intros [= <- <-]. constructor.
  - cbn [for_each]. intros H.
    apply bind_run_ok in H as (row & w1 & Hrow & H).
    apply bind_run_ok in H as (rest & w2 & Hrest & H).
    injection H as <- <-. constructor; [|by eapply IH].
    unfold fetch in Hrow.
    apply bind_run_ok in Hrow as (d & w3 & _ & Hrow).
    apply bind_run_ok in Hrow as (p & w4 & _ & Hrow).
    injection Hrow as <- <-. by exists d, p.
Qed.

(** The rows [get_dump] fetches wrap each definition, so the search for a
    row-level-security field among their keys finds nothing. *)
Lemma get_rls_dataset_ids_rows (rows : list json) :
  Forall is_row rows -> get_rls_dataset_ids rows = Ok ∅.
Proof.
  intros Hrows. unfold get_rls_dataset_ids.
  rewrite present_fields_absent; [done|].
  eapply Forall_impl; [exact Hrows|]. by intros row (d & p & ->).
Qed.

(** X11. Whatever the provider answers, a bundle [get_dump] returns has an
    empty list of security datasets: the search for the row-level-security
    field runs over the fetched rows, not over their definitions. *)
Lemma get_dump_security_datasets_empty
    (account_id : option string) (qs_client : option boto3_client)
    (analysis_id : option string) (w w' : world pstate) (bundle : dict) :
  get_dump pstate respond account_id qs_client analysis_id w = (Ok bundle, w') ->
  Dict.get "security_datasets" bundle = Some (JList []).
Proof.
  unfold get_dump.
  destruct account_id as [account|]; [|done].
  destruct qs_client as [client|]; [|done].
  destruct analysis_id as [analysis|]; [|done].
  intros H.
  apply bind_run_ok in H as (analysis_definition & w1 & _ & H).
  apply bind_run_ok in H as (analysis_permissions & w2 & _ & H).
  apply bind_run_ok in H as (dataset_ids & w3 & _ & H).
  apply bind_run_ok in H as (rows & w4 & Hrows & H).
  apply fetch_rows, get_rls_dataset_ids_rows in Hrows.
  apply bind_run_ok in H as (rls_ids & w5 & Hrls & H).
  apply lift_run_ok in Hrls as [Hrls ->].
  rewrite Hrows in Hrls. injection Hrls as <-.
  rewrite elements_empty in H. cbn [for_each] in H.
  apply bind_run_ok in H as (rls_rows & w6 & [= <- <-] & H).
  apply bind_run_ok in H as (datasource_ids & w7 & _ & H).
  apply bind_run_ok in H as (datasource_rows & w8 & _ & H).
  apply lift_run_ok in H as [H _]. ok_steps. subst bundle.
  match goal with
  | H : traverse _ [] = Ok _ |- _ => injection H as <-
  end.
  reflexivity.
Qed.

(** X12. The data sources of a bundle [get_dump] returns are the records
    [dump_data_source] builds: each is a dictionary whose [Credentials] are
    [None], whatever the provider answered. *)
Lemma get_dump_credentials_cleared
    (account_id : option string) (qs_client : option boto3_client)
    (analysis_id : option string) (w w' : world pstate) (bundle : dict) :
  get_dump pstate respond account_id qs_client analysis_id w = (Ok bundle, w') ->
  exists entries,
    Dict.get "datasources" bundle = Some (JList entries) /\
    Forall (fun entry => exists record,
                entry = JDict record /\
                Dict.get "Credentials" record = Some JNull) entries.
Proof.
  unfold get_dump.
  destruct account_id as [account|]; [|done].
  destruct qs_client as [client|]; [|done].
  destruct analysis_id as [analysis|]; [|done].
  intros H.
  do 8 (apply bind_run_ok in H as (? & ? & _ & H)).
  apply lift_run_ok in H as [H _]. ok_steps. subst bundle.
  eexists. split; [reflexivity|].
  match goal with
  | H : traverse (dump_row dump_data_source) _ = Ok _ |- _ =>
      apply traverse_ok in H; induction H as [|row entry rows entries Hrow _ IH]
  end; constructor; [|done].
  unfold dump_row in Hrow. ok_steps. subst entry.
  eexists. split; [reflexivity|]. by eapply dump_data_source_ok.
Qed.

End ExportFacts.

(** C1 (the code departs from it). In the source account of [Source] the
    analysis declares the two datasets [orders] and [customers], [orders]
    refers to [rules] for row-level security and the three datasets read from
    [warehouse].  The bundle [get_dump] returns has 2 analysis datasets and 1
    data source, but no security dataset. *)
Theorem get_dump_scenario_sizes :
  exists bundle w,
    get_dump unit Source.respond
      (Some "111111111111") (Some QuickSightClient) (Some "sales") Source.start
    = (Ok bundle, w) /\
    section_size "analysis_datasets" bundle = Some 2%nat /\
    section_size "security_datasets" bundle = Some 0%nat /\
    section_size "datasources" bundle = Some 1%nat.
Proof.
  destruct (get_dump unit Source.respond (Some "111111111111")
              (Some QuickSightClient) (Some "sales") Source.start)
    as [[bundle|e] w] eqn:Hrun.
  - exists bundle, w. split; [done|].
    revert Hrun. vm_compute. intros [= <- _]. done.
  - exfalso. revert Hrun. vm_compute. done.
Qed.

(** ** The sections of a dump *)

Section ImportSections.

Variable pstate : Type.
Variable respond : pstate -> operation -> dict -> result dict * pstate.
Variable py_int : string -> option Z.

(** X30. A dump that lacks [datasources], [analysis_datasets] or
    [analysis] makes [import_dump] raise the validation error before
    anything is sent. *)
Lemma import_dump_checked_sections
    (account_id : string) (bundle : dict) (w : world pstate) :
  Dict.mem "datasources" bundle = false \/
  Dict.mem "analysis_datasets" bundle = false \/
  Dict.mem "analysis" bundle = false ->
  exists message,
    import_dump pstate respond py_int account_id (JDict bundle) w
    = (Raise (ValueError (MissingSection message)), w).
Proof.
  intros Hmissing. unfold import_dump. rewrite !bind_run.
  unfold require_section. cbn [py_in mbind result_bind lift].
  destruct (Dict.mem "datasources" bundle); [|by eexists].
  destruct (Dict.mem "analysis_datasets" bundle); [|by eexists].
  destruct (Dict.mem "analysis" bundle); [|by eexists].
  by destruct Hmissing as [|[|]].
Qed.

End ImportSections.

(** C5 (the code departs from it). A dump that lacks the section
    [security_datasets] is not refused: [import_dump] first creates the data
    source in the target account and then raises [KeyError], not the
    validation error. *)
Theorem import_dump_missing_security_datasets :
  exists w,
    import_dump Target.state Target.respond Decimal.parse "222222222222"
      dump_without_security_datasets Target.fresh
    = (Raise (KeyError "security_datasets"), w) /\
    req_op <$> sent w = [create_data_source] /\
    provider w = ["datasource/warehouse-imported"].
Proof.
  eexists. split; [vm_compute; reflexivity|]. split; reflexivity.
Qed.

(** ** The data source of an imported dataset *)

Module RewriteFacts.

Lemma rewrite_table_points_to (m : gmap string json) (arn table table' : json) :
  maps_only_to arn m ->
  rewrite_table m table = Ok table' -> points_to arn table'.
Proof.
  intros Honly H. unfold rewrite_table in H. ok_steps.
  match goal with
  | H : remap m ?id = Ok ?v |- _ =>
      unfold remap in H; destruct (m !! id) as [v'|] eqn:Hm;
      [injection H as ->; apply Honly in Hm; subst v | discriminate H]
  end.
  repeat match goal with
    | H : py_setitem ?x _ _ = Ok _ |- _ =>
        destruct x; try discriminate H; injection H as <-
    end.
  eexists. cbn [py_getitem]. rewrite !DictFacts.get_set, !String.eqb_refl.
  split; [reflexivity|]. cbn [py_getitem].
  by rewrite DictFacts.get_set, String.eqb_refl.
Qed.

Lemma rewrite_tables_point_to (m : gmap string json) (arn : json)
    (tables tables' : dict) :
  maps_only_to arn m ->
  rewrite_tables m tables = Ok tables' ->
  Forall (points_to arn) (Dict.values tables').
Proof.
  intros Honly H%traverse_ok. unfold Dict.values. apply Forall_fmap.
  induction H as [|[k t] [k' t'] l l' Hx _ IH]; constructor; [|done].
  simpl in *. apply fmap_ok in Hx as (t'' & Hx & [= _ ->]).
  by eapply rewrite_table_points_to.
Qed.

Lemma rewrite_tables_keys (m : gmap string json) (tables tables' : dict) :
  rewrite_tables m tables = Ok tables' -> Dict.keys tables' = Dict.keys tables.
Proof.
  intros H%traverse_ok. unfold Dict.keys.
  induction H as [|[k t] [k' t'] l l' Hx _ IH]; [done|].
  rewrite !fmap_cons. cbn [fst snd] in *.
  apply fmap_ok in Hx as (t'' & _ & [= -> _]). by f_equal.
Qed.

Lemma rewrite_table_refers (m : gmap string json) (id : string)
    (arn table : json) :
  m !! id = Some arn -> refers_to id table ->
  exists table', rewrite_table m table = Ok table'.
Proof.
  intros Hm (t & relational & old & -> & Hrel & Hold & Hid).
  unfold rewrite_table. cbn [py_getitem]. rewrite Hrel.
  cbn [mbind result_bind py_getitem]. rewrite Hold.
  cbn [mbind result_bind get_id_from_arn_of]. rewrite Hid.
  cbn [mbind result_bind]. unfold remap. rewrite Hm.
  cbn [mbind result_bind py_setitem]. by eexists.
Qed.

Lemma rewrite_tables_refer (m : gmap string json) (id : string)
    (arn : json) (tables : dict) :
  m !! id = Some arn -> Forall (refers_to id) (Dict.values tables) ->
  exists tables', rewrite_tables m tables = Ok tables'.
Proof.
  intros Hm. unfold Dict.values. rewrite Forall_fmap.
  unfold rewrite_tables.
  induction 1 as [|[k t] l Hx _ [tables' IH]]; [by eexists|].
  cbn [traverse]. simpl in Hx.
  destruct (rewrite_table_refers m id arn t Hm Hx) as [t' Ht'].
  cbn [fst snd]. rewrite Ht'. cbn [fmap result_fmap mbind result_bind].
  rewrite IH. cbn [mbind result_bind]. by eexists.
Qed.

End RewriteFacts.

Section ImportCalls.

Variable pstate : Type.
Variable respond : pstate -> operation -> dict -> result dict * pstate.
Variable py_int : string -> option Z.

Lemma sends_lift_bind {A B} (P : request -> Prop) (r : result A)
    (f : A -> io pstate B) :
  (forall a, r = Ok a -> sends P (f a)) ->
  sends P (lift r ≫= f).
Proof.
  intros Hf w r' w'. rewrite bind_run. cbn [lift].
  destruct r as [a|e].
  - by apply Hf.
  - intros [= <- <-]. exists []. by rewrite app_nil_r.
Qed.

Section Carrying.

Variable arn : json.

Local Abbreviation P := (dataset_creation_carries arn).

Lemma other_operation (op : operation) (kwargs : dict) :
  op <> create_data_set -> P (Request op kwargs).
Proof. intros Hop Heq. done. Qed.

Lemma sends_import_datasource (definition : dict) :
  sends P (import_datasource pstate respond definition).
Proof.
  unfold import_datasource.
  do 3 (apply sends_lift_bind; intros ? _).
  apply sends_bind; [|intros; apply sends_lift].
  apply sends_create_or_update; intros; by apply other_operation.
Qed.

Lemma sends_import_datasources (account_id : string) (datasources : json) :
  sends P (import_datasources pstate respond account_id datasources).
Proof.
  unfold import_datasources. apply sends_lift_bind. intros items _.
  apply sends_for_each. intros ds. apply sends_lift_bind. intros d _.
  apply sends_import_datasource.
Qed.

Lemma sends_import_dataset (definition : dict) :
  carries arn definition ->
  sends P (import_dataset pstate respond definition).
Proof.
  intros (tables & Htables & Hall). unfold import_dataset.
  do 3 (apply sends_lift_bind; intros ? _).
  apply sends_bind; [|intros; apply sends_lift].
  apply sends_create_or_update; [|intros; by apply other_operation].
  intros _. exists tables. split; [|done]. cbn [req_kwargs].
  by rewrite DictFacts.get_set.
Qed.

Lemma prepare_carries (account_id : string) (dataset document : json)
    (m1 m2 : gmap string json) (definition : dict) :
  maps_only_to arn m1 ->
  prepare_dataset_definition account_id dataset m1 m2
    = Ok (definition, document) ->
  carries arn definition.
Proof.
  intros Honly H. unfold prepare_dataset_definition in H. ok_steps.
  match goal with
  | H : rewrite_tables _ _ = Ok ?t |- _ =>
      exists t; split;
      [|by eapply RewriteFacts.rewrite_tables_point_to]
  end.
  subst definition. unfold set_if_some.
  match goal with
  | |- context [match ?o with Some _ => _ | None => _ end] => destruct o
  end; rewrite !DictFacts.get_set; reflexivity.
Qed.

Lemma sends_import_datasets (account_id : string) (datasets : json)
    (m1 m2 : gmap string json) :
  maps_only_to arn m1 ->
  sends P (import_datasets pstate respond account_id datasets m1 m2).
Proof.
  intros Honly. unfold import_datasets. apply sends_lift_bind.
  intros items _. apply sends_bind; [|intros; apply sends_ret].
  apply sends_for_each. intros ds. apply sends_lift_bind.
  intros [definition document] Hprepared.
  apply sends_bind; [|intros; apply sends_ret].
  apply sends_import_dataset. by eapply prepare_carries.
Qed.

Lemma sends_import_analysis (analysis : dict) :
  sends P (import_analysis pstate respond analysis).
Proof.
  unfold import_analysis. apply sends_lift_bind; intros ? _.
  apply sends_bind; [|intros; apply sends_lift].
  apply sends_create_or_update; intros; by apply other_operation.
Qed.

Lemma sends_import_dashboard (account_id : string) (dashboard : dict) :
  sends P (import_dashboard pstate respond py_int account_id dashboard).
Proof.
  unfold import_dashboard.
  apply sends_bind;
    [apply sends_create_or_update; intros; by apply other_operation|].
  intros response. do 3 (apply sends_lift_bind; intros ? _).
  apply sends_bind; [|intros; apply sends_lift].
  apply sends_invoke. by apply other_operation.
Qed.

End Carrying.

End ImportCalls.

Section ImportStages.

Variable pstate : Type.
Variable respond : pstate -> operation -> dict -> result dict * pstate.
Variable py_int : string -> option Z.

Lemma import_dump_stages (account_id : string) (assets_dump : json) :
  import_dump pstate respond py_int account_id assets_dump
  = (_ ← lift (require_section "datasources" "No datasources in dump file." assets_dump);
     _ ← lift (require_section "analysis_datasets" "No datasets in dump file." assets_dump);
     _ ← lift (require_section "analysis" "No analysis in dump file." assets_dump);
     datasources_section ← lift (py_getitem assets_dump "datasources");
     datasources ← import_datasources pstate respond account_id datasources_section;
     after_datasources pstate respond py_int account_id assets_dump datasources).
Proof. reflexivity. Qed.

End ImportStages.

Section ImportRun.

Variable pstate : Type.
Variable respond : pstate -> operation -> dict -> result dict * pstate.
Variable py_int : string -> option Z.

Lemma record_ids_single (imported : dict) (m : gmap string json) (arn : json) :
  record_ids [imported] ∅ = Ok m ->
  Dict.get "arn" imported = Some arn ->
  maps_only_to arn m.
Proof.
  cbn [record_ids py_getitem]. intros H Harn. rewrite Harn in H.
  destruct (Dict.get "org_id" imported) as [org_id|]; [|done].
  cbn [mbind result_bind] in H. intros k v Hk.
  destruct org_id as [| | |id| |]; try done; injection H as <-;
    try by rewrite lookup_empty in Hk.
  apply lookup_insert_Some in Hk as [[_ <-]|[_ Hk]]; [done|].
  by rewrite lookup_empty in Hk.
Qed.

Lemma sends_after_datasets (arn : json) (account_id : string)
    (assets_dump : json) (datasources : list dict) (security : list dict * json)
    (dataset_id_map : gmap string json) (imported : list dict * json) :
  sends (dataset_creation_carries arn)
    (after_datasets pstate respond py_int account_id assets_dump
       datasources security dataset_id_map imported).
Proof.
  unfold after_datasets. do 3 (apply sends_lift_bind; intros ? _).
  apply sends_bind; [apply sends_import_analysis|]. intros analysis.
  apply sends_lift_bind; intros ? _.
  apply sends_bind; [apply sends_import_dashboard|]. intros dashboard.
  apply sends_lift_bind; intros ? _. apply sends_ret.
Qed.

Lemma sends_after_datasources (arn : json) (account_id : string)
    (assets_dump : json) (datasources : list dict) :
  (forall m, record_ids datasources ∅ = Ok m -> maps_only_to arn m) ->
  sends (dataset_creation_carries arn)
    (after_datasources pstate respond py_int account_id assets_dump datasources).
Proof.
  intros Honly. unfold after_datasources.
  apply sends_lift_bind. intros m1 Hm1%Honly.
  apply sends_lift_bind; intros ? _.
  apply sends_bind; [by apply sends_import_datasets|]. intros security.
  do 2 (apply sends_lift_bind; intros ? _).
  apply sends_bind; [by apply sends_import_datasets|]. intros imported.
  apply sends_after_datasets.
Qed.

(** The first steps of [import_dump] on a bundle that has the three
    sections it checks. *)
Lemma import_dump_run (account_id : string) (bundle : dict)
    (section : json) (w w1 : world pstate) (datasources : list dict) :
  Dict.get "datasources" bundle = Some section ->
  is_Some (Dict.get "analysis_datasets" bundle) ->
  is_Some (Dict.get "analysis" bundle) ->
  import_datasources pstate respond account_id section w = (Ok datasources, w1) ->
  import_dump pstate respond py_int account_id (JDict bundle) w
  = after_datasources pstate respond py_int account_id (JDict bundle)
      datasources w1.
Proof.
  intros Hsources [x Hsets] [y Hanalysis] Hrun.
  rewrite import_dump_stages. unfold require_section.
  cbn [py_in py_getitem]. unfold Dict.mem.
  rewrite Hsources, Hsets, Hanalysis. cbn [mbind result_bind].
  do 4 (rewrite bind_run; cbn [lift]).
  by rewrite bind_run, Hrun.
Qed.

(** Part one: whatever the run does, a create call for a dataset carries
    the locator of the imported data source in each physical table. *)
Lemma import_dump_dataset_calls (account_id : string) (bundle : dict)
    (datasource : json) (w w1 : world pstate) (imported : dict) (arn : json) :
  Dict.get "datasources" bundle = Some (JList [datasource]) ->
  is_Some (Dict.get "analysis_datasets" bundle) ->
  is_Some (Dict.get "analysis" bundle) ->
  import_datasources pstate respond account_id (JList [datasource]) w
    = (Ok [imported], w1) ->
  Dict.get "arn" imported = Some arn ->
  exists outcome w2 calls,
    import_dump pstate respond py_int account_id (JDict bundle) w
      = (outcome, w2) /\
    sent w2 = sent w ++ calls /\
    Forall (dataset_creation_carries arn) calls.
Proof.
  intros Hsources Hsets Hanalysis Hrun Harn.
  rewrite (import_dump_run _ _ _ _ _ _ Hsources Hsets Hanalysis Hrun).
  destruct (after_datasources pstate respond py_int account_id (JDict bundle)
              [imported] w1) as [outcome w2] eqn:Hrest.
  destruct (sends_import_datasources pstate respond arn _ _ _ _ _ Hrun)
    as (calls0 & Hsent0 & Hcalls0).
  destruct (sends_after_datasources arn account_id (JDict bundle) [imported]
              (fun m Hm => record_ids_single _ _ _ Hm Harn) _ _ _ Hrest)
    as (calls1 & Hsent1 & Hcalls1).
  exists outcome, w2, (calls0 ++ calls1). split; [done|]. split.
  - by rewrite Hsent1, Hsent0, app_assoc.
  - by apply Forall_app.
Qed.

End ImportRun.

Section ImportScenario.

Variable pstate : Type.
Variable respond : pstate -> operation -> dict -> result dict * pstate.
Variable py_int : string -> option Z.

(** What the import of the one data source records about it. *)
Lemma import_datasources_single (account_id id : string) (datasource : json)
    (w w1 : world pstate) (imported : dict) :
  datasource_named id datasource ->
  import_datasources pstate respond account_id (JList [datasource]) w
    = (Ok [imported], w1) ->
  exists arn,
    Dict.get "arn" imported = Some arn /\
    record_ids [imported] ∅ = Ok (<[id := arn]> ∅).
Proof.
  intros (fields & -> & Hkeys & Hid) Hrun. unfold import_datasources in Hrun.
  apply bind_run_ok in Hrun as (items & w0 & [= <- <-] & Hrun).
  cbn [for_each] in Hrun.
  apply bind_run_ok in Hrun as (y & w2 & Hone & Hrun).
  apply bind_run_ok in Hrun as (ys & w3 & [= <- <-] & [= <- <-]).
  apply bind_run_ok in Hone as (definition & w4 & Hprepare & Hone).
  apply lift_run_ok in Hprepare as [Hprepare ->].
  unfold import_datasource in Hone.
  apply bind_run_ok in Hone as (name & w5 & _ & Hone).
  apply bind_run_ok in Hone as (original & w6 & Horiginal & Hone).
  apply lift_run_ok in Horiginal as [Horiginal _].
  apply bind_run_ok in Hone as (target & w7 & _ & Hone).
  apply bind_run_ok in Hone as (response & w8 & _ & Hone).
  apply lift_run_ok in Hone as [Hone _]. ok_steps. subst y.
  assert (original = JStr id) as ->.
  { unfold prepare_datasource_definition in Hprepare. ok_steps.
    match goal with H : py_items _ = Ok _ |- _ => injection H as <- end.
    subst definition. unfold py_getitem, Dict.update in Horiginal.
    cbn [fold_left fst snd] in Horiginal.
    rewrite !DictFacts.get_set in Horiginal.
    cbn [String.eqb Ascii.eqb Bool.eqb] in Horiginal.
    rewrite DictFacts.get_filter, Hid in Horiginal by done.
    cbn in Horiginal. by injection Horiginal as <-. }
  eexists. split; reflexivity.
Qed.

(** The prepared definition of a dataset of the scenario. *)
Lemma prepare_dataset_over (account_id id : string) (dataset : json)
    (tables : dict) (arn : json) (m1 m2 : gmap string json) :
  dataset_over id dataset tables ->
  m1 !! id = Some arn ->
  exists definition document tables' dataset_id,
    prepare_dataset_definition account_id dataset m1 m2
      = Ok (definition, document) /\
    Dict.get "PhysicalTableMap" definition = Some (JDict tables') /\
    Dict.keys tables' = Dict.keys tables /\
    Dict.get "DataSetId" definition = Some (JStr dataset_id) /\
    is_Some (Dict.get "Name" definition).
Proof.
  intros (fields & name & dataset_id & -> & Hkeys & Hname & Hid & Htables
          & Hrefer & Hrls) Hm.
  destruct (RewriteFacts.rewrite_tables_refer m1 id arn tables Hm Hrefer)
    as [tables' Hrewrite].
  unfold prepare_dataset_definition.
  cbn [py_items py_getitem mbind result_bind]. rewrite Hname.
  cbn [py_add_str mbind result_bind].
  rewrite (PrepareDataset.get_prepared account_id fields Hkeys) by done.
  rewrite Htables. cbn [kept is_none py_items mbind result_bind].
  rewrite Hrewrite. cbn [mbind result_bind]. unfold rewrite_rls.
  rewrite DictFacts.get_set. cbn [String.eqb Ascii.eqb Bool.eqb].
  rewrite (PrepareDataset.get_prepared account_id fields Hkeys) by done.
  rewrite Hrls. cbn [mbind result_bind set_if_some].
  do 2 eexists. exists tables', dataset_id. split; [reflexivity|].
  rewrite !DictFacts.get_set. cbn [String.eqb Ascii.eqb Bool.eqb].
  split; [done|]. split; [by eapply RewriteFacts.rewrite_tables_keys|].
  fold (Dict.update [("Name", JStr (name +:+ IMPORT_SUFFIX));
                     ("AwsAccountId", JStr account_id)]
          (List.filter (fun kv => negb (String.eqb (fst kv) "OutputColumns")
                                  && negb (is_none (snd kv))) fields)).
  split.
  - change (Dict.update ?kw ?d) with
      (Dict.set "AwsAccountId" (JStr account_id)
         (Dict.set "Name" (JStr (name +:+ IMPORT_SUFFIX)) d)).
    rewrite !DictFacts.get_set. cbn [String.eqb Ascii.eqb Bool.eqb].
    rewrite DictFacts.get_filter, Hid by done. done.
  - change (Dict.update ?kw ?d) with
      (Dict.set "AwsAccountId" (JStr account_id)
         (Dict.set "Name" (JStr (name +:+ IMPORT_SUFFIX)) d)).
    rewrite !DictFacts.get_set. cbn [String.eqb Ascii.eqb Bool.eqb].
    by eexists.
Qed.

End ImportScenario.

Section FirstCall.

Variable pstate : Type.
Variable respond : pstate -> operation -> dict -> result dict * pstate.

Lemma starts_invoke (op : operation) (kwargs : dict) :
  starts_with (Request op kwargs) (invoke respond op kwargs).
Proof.
  intros w r w'. unfold invoke.
  destruct (respond (provider w) op kwargs) as [r0 p]. intros [= <- <-].
  by exists [].
Qed.

Lemma starts_bind {A B} (q : request) (m : io pstate A) (f : A -> io pstate B) :
  starts_with q m -> (forall a, sends anything (f a)) ->
  starts_with q (m ≫= f).
Proof.
  intros Hm Hf w r w'. rewrite bind_run.
  destruct (m w) as [[a|e] w1] eqn:Hrun;
    destruct (Hm _ _ _ Hrun) as (rest & Hsent).
  - intros Hnext. destruct (Hf a _ _ _ Hnext) as (calls & Hsent' & _).
    exists (rest ++ calls). by rewrite Hsent', Hsent, <- app_assoc.
  - intros [= <- <-]. by exists rest.
Qed.

Lemma starts_except {A} (q : request) (m : io pstate A)
    (handler : string -> io pstate A) :
  starts_with q m -> (forall code, sends anything (handler code)) ->
  starts_with q (except_client_error m handler).
Proof.
  intros Hm Hh w r w'. unfold except_client_error.
  destruct (m w) as [[a|e] w1] eqn:Hrun;
    destruct (Hm _ _ _ Hrun) as (rest & Hsent).
  - intros [= <- <-]. by exists rest.
  - destruct e as [| | | | |code];
      try (intros [= <- <-]; by exists rest).
    intros Hnext. destruct (Hh code _ _ _ Hnext) as (calls & Hsent' & _).
    exists (rest ++ calls). by rewrite Hsent', Hsent, <- app_assoc.
Qed.

(** The create function is always called, and called first. *)
Lemma create_or_update_starts (params : dict) (create_fn update_fn : operation) :
  starts_with (Request create_fn params)
    (create_or_update_asset respond params create_fn update_fn).
Proof.
  unfold create_or_update_asset. apply starts_bind.
  - apply starts_except; [apply starts_invoke|]. intros code.
    destruct (String.eqb code "ResourceExistsException"); [|apply sends_raise].
    apply sends_bind; [apply sends_lift|]. intros params1.
    by apply sends_invoke.
  - intros response. apply sends_bind; [apply sends_lift|]. intros status.
    destruct (negb (success_status status)); [apply sends_raise|apply sends_ret].
Qed.

Lemma import_dataset_starts (definition : dict) (id : string) :
  is_Some (Dict.get "Name" definition) ->
  Dict.get "DataSetId" definition = Some (JStr id) ->
  starts_with
    (Request create_data_set
       (Dict.set "DataSetId" (JStr (id +:+ IMPORT_SUFFIX)) definition))
    (import_dataset pstate respond definition).
Proof.
  intros [name Hname] Hid w r w'. unfold import_dataset.
  cbn [py_getitem]. rewrite Hname, Hid. cbn [py_add_str].
  do 3 (rewrite bind_run; cbn [lift]).
  apply starts_bind; [apply create_or_update_starts|].
  intros response. apply sends_lift.
Qed.

Lemma import_datasets_starts (account_id id : string) (dataset document : json)
    (definition : dict) (m1 m2 : gmap string json) :
  prepare_dataset_definition account_id dataset m1 m2
    = Ok (definition, document) ->
  is_Some (Dict.get "Name" definition) ->
  Dict.get "DataSetId" definition = Some (JStr id) ->
  starts_with
    (Request create_data_set
       (Dict.set "DataSetId" (JStr (id +:+ IMPORT_SUFFIX)) definition))
    (import_datasets pstate respond account_id (JList [dataset]) m1 m2).
Proof.
  intros Hprepare Hname Hid w r w'. unfold import_datasets.
  cbn [py_iter]. rewrite bind_run. cbn [lift for_each].
  revert w r w'. apply starts_bind; [|intros; apply sends_ret].
  apply starts_bind;
    [|intros; apply sends_bind; [apply sends_ret | intros; apply sends_ret]].
  intros w r w'. rewrite bind_run. cbn [lift]. rewrite Hprepare. cbn [fst snd].
  revert w r w'. apply starts_bind; [|intros; apply sends_ret].
  by apply import_dataset_starts.
Qed.

End FirstCall.

Section ImportCreates.

Variable pstate : Type.
Variable respond : pstate -> operation -> dict -> result dict * pstate.
Variable py_int : string -> option Z.

Lemma import_datasets_nil (account_id : string) (m1 m2 : gmap string json)
    (w : world pstate) :
  import_datasets pstate respond account_id (JList []) m1 m2 w
  = (Ok ([], JList []), w).
Proof. reflexivity. Qed.

(** With no security dataset, the create call for the dataset is the
    first call after the import of the data sources. *)
Lemma after_datasources_starts (account_id id : string) (bundle : dict)
    (dataset document : json) (datasources : list dict)
    (m1 : gmap string json) (definition : dict) :
  Dict.get "security_datasets" bundle = Some (JList []) ->
  Dict.get "analysis_datasets" bundle = Some (JList [dataset]) ->
  record_ids datasources ∅ = Ok m1 ->
  prepare_dataset_definition account_id dataset m1 ∅
    = Ok (definition, document) ->
  is_Some (Dict.get "Name" definition) ->
  Dict.get "DataSetId" definition = Some (JStr id) ->
  starts_with
    (Request create_data_set
       (Dict.set "DataSetId" (JStr (id +:+ IMPORT_SUFFIX)) definition))
    (after_datasources pstate respond py_int account_id (JDict bundle)
       datasources).
Proof.
  intros Hsecurity Hsets Hrecord Hprepare Hname Hid w r w'.
  unfold after_datasources. rewrite bind_run. cbn [lift]. rewrite Hrecord.
  rewrite bind_run. cbn [lift py_getitem]. rewrite Hsecurity.
  rewrite bind_run, import_datasets_nil.
  rewrite bind_run. cbn [lift fst record_ids].
  rewrite bind_run. cbn [lift py_getitem]. rewrite Hsets.
  revert w r w'. apply starts_bind; [by eapply import_datasets_starts|].
  intros imported.
  eapply sends_weaken; [|apply (sends_after_datasets _ _ _ JNull)]. done.
Qed.

End ImportCreates.

(** C2. Import of a bundle with one data source, one analysis dataset and no
    security dataset, where [arn] is the locator the import of the data
    source returned.  Every create call for a dataset that the run makes has
    [arn] as the data-source locator of each of its physical tables; and when
    the tables of the dataset refer to the data source, the run does make
    that call, with the tables of the dataset. *)
Theorem import_dump_dataset_data_source
    (pstate : Type) (respond : pstate -> operation -> dict -> result dict * pstate)
    (py_int : string -> option Z)
    (account_id : string) (bundle : dict) (datasource dataset : json)
    (w w1 : world pstate) (imported : dict) (arn : json) :
  single_dataset_bundle bundle datasource dataset ->
  import_datasources pstate respond account_id (JList [datasource]) w
    = (Ok [imported], w1) ->
  Dict.get "arn" imported = Some arn ->
  exists outcome w2 calls,
    import_dump pstate respond py_int account_id (JDict bundle) w
      = (outcome, w2) /\
    sent w2 = sent w ++ calls /\
    Forall (dataset_creation_carries arn) calls /\
    (forall id tables,
        datasource_named id datasource ->
        dataset_over id dataset tables ->
        exists params tables',
          Request create_data_set params ∈ calls /\
          Dict.get "PhysicalTableMap" params = Some (JDict tables') /\
          Dict.keys tables' = Dict.keys tables /\
          Forall (points_to arn) (Dict.values tables')).
Proof.
  intros (Hsources & Hsets & Hsecurity & Hanalysis) Hrun Harn.
  assert (is_Some (Dict.get "analysis_datasets" bundle)) as Hsets'
    by (by eexists).
  destruct (import_dump_dataset_calls pstate respond py_int account_id bundle
              datasource w w1 imported arn Hsources Hsets' Hanalysis Hrun Harn)
    as (outcome & w2 & calls & Hdump & Hsent & Hcalls).
  exists outcome, w2, calls. do 3 (split; [done|]).
  intros id tables Hnamed Hover.
  destruct (import_datasources_single pstate respond account_id id datasource
              w w1 imported Hnamed Hrun) as (arn' & Harn' & Hrecord).
  rewrite Harn in Harn'. injection Harn' as <-.
  destruct (prepare_dataset_over account_id id dataset tables arn
              (<[id := arn]> ∅) ∅ Hover (lookup_insert_eq _ _ _))
    as (definition & document & tables' & dataset_id & Hprepare & Htables
        & Hkeys & Hid & Hname).
  rewrite (import_dump_run pstate respond py_int _ _ _ _ _ _
             Hsources Hsets' Hanalysis Hrun) in Hdump.
  destruct (after_datasources_starts pstate respond py_int account_id
              dataset_id bundle dataset document [imported] _ definition
              Hsecurity Hsets Hrecord Hprepare Hname Hid _ _ _ Hdump)
    as (rest & Hsent').
  destruct (sends_import_datasources pstate respond arn _ _ _ _ _ Hrun)
    as (calls0 & Hsent0 & _).
  rewrite Hsent0, Hsent, <- app_assoc in Hsent'.
  apply app_inv_head in Hsent'. subst calls.
  eexists _, tables'. split; [|split; [|split; [done|]]].
  - apply elem_of_app. right. apply elem_of_cons. by left.
  - by rewrite DictFacts.get_set.
  - apply Forall_app in Hcalls as [_ Hcalls].
    apply Forall_cons in Hcalls as [Hcall _].
    destruct (Hcall eq_refl) as (tables'' & Htables'' & Hall).
    cbn [req_kwargs] in Htables''. rewrite DictFacts.get_set in Htables''.
    cbn [String.eqb Ascii.eqb Bool.eqb] in Htables''.
    rewrite Htables in Htables''. by injection Htables'' as <-.
Qed.

Lemma import_dump_dataset_data_source_witness :
  exists outcome w2 calls params tables,
    import_dump Target.state Target.respond Decimal.parse "222222222222"
      (JDict Examples.bundle) Target.fresh = (outcome, w2) /\
    sent w2 = sent Target.fresh ++ calls /\
    Forall (dataset_creation_carries Examples.new_arn) calls /\
    Request create_data_set params ∈ calls /\
    Dict.get "PhysicalTableMap" params = Some (JDict tables) /\
    Dict.keys tables = ["t1"] /\
    Forall (points_to Examples.new_arn) (Dict.values tables).
Proof.
  edestruct (import_dump_dataset_data_source Target.state Target.respond
               Decimal.parse "222222222222" Examples.bundle
               Examples.datasource Examples.dataset Target.fresh)
    as (outcome & w2 & calls & Hrun & Hsent & Hcalls & Hcreated).
  - repeat split; try reflexivity. eexists. reflexivity.
  - vm_compute. reflexivity.
  - vm_compute. reflexivity.
  - destruct (Hcreated "warehouse" [("t1", Source.table "customers")])
      as (params & tables & Hin & Htables & Hkeys & Hall).
    + eexists. split; [reflexivity|]. split; [|reflexivity].
      apply (bool_decide_unpack _). vm_compute. exact I.
    + do 3 eexists. split; [reflexivity|].
      split; [apply (bool_decide_unpack _); vm_compute; exact I|].
      do 3 (split; [reflexivity|]). split; [|reflexivity].
      constructor; [|constructor].
      do 3 eexists. split; [reflexivity|]. do 2 (split; [reflexivity|]).
      vm_compute. reflexivity.
    + exists outcome, w2, calls, params, tables.
      split; [exact Hrun|]. split; [exact Hsent|]. split; [exact Hcalls|].
      split; [exact Hin|]. split; [exact Htables|]. split; [exact Hkeys|].
      exact Hall.
Defined.

Lemma create_or_update_asset_without_permissions_witness :
  exists w,
    create_or_update_asset Target.respond Examples.without_permissions
      create_data_source update_data_source Examples.occupied
    = (Raise (KeyError "Permissions"), w) /\
    req_op <$> sent w = [create_data_source].
Proof.
  eexists. split.
  - apply (create_or_update_asset_without_permissions Target.state
             Target.respond Examples.without_permissions
             create_data_source update_data_source Examples.occupied
             ["datasource/warehouse"]).
    + reflexivity.
    + reflexivity.
  - reflexivity.
Defined.

Lemma create_or_update_asset_policy_witness :
  (exists outcome w,
      create_or_update_asset Target.respond Examples.with_permissions
        create_data_source update_data_source Examples.occupied = (outcome, w) /\
      sent w = [Request create_data_source Examples.with_permissions;
                Request update_data_source
                  [("DataSourceId", JStr "warehouse"); ("Name", JStr "Warehouse")]]) /\
  (exists w,
      create_or_update_asset Target.respond [("Permissions", JList [])]
        create_data_source update_data_source Target.fresh
      = (Raise (ClientError "InvalidParameterValueException"), w) /\
      req_op <$> sent w = [create_data_source]).
Proof.
  split.
  - destruct (create_or_update_asset_policy Target.state Target.respond
                Examples.with_permissions create_data_source update_data_source
                Examples.occupied ["datasource/warehouse"] ALREADY_EXISTS eq_refl)
      as [Hupdate _].
    do 2 eexists. split.
    + apply (Hupdate eq_refl eq_refl _ _ eq_refl).
    + reflexivity.
  - destruct (create_or_update_asset_policy Target.state Target.respond
                [("Permissions", JList [])] create_data_source update_data_source
                Target.fresh [] (ClientError "InvalidParameterValueException")
                eq_refl)
      as [_ Hother].
    eexists. split.
    + apply Hother. discriminate.
    + reflexivity.
Defined.

(** C3 (as stated) fails: with parameters that have no [Permissions] entry
    and a create function that raises the already-exists error, the update
    function is not called. *)
Lemma create_or_update_asset_update_not_called :
  fst (Target.respond (provider Examples.occupied) create_data_source
         Examples.without_permissions) = Raise ALREADY_EXISTS /\
  exists e w,
    create_or_update_asset Target.respond Examples.without_permissions
      create_data_source update_data_source Examples.occupied = (Raise e, w) /\
    Forall (fun q => req_op q <> update_data_source) (sent w).
Proof.
  split; [reflexivity|]. do 2 eexists. split; [vm_compute; reflexivity|].
  by repeat constructor.
Qed.

Lemma find_asset_id_cardinality_witness :
  fst (find_asset_id Source.respond "111111111111" search_dashboards
         (JDict []) "DashboardSummaryList" "DashboardId" Source.start)
    = Raise (ValueError (NoAssetsFound (JDict []))) /\
  fst (find_asset_id Source.respond "111111111111" search_data_sources
         (JDict []) "DataSourceSummaries" "DataSourceId" Source.start)
    = Ok (JStr "warehouse") /\
  fst (find_asset_id Source.respond "111111111111" search_data_sets
         (JDict []) "DataSetSummaries" "DataSetId" Source.start)
    = Raise (ValueError (MultipleAssetsFound (JDict [])
                           [JStr "orders"; JStr "customers"])).
Proof.
  split; [|split].
  - rewrite (find_asset_id_cardinality unit Source.respond "111111111111"
               search_dashboards (JDict []) "DashboardSummaryList" "DashboardId"
               Source.start _ tt 200 [] eq_refl eq_refl eq_refl eq_refl).
    reflexivity.
  - rewrite (find_asset_id_cardinality unit Source.respond "111111111111"
               search_data_sources (JDict []) "DataSourceSummaries"
               "DataSourceId" Source.start _ tt 200 [Source.warehouse]
               eq_refl eq_refl eq_refl eq_refl).
    reflexivity.
  - rewrite (find_asset_id_cardinality unit Source.respond "111111111111"
               search_data_sets (JDict []) "DataSetSummaries" "DataSetId"
               Source.start _ tt 200 [Source.orders; Source.customers]
               eq_refl eq_refl eq_refl eq_refl).
    reflexivity.
Defined.

Lemma prepare_dataset_definition_key_errors_witness :
  (exists key,
      prepare_dataset_definition "222222222222" (JDict Examples.uploaded) ∅ ∅
      = Raise (KeyError key)) /\
  (exists tables,
      Dict.get "PhysicalTableMap" Source.customers = Some (JDict tables) /\
      Forall (relational_and_mapped {["warehouse" := Examples.new_arn]})
        (Dict.values tables)).
Proof.
  split.
  - assert (NoDup (Dict.keys Examples.uploaded)) as Hkeys.
    { apply (bool_decide_unpack _). vm_compute. exact I. }
    destruct (prepare_dataset_definition_key_errors "222222222222"
                Examples.uploaded ∅ ∅ Hkeys) as [Hraise _].
    apply Hraise; [reflexivity|]. left. eexists. split; [reflexivity|].
    apply Exists_cons_hd. eexists. split; reflexivity.
  - assert (NoDup (Dict.keys Source.customers)) as Hkeys.
    { apply (bool_decide_unpack _). vm_compute. exact I. }
    destruct (prepare_dataset_definition_key_errors "222222222222"
                Source.customers {["warehouse" := Examples.new_arn]} ∅ Hkeys)
      as [_ Hreturns].
    eapply Hreturns. vm_compute. reflexivity.
Defined.

(** * Further properties *)

(** ** Locators of any form *)

Module SplitFacts.
Import Str.

Lemma length_split (sep : ascii) (s : string) :
  length (split sep s) = S (count_char sep s).
Proof.
  induction s as [|c s IH]; [done|]. cbn [split count_char].
  destruct (Ascii.eqb c sep); cbn [length]; [by rewrite IH|].
  pose proof (StrFacts.split_not_nil sep s) as Hne.
  destruct (split sep s) as [|seg segs]; [done|]. exact IH.
Qed.

Lemma segments_free (sep : ascii) (s : string) :
  Forall (fun seg => has_char sep seg = false) (split sep s).
Proof.
  induction s as [|c s IH]; [by repeat constructor|]. cbn [split].
  destruct (Ascii.eqb c sep) eqn:Hc; [by constructor|].
  destruct (split sep s) as [|seg segs]; [constructor; [|done]|].
  - cbn [has_char]. by rewrite Hc.
  - inversion IH as [|? ? Hseg Hsegs]; subst. constructor; [|done].
    cbn [has_char]. by rewrite Hc.
Qed.

(** The last segment closes the string, after a separator or alone. *)
Lemma last_segment (sep : ascii) (s : string) :
  exists id,
    last (split sep s) = Some id /\
    has_char sep id = false /\
    (s = id \/ exists p, s = p +:+ String sep id).
Proof.
  induction s as [|c s (id & Hlast & Hfree & Hform)].
  - exists EmptyString. split; [done|]. split; [done|]. by left.
  - cbn [split]. destruct (Ascii.eqb c sep) eqn:Hc.
    + apply Ascii.eqb_eq in Hc as ->. exists id.
      pose proof (StrFacts.split_not_nil sep s) as Hne.
      split; [by destruct (split sep s)|]. split; [done|]. right.
      destruct Hform as [->|[p ->]]; [by exists EmptyString|].
      by exists (String sep p).
    + destruct Hform as [->|[p ->]].
      * rewrite (StrFacts.split_whole _ _ Hfree) in Hlast |- *.
        exists (String c id). split; [done|]. split; [|by left].
        cbn [has_char]. by rewrite Hc.
      * destruct (StrFacts.split_after sep p id) as (seg & segs & Hsplit).
        rewrite Hsplit in Hlast |- *. exists id.
        pose proof (StrFacts.split_not_nil sep id) as Hne.
        split; [|split; [done|right; by exists (String c p)]].
        rewrite last_cons in Hlast |- *.
        destruct (last (segs ++ split sep id)) eqn:Hrest; [done|].
        apply last_None in Hrest. by destruct segs, (split sep id).
Qed.

End SplitFacts.

(** X1. [get_id_from_arn] never raises: it returns a string without [/]
    that closes the locator, either after a [/] or as the whole locator. *)
Theorem get_id_from_arn_suffix (arn : string) :
  exists id,
    get_id_from_arn arn = Ok id /\
    Str.has_char "/" id = false /\
    (arn = id \/ exists p, arn = p +:+ String "/" id).
Proof.
  destruct (SplitFacts.last_segment "/" arn) as (id & Hlast & Hfree & Hform).
  exists id. unfold get_id_from_arn, py_last. by rewrite Hlast.
Qed.

(** X2. [get_account_id_from_arn] raises [IndexError] exactly on the
    locators with fewer than four [:]; on the others it returns a segment
    without [:]. *)
Theorem get_account_id_from_arn_segments (arn : string) :
  ((count_char ":" arn < 4)%nat ->
   get_account_id_from_arn arn = Raise (IndexError "list index out of range")) /\
  ((4 <= count_char ":" arn)%nat ->
   exists account,
     get_account_id_from_arn arn = Ok account /\
     Str.has_char ":" account = false).
Proof.
  unfold get_account_id_from_arn, py_nth.
  pose proof (SplitFacts.length_split ":" arn) as Hlen.
  pose proof (SplitFacts.segments_free ":" arn) as Hfree.
  split; intros Hcount.
  - rewrite lookup_ge_None_2; [done|]. lia.
  - destruct (lookup_lt_is_Some_2 (Str.split ":" arn) 4) as [account Hget];
      [lia|].
    rewrite Hget. exists account. split; [done|].
    rewrite Forall_forall in Hfree. apply Hfree.
    by eapply list_elem_of_lookup_2.
Qed.

Lemma get_account_id_from_arn_segments_witness :
  get_account_id_from_arn "arn:aws:quicksight"
    = Raise (IndexError "list index out of range") /\
  exists account,
    get_account_id_from_arn "arn:aws:quicksight:eu-west-1:111111111111:dataset/a:b"
      = Ok account /\
    Str.has_char ":" account = false.
Proof.
  split.
  - apply (get_account_id_from_arn_segments "arn:aws:quicksight"). vm_compute. lia.
  - apply (get_account_id_from_arn_segments
             "arn:aws:quicksight:eu-west-1:111111111111:dataset/a:b").
    vm_compute. lia.
Defined.

(** ** Identifiers of a list of references *)

Lemma asset_ids_of_entries (entries : list dict) (arn_key : string) :
  Forall (fun d => absent_or is_str (Dict.get arn_key d) = true) entries ->
  (Forall (fun d => Dict.mem arn_key d = true) entries ->
   exists ids,
     get_asset_ids_from_definition (JList (JDict <$> entries)) arn_key = Ok ids /\
     Forall2 (fun d id => exists arn,
                  Dict.get arn_key d = Some (JStr arn) /\
                  get_id_from_arn arn = Ok id) entries ids) /\
  (Exists (fun d => Dict.mem arn_key d = false) entries ->
   get_asset_ids_from_definition (JList (JDict <$> entries)) arn_key
   = Raise (KEY_NOT_FOUND arn_key)).
Proof.
  unfold get_asset_ids_from_definition. cbn [py_iter mbind result_bind].
  induction 1 as [|d entries Hstr _ [IHall IHsome]].
  - split; [intros _; exists []; by split|by inversion 1].
  - rewrite fmap_cons. cbn [traverse py_in py_getitem].
    unfold Dict.mem in *.
    destruct (Dict.get arn_key d) as [arn|] eqn:Hget; cbn [negb mbind result_bind].
    + cbn [absent_or] in Hstr. destruct arn as [| | |arn| |]; try done.
      cbn [get_id_from_arn_of]. destruct (get_id_from_arn_total arn) as [id Hid].
      rewrite Hid. cbn [mbind result_bind]. split.
      * intros [_ Hall]%Forall_cons. destruct (IHall Hall) as (ids & -> & Hids).
        exists (id :: ids). split; [done|]. constructor; [|done]. by exists arn.
      * intros [Hd|Hsome]%Exists_cons; [by rewrite Hget in Hd|].
        by rewrite (IHsome Hsome).
    + split; [|done]. intros [Hd _]%Forall_cons. by rewrite Hget in Hd.
Qed.



(** ** Searches and create-or-update, whatever the provider answers *)

Section EssentialsRuns.

Variable pstate : Type.
Variable respond : pstate -> operation -> dict -> result dict * pstate.

(** X4. A search answer whose status is not in 200..299 (a missing status
    counts as 0) makes [find_asset_id] raise the request-failed error after
    that one call, whatever the answer lists. *)
Theorem find_asset_id_request_failed
    (account_id : string) (search_fn : operation) (filters : json)
    (lookup_field id_key : string) (w : world pstate)
    (response : dict) (p : pstate) (status : Z) :
  respond (provider w) search_fn (search_kwargs account_id filters)
    = (Ok response, p) ->
  status_of response = Ok status ->
  success_status status = false ->
  find_asset_id respond account_id search_fn filters lookup_field id_key w
  = (Raise (ValueError (RequestFailed (JNum status) response)),
     after w p [Request search_fn (search_kwargs account_id filters)]).
Proof.
  intros Hsearch Hstatus Hfailed.
  unfold find_asset_id, find_asset_ids, find_assets.
  unfold mbind, io_bind. fold (search_kwargs account_id filters).
  rewrite (invoke_run _ _ _ _ _ _ _ Hsearch).
  unfold lift at 1. by rewrite Hstatus, Hfailed.
Qed.

(** X5. [find_asset_id] returns only when the search answered with a
    success status and its lookup field holds exactly one match; what it
    returns is that match's [get(id_key)], and the search is the one call
    made. *)
Theorem find_asset_id_returns
    (account_id : string) (search_fn : operation) (filters : json)
    (lookup_field id_key : string) (w w' : world pstate) (id : json) :
  find_asset_id respond account_id search_fn filters lookup_field id_key w
    = (Ok id, w') ->
  exists response p status assets asset,
    respond (provider w) search_fn (search_kwargs account_id filters)
      = (Ok response, p) /\
    status_of response = Ok status /\ success_status status = true /\
    Dict.get lookup_field response = Some assets /\
    py_iter assets = Ok [asset] /\
    py_get asset id_key JNull = Ok id /\
    w' = after w p [Request search_fn (search_kwargs account_id filters)].
Proof.
  unfold find_asset_id, find_asset_ids, find_assets.
  fold (search_kwargs account_id filters). intros H.
  apply bind_run_ok in H as (ids & w1 & Hids & H).
  apply bind_run_ok in Hids as (assets & w2 & Hassets & Hids).
  apply lift_run_ok in Hids as [Hids ->].
  apply bind_run_ok in Hassets as (response & w3 & Hsearch & Hassets).
  unfold invoke in Hsearch.
  destruct (respond (provider w) search_fn (search_kwargs account_id filters))
    as [r p] eqn:Hrespond.
  injection Hsearch as -> <-.
  apply bind_run_ok in Hassets as (status & w4 & Hstatus & Hassets).
  apply lift_run_ok in Hstatus as [Hstatus ->].
  destruct (success_status status) eqn:Hsuccess; [|done]. cbn [negb] in Hassets.
  apply bind_run_ok in Hassets as (n & w5 & Hlen & Hassets).
  apply lift_run_ok in Hlen as [Hlen ->].
  destruct (Nat.eqb n 0); [done|].
  apply lift_run_ok in Hassets as [Hassets ->].
  unfold py_getitem in Hassets.
  destruct (Dict.get lookup_field response) as [found|] eqn:Hfound; [|done].
  injection Hassets as ->.
  apply bind_ok in Hids as (items & Hitems & Hids).
  destruct (Nat.ltb 1 (length ids)) eqn:Hmany; [done|].
  apply lift_run_ok in H as [H ->]. unfold py_nth in H.
  destruct ids as [|id0 [|id1 ids]]; try done. injection H as ->.
  apply traverse_ok in Hids. inversion Hids as [|asset ? items' ? Hasset Hrest];
    subst. inversion Hrest; subst.
  by exists response, p, status, assets, asset.
Qed.

(** X6. A response that [create_or_update_asset] returns, from the create
    or from the update function, has a status in 200..299. *)
Theorem create_or_update_asset_returns
    (params : dict) (create_fn update_fn : operation) (w w' : world pstate)
    (response : dict) :
  create_or_update_asset respond params create_fn update_fn w = (Ok response, w') ->
  exists status,
    status_of response = Ok status /\ (200 <= status < 300).
Proof.
  unfold create_or_update_asset. intros H.
  apply bind_run_ok in H as (response' & w1 & _ & H).
  apply bind_run_ok in H as (status & w2 & Hstatus & H).
  apply lift_run_ok in Hstatus as [Hstatus ->].
  destruct (success_status status) eqn:Hsuccess; [|done].
  injection H as <- <-. exists status. split; [done|].
  unfold success_status in Hsuccess. lia.
Qed.

(** X7. [create_or_update_asset] sends [params] to the create function and
    nothing else, or that and, once, the parameters less [Permissions] and
    [Type] to the update function; the second only when the create function
    raised the already-exists error and [params] has [Permissions]. *)
Theorem create_or_update_asset_calls
    (params : dict) (create_fn update_fn : operation) (w w' : world pstate)
    (r : result dict) :
  create_or_update_asset respond params create_fn update_fn w = (r, w') ->
  sent w' = sent w ++ [Request create_fn params] \/
  (fst (respond (provider w) create_fn params) = Raise ALREADY_EXISTS /\
   Dict.mem "Permissions" params = true /\
   sent w' = sent w ++ [Request create_fn params;
                        Request update_fn
                          (Dict.remove "Type" (Dict.remove "Permissions" params))]).
Proof.
  unfold create_or_update_asset. rewrite bind_run.
  unfold except_client_error, invoke at 1.
  destruct (respond (provider w) create_fn params) as [[response|e] p].
  - rewrite bind_run. cbn [lift fst]. intros H. left.
    destruct (status_of response) as [status|]; [|by injection H as _ <-].
    by destruct (negb (success_status status)); injection H as _ <-.
  - assert (forall e', (Raise e' : result dict, World p (sent w ++ [Request create_fn params]))
                       = (r, w') ->
                       sent w' = sent w ++ [Request create_fn params]) as Hstop
      by (by intros e' [= _ <-]).
    destruct e as [| | | | |code]; try (intros H; left; by eapply Hstop).
    destruct (String.eqb code "ResourceExistsException") eqn:Hcode;
      [|intros H; cbn [raise lift] in H; left; by eapply Hstop].
    apply String.eqb_eq in Hcode as ->.
    rewrite bind_run. unfold lift at 1, py_pop.
    destruct (Dict.mem "Permissions" params) eqn:Hperm;
      [|intros H; left; by eapply Hstop].
    assert ((if Dict.mem "Type" (Dict.remove "Permissions" params)
             then Dict.remove "Type" (Dict.remove "Permissions" params)
             else Dict.remove "Permissions" params)
            = Dict.remove "Type" (Dict.remove "Permissions" params)) as ->.
    { destruct (Dict.mem "Type" _) eqn:E; [done|].
      symmetry. by apply dict_remove_absent. }
    unfold invoke. cbn [provider sent].
    destruct (respond p update_fn _) as [[response|e] p'].
    + rewrite bind_run. cbn [lift]. intros H. right.
      split; [done|]. split; [done|]. rewrite <- app_assoc in H.
      destruct (status_of response) as [status|]; [|by injection H as _ <-].
      by destruct (negb (success_status status)); injection H as _ <-.
    + intros [= _ <-]. right. cbn [sent]. by rewrite <- app_assoc.
Qed.

End EssentialsRuns.

Lemma find_asset_id_request_failed_witness :
  exists w,
    find_asset_id Silent.respond "111111111111" search_data_sets (JDict [])
      "Matches" "Id" Silent.start
    = (Raise (ValueError (RequestFailed (JNum 0) Silent.answer)), w) /\
    req_op <$> sent w = [search_data_sets].
Proof.
  eexists. split.
  - apply (find_asset_id_request_failed unit Silent.respond "111111111111"
             search_data_sets (JDict []) "Matches" "Id" Silent.start
             Silent.answer tt 0); reflexivity.
  - reflexivity.
Defined.

Lemma find_asset_id_returns_witness :
  exists id w' response assets asset,
    find_asset_id Source.respond "111111111111" search_data_sources (JDict [])
      "DataSourceSummaries" "DataSourceId" Source.start = (Ok id, w') /\
    Dict.get "DataSourceSummaries" response = Some assets /\
    py_iter assets = Ok [asset] /\
    py_get asset "DataSourceId" JNull = Ok id.
Proof.
  destruct (find_asset_id_returns unit Source.respond "111111111111"
              search_data_sources (JDict []) "DataSourceSummaries"
              "DataSourceId" Source.start
              (World tt [Request search_data_sources
                           (search_kwargs "111111111111" (JDict []))])
              (JStr "warehouse"))
    as (response & p & status & assets & asset & _ & _ & _ & Hfound & Hone
        & Hid & _).
  - vm_compute. reflexivity.
  - exists (JStr "warehouse"). eexists. exists response, assets, asset.
    split; [vm_compute; reflexivity|]. split; [exact Hfound|].
    split; [exact Hone | exact Hid].
Defined.

Lemma create_or_update_asset_returns_witness :
  exists response w' status,
    create_or_update_asset Target.respond
      [("DataSourceId", JStr "warehouse"); ("Permissions", JList [])]
      create_data_source update_data_source Target.fresh = (Ok response, w') /\
    status_of response = Ok status /\ (200 <= status < 300).
Proof.
  destruct (create_or_update_asset_returns Target.state Target.respond
              [("DataSourceId", JStr "warehouse"); ("Permissions", JList [])]
              create_data_source update_data_source Target.fresh
              (World ["datasource/warehouse"]
                 [Request create_data_source
                    [("DataSourceId", JStr "warehouse"); ("Permissions", JList [])]])
              (Target.answer "datasource" "DataSourceId" "warehouse"))
    as (status & Hstatus & Hrange).
  - vm_compute. reflexivity.
  - do 2 eexists. exists status. split; [vm_compute; reflexivity|].
    split; [exact Hstatus | exact Hrange].
Defined.

Lemma create_or_update_asset_calls_witness :
  exists r w',
    create_or_update_asset Target.respond Examples.with_permissions
      create_data_source update_data_source Examples.occupied = (r, w') /\
    (sent w' = sent Examples.occupied
               ++ [Request create_data_source Examples.with_permissions] \/
     sent w' = sent Examples.occupied
               ++ [Request create_data_source Examples.with_permissions;
                   Request update_data_source
                     (Dict.remove "Type"
                        (Dict.remove "Permissions" Examples.with_permissions))]).
Proof.
  destruct (create_or_update_asset Target.respond Examples.with_permissions
              create_data_source update_data_source Examples.occupied)
    as [r w'] eqn:Hrun.
  exists r, w'. split; [reflexivity|].
  destruct (create_or_update_asset_calls Target.state Target.respond _ _ _ _ _ _
              Hrun) as [Hone|(_ & _ & Htwo)].
  - left. exact Hone.
  - right. exact Htwo.
Defined.

(** ** What an export reads *)

Section ExportRuns.

Variable pstate : Type.
Variable respond : pstate -> operation -> dict -> result dict * pstate.

Lemma sends_describe_asset (P : request -> Prop) (account_id : string)
    (describe_fn : operation) (params : dict) (lookup_field : option string) :
  (forall kwargs, P (Request describe_fn kwargs)) ->
  sends P (describe_asset respond account_id describe_fn params lookup_field).
Proof.
  intros HP. unfold describe_asset.
  destruct (Dict.mem "AwsAccountId" params); [apply sends_raise|].
  apply sends_bind; [by apply sends_invoke|]. intros response.
  apply sends_lift_bind. intros status _.
  destruct (success_status status); [|apply sends_raise].
  destruct lookup_field as [[|c f]|]; apply sends_ret.
Qed.

Lemma sends_fetch (P : request -> Prop)
    (definition_of permissions_of : string -> io pstate json) (id : string) :
  (forall id, sends P (definition_of id)) ->
  (forall id, sends P (permissions_of id)) ->
  sends P (fetch pstate definition_of permissions_of id).
Proof.
  intros Hd Hp. unfold fetch. apply sends_bind; [done|]. intros d.
  apply sends_bind; [done|]. intros p. apply sends_ret.
Qed.

Lemma for_each_length {A B} (f : A -> io pstate B) (l : list A)
    (w w' : world pstate) (ys : list B) :
  for_each f l w = (Ok ys, w') -> length ys = length l.
Proof.
  revert w w' ys. induction l as [|x l IH]; intros w w' ys.
  - by intros [= <- _].
  - cbn [for_each]. intros H.
    apply bind_run_ok in H as (y & w1 & _ & H).
    apply bind_run_ok in H as (rest & w2 & Hrest & [= <- _]).
    change (S (length rest) = S (length l)). by rewrite (IH _ _ _ Hrest).
Qed.

(** X8. An export only reads: every call [get_dump] makes is one of the six
    describe operations, whatever the provider answers and however the
    export ends. *)
Theorem get_dump_only_describes
    (account_id : option string) (qs_client : option boto3_client)
    (analysis_id : option string) (w w' : world pstate) (r : result dict) :
  get_dump pstate respond account_id qs_client analysis_id w = (r, w') ->
  exists calls,
    sent w' = sent w ++ calls /\
    Forall (fun q => is_describe (req_op q) = true) calls.
Proof.
  revert w r w'.
  change (sends (fun q => is_describe (req_op q) = true)
            (get_dump pstate respond account_id qs_client analysis_id)).
  unfold get_dump.
  destruct account_id as [account|]; [|apply sends_raise].
  destruct qs_client as [client|]; [|apply sends_raise].
  destruct analysis_id as [analysis|]; [|apply sends_raise].
  apply sends_bind; [by apply sends_describe_asset|]. intros ?.
  apply sends_bind; [by apply sends_describe_asset|]. intros ?.
  apply sends_lift_bind. intros ? _.
  apply sends_bind.
  { apply sends_for_each. intros id.
    apply sends_fetch; intros; by apply sends_describe_asset. }
  intros ?. apply sends_lift_bind. intros ? _.
  apply sends_bind.
  { apply sends_for_each. intros id.
    apply sends_fetch; intros; by apply sends_describe_asset. }
  intros ?. apply sends_lift_bind. intros ? _.
  apply sends_bind.
  { apply sends_for_each. intros id.
    apply sends_fetch; intros; by apply sends_describe_asset. }
  intros ?. apply sends_lift.
Qed.

(** X9. An argument that is [None] makes [get_dump] raise the validation
    error before any call. *)
Theorem get_dump_requires_arguments
    (account_id : option string) (qs_client : option boto3_client)
    (analysis_id : option string) (w : world pstate) :
  account_id = None \/ qs_client = None \/ analysis_id = None ->
  exists what,
    get_dump pstate respond account_id qs_client analysis_id w
    = (Raise (ValueError (Required what)), w).
Proof.
  intros Hnone. unfold get_dump.
  destruct account_id; [|by eexists].
  destruct qs_client; [|by eexists].
  destruct analysis_id; [|by eexists].
  by destruct Hnone as [|[|]].
Qed.

(** X10. The analysis datasets of a bundle are as many as the distinct
    identifiers that the description of the analysis declares: a dataset
    declared twice is exported once. *)
Theorem get_dump_analysis_datasets
    (account_id analysis_id : string) (qs_client : boto3_client)
    (w w' : world pstate) (bundle : dict) :
  get_dump pstate respond (Some account_id) (Some qs_client) (Some analysis_id) w
    = (Ok bundle, w') ->
  exists response p ids,
    respond (provider w) describe_analysis_definition
      [("AwsAccountId", JStr account_id); ("AnalysisId", JStr analysis_id)]
      = (Ok response, p) /\
    get_analysis_dataset_ids (JDict response) = Ok ids /\
    section_size "analysis_datasets" bundle = Some (size ids).
Proof.
  unfold get_dump. intros H.
  apply bind_run_ok in H as (analysis_definition & w1 & Hdefinition & H).
  apply bind_run_ok in H as (analysis_permissions & w2 & _ & H).
  apply bind_run_ok in H as (ids & w3 & Hids & H).
  apply lift_run_ok in Hids as [Hids ->].
  apply bind_run_ok in H as (rows & w4 & Hrows & H).
  apply for_each_length in Hrows.
  do 4 (apply bind_run_ok in H as (? & ? & _ & H)).
  apply lift_run_ok in H as [H _]. ok_steps. subst bundle.
  unfold get_analysis_definition, describe_asset in Hdefinition.
  cbn [Dict.mem Dict.get String.eqb Ascii.eqb Bool.eqb] in Hdefinition.
  apply bind_run_ok in Hdefinition as (response & w5 & Hcall & Hdefinition).
  unfold invoke in Hcall.
  destruct (respond (provider w) describe_analysis_definition _)
    as [answer p] eqn:Hrespond.
  injection Hcall as -> <-.
  apply bind_run_ok in Hdefinition as (status & w6 & _ & Hdefinition).
  destruct (success_status status); [|done]. injection Hdefinition as <- _.
  exists response, p, ids. split; [done|]. split; [done|].
  unfold section_size. cbn [Dict.get String.eqb Ascii.eqb Bool.eqb].
  match goal with
  | H : traverse (dump_row dump_dataset) rows = Ok _ |- _ =>
      apply traverse_ok, Forall2_length in H; rewrite <- H
  end.
  by rewrite Hrows.
Qed.

End ExportRuns.

Lemma get_dump_only_describes_witness :
  exists r w',
    get_dump unit Source.respond
      (Some "111111111111") (Some QuickSightClient) (Some "sales") Source.start
    = (r, w') /\
    Forall (fun q => is_describe (req_op q) = true) (sent w').
Proof.
  destruct (get_dump unit Source.respond (Some "111111111111")
              (Some QuickSightClient) (Some "sales") Source.start)
    as [r w'] eqn:Hrun.
  exists r, w'. split; [reflexivity|].
  destruct (get_dump_only_describes unit Source.respond _ _ _ _ _ _ Hrun)
    as (calls & Hsent & Hcalls).
  rewrite Hsent. exact Hcalls.
Defined.

Lemma get_dump_requires_arguments_witness :
  exists what,
    get_dump unit Source.respond (Some "111111111111") (Some QuickSightClient)
      None Source.start
    = (Raise (ValueError (Required what)), Source.start).
Proof.
  apply (get_dump_requires_arguments unit Source.respond
           (Some "111111111111") (Some QuickSightClient) None Source.start).
  right. right. reflexivity.
Defined.

(** The run of the export on the source account of [Source] returns. *)
Lemma source_export_returns :
  exists bundle w',
    get_dump unit Source.respond
      (Some "111111111111") (Some QuickSightClient) (Some "sales") Source.start
    = (Ok bundle, w').
Proof.
  destruct (get_dump unit Source.respond (Some "111111111111")
              (Some QuickSightClient) (Some "sales") Source.start)
    as [[bundle|e] w'] eqn:Hrun.
  - by exists bundle, w'.
  - exfalso. revert Hrun. vm_compute. done.
Defined.

Lemma get_dump_analysis_datasets_witness :
  exists bundle ids,
    get_analysis_dataset_ids (JDict Source.analysis) = Ok ids /\
    section_size "analysis_datasets" bundle = Some (size ids).
Proof.
  destruct source_export_returns as (bundle & w' & Hrun).
  destruct (get_dump_analysis_datasets unit Source.respond _ _ _ _ _ _ Hrun)
    as (response & p & ids & Hrespond & Hids & Hsize).
  injection Hrespond as <- _.
  exists bundle, ids. split; [exact Hids | exact Hsize].
Defined.

Lemma get_dump_security_datasets_empty_witness :
  exists bundle,
    Dict.get "security_datasets" bundle = Some (JList []) /\
    Dict.mem "analysis_datasets" bundle = true.
Proof.
  destruct source_export_returns as (bundle & w' & Hrun).
  exists bundle. split.
  - exact (get_dump_security_datasets_empty unit Source.respond _ _ _ _ _ _ Hrun).
  - revert Hrun. vm_compute. by intros [= <- _].
Defined.

Lemma get_dump_credentials_cleared_witness :
  exists entries,
    Forall (fun entry => exists record,
                entry = JDict record /\
                Dict.get "Credentials" record = Some JNull) entries /\
    length entries = 1%nat.
Proof.
  destruct source_export_returns as (bundle & w' & Hrun).
  destruct (get_dump_credentials_cleared unit Source.respond _ _ _ _ _ _ Hrun)
    as (entries & Hentries & Hall).
  exists entries. split; [exact Hall|].
  revert Hrun Hentries. vm_compute. intros [= <- _] [= <-]. reflexivity.
Defined.

(** ** Identifiers read from definitions *)

Lemma size_list_to_set_le (l : list string) :
  (size (list_to_set l : gset string) <= length l)%nat.
Proof.
  induction l as [|x l IH]; [done|]. cbn [list_to_set length].
  rewrite size_union_alt, size_singleton.
  assert ((list_to_set l : gset string) ∖ {[x]} ⊆ list_to_set l) as Hsub.
  { intros y Hy. by apply elem_of_difference in Hy as [Hy _]. }
  apply subseteq_size in Hsub. lia.
Qed.

(** X13. For the description of an analysis whose declarations all carry a
    locator, [get_analysis_dataset_ids] returns exactly the identifiers of
    the declared datasets, each once however often it is declared. *)
Theorem get_analysis_dataset_ids_declared
    (analysis_definition : json) (declarations : list dict) :
  declares analysis_definition declarations ->
  Forall (fun d => exists id, identifies "DataSetArn" d id) declarations ->
  exists ids,
    get_analysis_dataset_ids analysis_definition = Ok ids /\
    (forall id, id ∈ ids <->
                Exists (fun d => identifies "DataSetArn" d id) declarations) /\
    (size ids <= length declarations)%nat.
Proof.
  intros (fields & definition & -> & Hdefinition & Hdeclarations) Hall.
  unfold get_analysis_dataset_ids. cbn [py_get]. rewrite Hdefinition.
  cbn [from_option id mbind result_bind py_get]. rewrite Hdeclarations.
  cbn [from_option id mbind result_bind].
  destruct (asset_ids_of_entries declarations "DataSetArn") as [Hids _].
  { eapply Forall_impl; [exact Hall|]. intros d (id & arn & -> & _). done. }
  destruct Hids as (ids & -> & Hids).
  { eapply Forall_impl; [exact Hall|]. intros d (id & arn & Hd & _).
    unfold Dict.mem. by rewrite Hd. }
  cbn [mbind result_bind]. eexists. split; [reflexivity|]. split.
  - intros id. rewrite elem_of_list_to_set. split.
    + intros Hin. apply list_elem_of_lookup in Hin as [i Hi].
      destruct (Forall2_lookup_r _ _ _ _ _ Hids Hi) as (d & Hd & Hid).
      apply Exists_exists. exists d. split; [|exact Hid].
      by eapply list_elem_of_lookup_2.
    + intros (d & Hin & arn & Harn & Hid)%Exists_exists.
      apply list_elem_of_lookup in Hin as [i Hi].
      destruct (Forall2_lookup_l _ _ _ _ _ Hids Hi) as (id' & Hid' & arn' & Harn' & Hsame).
      rewrite Harn in Harn'. injection Harn' as <-.
      rewrite Hid in Hsame. injection Hsame as <-.
      by eapply list_elem_of_lookup_2.
  - rewrite (Forall2_length _ _ _ Hids). apply size_list_to_set_le.
Qed.

Lemma get_analysis_dataset_ids_declared_witness :
  exists ids,
    get_analysis_dataset_ids
      (JDict [("Definition",
               JDict [("DataSetIdentifierDeclarations",
                       JList (JDict <$>
                                [[("DataSetArn", JStr "a/orders")];
                                 [("DataSetArn", JStr "b/orders")]]))])])
      = Ok ids /\
    "orders" ∈ ids /\ size ids = 1%nat.
Proof.
  destruct (get_analysis_dataset_ids_declared
              (JDict [("Definition",
                       JDict [("DataSetIdentifierDeclarations",
                               JList (JDict <$>
                                        [[("DataSetArn", JStr "a/orders")];
                                         [("DataSetArn", JStr "b/orders")]]))])])
              [[("DataSetArn", JStr "a/orders")]; [("DataSetArn", JStr "b/orders")]])
    as (ids & Hrun & Hmem & _).
  - do 2 eexists. split; [reflexivity|]. split; reflexivity.
  - repeat constructor; exists "orders"; eexists; split; reflexivity.
  - exists ids. split; [exact Hrun|]. split.
    + apply Hmem. apply Exists_cons_hd. eexists. split; reflexivity.
    + revert Hrun. vm_compute. intros [= <-]. reflexivity.
Defined.

(** X14. Dataset definitions without a physical-table map, or whose
    physical tables are not relational, give no data-source identifier and
    no error. *)
Theorem get_datasource_ids_without_relational (datasets : list dict) :
  Forall without_relational_tables datasets ->
  get_datasource_ids (JDict <$> datasets) = Ok ∅.
Proof.
  intros Hall. unfold get_datasource_ids.
  assert (traverse (fun ds =>
              tables ← py_get ds "PhysicalTableMap" (JDict []);
              refs ← py_values tables;
              present_fields "RelationalTable" refs) (JDict <$> datasets)
          = Ok ((fun _ => []) <$> datasets)) as ->.
  { induction Hall as [|ds datasets Hds _ IH]; [done|].
    rewrite !fmap_cons. cbn [traverse py_get]. rewrite IH.
    destruct Hds as [->|(tables & -> & Htables)];
      cbn [from_option id mbind result_bind py_values].
    - reflexivity.
    - rewrite present_fields_absent; [done|].
      eapply Forall_impl; [exact Htables|]. intros table (t & -> & Hnone).
      cbn [py_in]. unfold Dict.mem. by rewrite Hnone. }
  cbn [fmap result_fmap mbind result_bind].
  assert (concat ((fun _ : dict => @nil json) <$> datasets) = []) as ->.
  { clear Hall. induction datasets as [|? ? IH]; [done|]. exact IH. }
  reflexivity.
Qed.

Lemma get_datasource_ids_without_relational_witness :
  get_datasource_ids (JDict <$> [Examples.uploaded; [("DataSetId", JStr "x")]])
  = Ok ∅.
Proof.
  apply (get_datasource_ids_without_relational
           [Examples.uploaded; [("DataSetId", JStr "x")]]).
  constructor; [|constructor; [by left|constructor]].
  right. eexists. split; [reflexivity|].
  constructor; [|constructor]. eexists. split; reflexivity.
Defined.

(** ** What is prepared for the target account *)

Module PreparedFacts.

Lemma set_without_nulls (k : string) (v : json) (d : dict) :
  is_none v = false -> without_nulls d -> without_nulls (Dict.set k v d).
Proof.
  intros Hv. unfold without_nulls. induction 1 as [|[k' v'] d Hkv Hd IH].
  - by repeat constructor.
  - cbn [Dict.set]. destruct (String.eqb k' k); by constructor.
Qed.

Lemma filter_without_nulls (P : string * json -> bool) (d : dict) :
  (forall kv, P kv = true -> is_none (snd kv) = false) ->
  without_nulls (List.filter P d).
Proof.
  intros HP. unfold without_nulls. induction d as [|kv d IH]; [constructor|].
  cbn [List.filter]. destruct (P kv) eqn:Hkv; [|done].
  constructor; [by apply HP|done].
Qed.

Lemma get_filter_excluded (P : string * json -> bool) (k : string) (d : dict) :
  (forall v, P (k, v) = false) -> Dict.get k (List.filter P d) = None.
Proof.
  intros HP. induction d as [|[k' v] d IH]; [done|]. cbn [List.filter].
  destruct (P (k', v)) eqn:Hkv; [|done]. cbn [Dict.get].
  destruct (String.eqb k' k) eqn:E; [|done].
  apply String.eqb_eq in E as ->. by rewrite HP in Hkv.
Qed.

Lemma get_remove_ne (k k' : string) (d : dict) :
  String.eqb k' k = false -> Dict.get k (Dict.remove k' d) = Dict.get k d.
Proof.
  intros Hne. unfold Dict.remove. induction d as [|[k0 v] d IH]; [done|].
  cbn [List.filter fst Dict.get]. destruct (String.eqb k0 k') eqn:E0; cbn [negb].
  - apply String.eqb_eq in E0 as ->. by rewrite Hne.
  - cbn [Dict.get]. by destruct (String.eqb k0 k).
Qed.


Lemma setitem_not_none (v : json) (k : string) (x v' : json) :
  py_setitem v k x = Ok v' -> is_none v' = false.
Proof. destruct v; try done. by intros [= <-]. Qed.

Lemma rewrite_rls_not_none (m : gmap string json) (d : dict) (v : json) :
  rewrite_rls m d = Ok (Some v) -> is_none v = false.
Proof.
  unfold rewrite_rls. destruct (Dict.get "RowLevelPermissionDataSet" d); [|done].
  intros H. ok_steps; [|done]. injection H as <-. by eapply setitem_not_none.
Qed.

End PreparedFacts.

(** X15. The definition [prepare_datasource_definition] returns has no null
    value, names the target account, and carries the name of the record with
    the import suffix; it returns one for every record whose name is a
    string. *)
Theorem prepare_datasource_definition_prepared
    (account_id : string) (datasource : json) :
  (forall definition,
      prepare_datasource_definition account_id datasource = Ok definition ->
      without_nulls definition /\
      Dict.get "AwsAccountId" definition = Some (JStr account_id) /\
      exists name,
        py_getitem datasource "Name" = Ok (JStr name) /\
        Dict.get "Name" definition = Some (JStr (name +:+ "-imported"))) /\
  (forall fields name,
      datasource = JDict fields ->
      Dict.get "Name" fields = Some (JStr name) ->
      exists definition,
        prepare_datasource_definition account_id datasource = Ok definition).
Proof.
  split.
  - intros definition H. unfold prepare_datasource_definition in H. ok_steps.
    match goal with
    | H : py_add_str ?v _ = Ok _ |- _ =>
        destruct v; try discriminate H; injection H as <-
    end.
    subst definition. unfold Dict.update. cbn [fold_left fst snd].
    split; [|split].
    + do 2 (apply PreparedFacts.set_without_nulls; [done|]).
      apply PreparedFacts.filter_without_nulls.
      intros kv Hkv. by apply negb_true_iff in Hkv.
    + by rewrite DictFacts.get_set, String.eqb_refl.
    + eexists. split; [done|]. by rewrite !DictFacts.get_set.
  - intros fields name -> Hname. unfold prepare_datasource_definition.
    cbn [py_items py_getitem mbind result_bind]. rewrite Hname.
    cbn [py_add_str mbind result_bind]. by eexists.
Qed.

Lemma prepare_datasource_definition_prepared_witness :
  exists definition,
    prepare_datasource_definition "222222222222" Examples.datasource
      = Ok definition /\
    without_nulls definition /\
    Dict.get "Name" definition = Some (JStr "Warehouse-imported").
Proof.
  destruct (prepare_datasource_definition_prepared "222222222222"
              Examples.datasource) as [Hprepared Hreturns].
  destruct (Hreturns _ "Warehouse" eq_refl eq_refl) as [definition Hrun].
  destruct (Hprepared _ Hrun) as (Hnulls & _ & name & Hname & Hnew).
  exists definition. split; [exact Hrun|]. split; [exact Hnulls|].
  injection Hname as <-. exact Hnew.
Defined.

Lemma dump_data_source_fields (definition permissions : json) (record : dict) :
  dump_data_source definition permissions = Ok record ->
  NoDup (Dict.keys record) /\
  (forall k v, (k = "DataSourceId" \/ k = "Type") ->
               py_getitem definition k = Ok v -> Dict.get k record = Some v).
Proof.
  intros Hdump. unfold dump_data_source in Hdump. ok_steps. subst record. split.
  - apply (bool_decide_unpack _). vm_compute. exact I.
  - intros k v [->| ->] Hk;
      match goal with
      | H : py_getitem definition _ = Ok _ |- _ =>
          rewrite H in Hk; injection Hk as ->; reflexivity
      end.
Qed.

(** X16. Export then import of a data source: the record
    [dump_data_source] builds, once prepared by
    [prepare_datasource_definition], has no [Credentials] entry at all, while
    its identifier and its connector type are those of the exported
    definition. *)
Theorem exported_datasource_prepared
    (account_id : string) (definition permissions : json) (record prepared : dict) :
  dump_data_source definition permissions = Ok record ->
  prepare_datasource_definition account_id (JDict record) = Ok prepared ->
  Dict.get "Credentials" prepared = None /\
  (forall id, py_getitem definition "DataSourceId" = Ok id -> is_none id = false ->
              Dict.get "DataSourceId" prepared = Some id) /\
  (forall type, py_getitem definition "Type" = Ok type -> is_none type = false ->
                Dict.get "Type" prepared = Some type).
Proof.
  intros Hdump Hprepare.
  pose proof (dump_data_source_ok _ _ _ Hdump) as Hcredentials.
  destruct (dump_data_source_fields _ _ _ Hdump) as [Hkeys Hfields].
  unfold prepare_datasource_definition in Hprepare.
  cbn [py_items mbind result_bind] in Hprepare.
  apply bind_ok in Hprepare as (name & _ & Hprepare).
  apply bind_ok in Hprepare as (new_name & _ & Hprepare).
  injection Hprepare as <-. unfold Dict.update. cbn [fold_left fst snd].
  rewrite !DictFacts.get_set. cbn [String.eqb Ascii.eqb Bool.eqb].
  rewrite !DictFacts.get_filter by done. rewrite Hcredentials.
  split; [done|]. split.
  - intros id Hid Hnone. rewrite (Hfields _ _ (or_introl eq_refl) Hid).
    cbn [snd]. by rewrite Hnone.
  - intros type Htype Hnone. rewrite (Hfields _ _ (or_intror eq_refl) Htype).
    cbn [snd]. by rewrite Hnone.
Qed.

Lemma exported_datasource_prepared_witness :
  exists record prepared,
    dump_data_source (JDict Source.warehouse) (JList []) = Ok record /\
    prepare_datasource_definition "222222222222" (JDict record) = Ok prepared /\
    Dict.get "Credentials" record = Some JNull /\
    Dict.get "Credentials" prepared = None /\
    Dict.get "DataSourceId" prepared = Some (JStr "warehouse").
Proof.
  do 2 eexists. split; [reflexivity|]. split; [reflexivity|].
  split; [reflexivity|].
  destruct (exported_datasource_prepared "222222222222"
              (JDict Source.warehouse) (JList []) _ _ eq_refl eq_refl)
    as (Hcredentials & Hid & _).
  split; [exact Hcredentials|]. apply Hid; reflexivity.
Defined.

(** X17. The definition [prepare_dataset_definition] returns has no
    [OutputColumns] entry and no null value, and names the target account. *)
Theorem prepare_dataset_definition_prepared
    (account_id : string) (dataset document : json)
    (datasource_id_map dataset_id_map : gmap string json) (definition : dict) :
  prepare_dataset_definition account_id dataset datasource_id_map dataset_id_map
    = Ok (definition, document) ->
  Dict.get "OutputColumns" definition = None /\
  without_nulls definition /\
  Dict.get "AwsAccountId" definition = Some (JStr account_id).
Proof.
  intros H. unfold prepare_dataset_definition in H. ok_steps.
  match goal with
  | H : py_add_str ?v _ = Ok _ |- _ =>
      destruct v; try discriminate H; injection H as <-
  end.
  subst definition. unfold Dict.update. cbn [fold_left fst snd].
  match goal with
  | H : rewrite_rls _ _ = Ok ?o |- _ =>
      pose proof (fun v (Hv : o = Some v) =>
                    PreparedFacts.rewrite_rls_not_none _ _ v
                      (eq_ind _ (fun o => rewrite_rls _ _ = Ok o) H _ Hv))
        as Hrls
  end.
  match goal with
  | |- context [set_if_some _ ?o _] => destruct o as [rls|]
  end; cbn [set_if_some]; rewrite !DictFacts.get_set;
    cbn [String.eqb Ascii.eqb Bool.eqb];
    (split; [by apply PreparedFacts.get_filter_excluded|]);
    (split; [|done]);
    repeat (apply PreparedFacts.set_without_nulls; [by eauto|]);
    apply PreparedFacts.filter_without_nulls;
    by intros kv [_ Hkv%negb_true_iff]%andb_prop.
Qed.

Lemma prepare_dataset_definition_prepared_witness :
  exists definition document,
    prepare_dataset_definition "222222222222" Examples.dataset
      {["warehouse" := Examples.new_arn]} ∅ = Ok (definition, document) /\
    Dict.get "OutputColumns" definition = None /\
    without_nulls definition.
Proof.
  destruct (prepare_dataset_definition "222222222222" Examples.dataset
              {["warehouse" := Examples.new_arn]} ∅)
    as [[definition document]|e] eqn:Hrun.
  - exists definition, document. split; [reflexivity|].
    destruct (prepare_dataset_definition_prepared _ _ _ _ _ _ Hrun)
      as (Hcolumns & Hnulls & _).
    split; [exact Hcolumns | exact Hnulls].
  - exfalso. revert Hrun. vm_compute. done.
Defined.

(** ** The analysis and its dashboard *)

Lemma prepare_dashboard_definition_fields_of
    (account_id : string) (fields dashboard : dict) :
  prepare_dashboard_definition account_id (JDict fields) = Ok dashboard ->
  forall k, k ∉ dashboard_keys -> Dict.get k dashboard = Dict.get k fields.
Proof.
  unfold prepare_dashboard_definition. intros H k Hk.
  apply bind_ok in H as (analysis_id & Hid & H).
  apply bind_ok in H as (id' & Hid' & H).
  apply bind_ok in H as (analysis_name & Hname & H).
  apply bind_ok in H as (name' & Hname' & H).
  injection H as <-. unfold Dict.update. cbn [fold_left fst snd].
  rewrite !DictFacts.get_set.
  unfold dashboard_keys in Hk. rewrite !not_elem_of_cons in Hk.
  destruct Hk as (H1 & H2 & H3 & H4 & H5 & H6 & _).
  repeat match goal with
    | |- context [String.eqb ?a k] =>
        destruct (String.eqb a k) eqn:E;
        [apply String.eqb_eq in E; by subst k|clear E]
    end.
  rewrite !PreparedFacts.get_remove_ne; [done| |];
    apply String.eqb_neq; congruence.
Qed.



Module DeclarationFacts.

Lemma rewrite_declaration_remapped (m : gmap string json) (ds ds' : json) :
  rewrite_declaration m ds = Ok ds' -> remapped m ds'.
Proof.
  unfold rewrite_declaration. intros H. ok_steps.
  match goal with
  | H : remap m ?id = Ok ?v |- _ =>
      unfold remap in H; destruct (m !! id) as [v'|] eqn:Hm;
      [injection H as ->; exists id, v|discriminate H]
  end.
  split; [done|].
  match goal with
  | H : py_setitem ?x _ _ = Ok _ |- _ =>
      destruct x; try discriminate H; injection H as <-
  end.
  cbn [py_getitem]. by rewrite DictFacts.get_set, String.eqb_refl.
Qed.

Lemma rewrite_declaration_string (m : gmap string json) (l : list string)
    (items : list json) :
  traverse (rewrite_declaration m) (JStr <$> l) = Ok items -> l = [].
Proof. by destruct l as [|s l]. Qed.

Lemma rewrite_declarations_remapped (m : gmap string json)
    (declarations declarations' : json) :
  rewrite_declarations m declarations = Ok declarations' ->
  exists items,
    py_iter declarations' = Ok items /\ Forall (remapped m) items.
Proof.
  unfold rewrite_declarations. intros H.
  apply bind_ok in H as (items & Hiter & H).
  apply bind_ok in H as (items' & Hitems & H).
  destruct declarations as [| | |s|l|d]; try done; injection H as <-.
  - injection Hiter as <-. exists (JStr <$> Str.chars s). split; [done|].
    apply rewrite_declaration_string in Hitems as ->. constructor.
  - injection Hiter as <-. exists items'. split; [done|].
    apply traverse_ok in Hitems.
    induction Hitems as [|ds ds' l l' Hds _ IH]; constructor; [|done].
    by eapply rewrite_declaration_remapped.
  - injection Hiter as <-. exists (JStr <$> Dict.keys d). split; [done|].
    apply rewrite_declaration_string in Hitems as ->. constructor.
Qed.

End DeclarationFacts.

(** X19. In the definition [prepare_analysis_definition] returns, every
    dataset declaration carries a locator of the dataset remap table, and
    the name and the identifier are those of the record with the import
    suffix. *)
Theorem prepare_analysis_definition_remapped
    (account_id : string) (dataset_id_map : gmap string json)
    (analysis document : json) (definition : dict) :
  prepare_analysis_definition account_id dataset_id_map analysis
    = Ok (definition, document) ->
  (exists body declarations items,
      Dict.get "Definition" definition = Some body /\
      py_getitem body "DataSetIdentifierDeclarations" = Ok declarations /\
      py_iter declarations = Ok items /\
      Forall (remapped dataset_id_map) items) /\
  (exists name id,
      py_getitem analysis "Name" = Ok (JStr name) /\
      py_getitem analysis "AnalysisId" = Ok (JStr id) /\
      Dict.get "Name" definition = Some (JStr (name +:+ "-imported")) /\
      Dict.get "AnalysisId" definition = Some (JStr (id +:+ "-imported"))).
Proof.
  unfold prepare_analysis_definition. intros H.
  apply bind_ok in H as (name & Hname & H).
  apply bind_ok in H as (new_name & Hnew_name & H).
  apply bind_ok in H as (id & Hid & H).
  apply bind_ok in H as (new_id & Hnew_id & H).
  apply bind_ok in H as (fields & Hfields & H).
  apply bind_ok in H as (body & Hbody & H).
  apply bind_ok in H as (declarations & Hdeclarations & H).
  apply bind_ok in H as (declarations' & Hrewrite & H).
  apply bind_ok in H as (body' & Hbody' & H).
  injection H as <- _.
  destruct name as [| | |name| |]; try done. injection Hnew_name as <-.
  destruct id as [| | |id| |]; try done. injection Hnew_id as <-.
  rewrite !DictFacts.get_set, String.eqb_refl. split.
  - destruct (DeclarationFacts.rewrite_declarations_remapped _ _ _ Hrewrite)
      as (items & Hiter & Hall).
    exists body', declarations', items. split; [done|]. split; [|done].
    destruct body; try done. injection Hbody' as <-. cbn [py_getitem].
    by rewrite DictFacts.get_set, String.eqb_refl.
  - exists name, id. do 2 (split; [done|]).
    cbn [String.eqb Ascii.eqb Bool.eqb]. unfold Dict.update.
    by cbn [fold_left fst snd].
Qed.

Lemma prepare_analysis_definition_remapped_witness :
  exists definition document body,
    prepare_analysis_definition "222222222222"
      {["customers" := JStr "new/customers-imported"]}
      (JDict [("AnalysisId", JStr "sales"); ("Name", JStr "Sales");
              ("Definition",
               JDict [("DataSetIdentifierDeclarations",
                       JList [JDict [("DataSetArn", JStr "old/customers")]])])])
      = Ok (definition, document) /\
    Dict.get "Definition" definition = Some body /\
    Dict.get "Name" definition = Some (JStr "Sales-imported").
Proof.
  edestruct (prepare_analysis_definition_remapped "222222222222"
               {["customers" := JStr "new/customers-imported"]}
               (JDict [("AnalysisId", JStr "sales"); ("Name", JStr "Sales");
                       ("Definition",
                        JDict [("DataSetIdentifierDeclarations",
                                JList [JDict [("DataSetArn",
                                               JStr "old/customers")]])])]))
    as ((body & _ & _ & Hbody & _) & (name & id & Hname & _ & Hnew & _));
    [vm_compute; reflexivity|].
  do 2 eexists. exists body. split; [vm_compute; reflexivity|].
  split; [exact Hbody|].
  vm_compute in Hname. injection Hname as <-. exact Hnew.
Defined.

(** X20. The dashboard is prepared from the analysis record after
    [prepare_analysis_definition] has rewritten its declarations, which the
    prepared copy shares: the dashboard definition holds the same
    [Definition] as the analysis definition that is sent. *)
Theorem dashboard_shares_definition
    (account_id : string) (dataset_id_map : gmap string json)
    (analysis document : json) (definition dashboard : dict) :
  prepare_analysis_definition account_id dataset_id_map analysis
    = Ok (definition, document) ->
  prepare_dashboard_definition account_id document = Ok dashboard ->
  is_Some (Dict.get "Definition" dashboard) /\
  Dict.get "Definition" dashboard = Dict.get "Definition" definition.
Proof.
  unfold prepare_analysis_definition. intros H Hdashboard.
  apply bind_ok in H as (name & Hname & H).
  apply bind_ok in H as (new_name & Hnew_name & H).
  apply bind_ok in H as (id & Hid & H).
  apply bind_ok in H as (new_id & Hnew_id & H).
  apply bind_ok in H as (fields & Hfields & H).
  apply bind_ok in H as (body & Hbody & H).
  apply bind_ok in H as (declarations & Hdeclarations & H).
  apply bind_ok in H as (declarations' & Hrewrite & H).
  apply bind_ok in H as (body' & Hbody' & H).
  injection H as <- <-.
  rewrite (prepare_dashboard_definition_fields_of _ _ _ Hdashboard "Definition")
    by (apply (bool_decide_unpack _); vm_compute; exact I).
  rewrite !DictFacts.get_set, String.eqb_refl. split; [by eexists|done].
Qed.


Lemma dashboard_shares_definition_witness :
  exists definition document dashboard,
    prepare_analysis_definition "222222222222"
      {["customers" := JStr "new/customers-imported"]}
      (JDict [("AnalysisId", JStr "sales"); ("Name", JStr "Sales");
              ("Definition",
               JDict [("DataSetIdentifierDeclarations",
                       JList [JDict [("DataSetArn", JStr "old/customers")]])])])
      = Ok (definition, document) /\
    prepare_dashboard_definition "222222222222" document = Ok dashboard /\
    Dict.get "Definition" dashboard = Dict.get "Definition" definition /\
    Dict.get "Definition" dashboard
    = Some (JDict [("DataSetIdentifierDeclarations",
                    JList [JDict [("DataSetArn",
                                   JStr "new/customers-imported")]])]).
Proof.
  do 3 eexists. split; [vm_compute; reflexivity|].
  split; [vm_compute; reflexivity|]. split; [|reflexivity].
  eapply proj2,
    (dashboard_shares_definition "222222222222"
       {["customers" := JStr "new/customers-imported"]}
       (JDict [("AnalysisId", JStr "sales"); ("Name", JStr "Sales");
               ("Definition",
                JDict [("DataSetIdentifierDeclarations",
                        JList [JDict [("DataSetArn",
                                       JStr "old/customers")]])])]));
    vm_compute; reflexivity.
Defined.

(** ** The version of a dashboard *)

(** X21. [get_dashboard_version] reads the text after the last [/] of a
    locator, or all of a locator without [/], and returns what [int] makes
    of it; a text [int] refuses gives its [ValueError], and no string gives
    [IndexError]. *)
Theorem get_dashboard_version_segment
    (py_int : string -> option Z) (version_arn : string) :
  exists text,
    Str.has_char "/" text = false /\
    (version_arn = text \/ exists p, version_arn = p +:+ String "/" text) /\
    get_dashboard_version py_int (JStr version_arn) = parsed py_int text /\
    get_id_from_arn version_arn = Ok text.
Proof.
  destruct (SplitFacts.last_segment "/" version_arn)
    as (text & Hlast & Hfree & Hform).
  exists text. split; [done|]. split; [done|].
  unfold get_dashboard_version, get_id_from_arn, py_last. by rewrite Hlast.
Qed.

(** ** The course of an import *)

Section ImportOrder.

Variable pstate : Type.
Variable respond : pstate -> operation -> dict -> result dict * pstate.
Variable py_int : string -> option Z.

Lemma in_stages_weaken (lo hi lo' hi' : nat) (calls : list request) :
  (lo' <= lo)%nat -> (hi <= hi')%nat ->
  Forall (in_stages lo hi) calls -> Forall (in_stages lo' hi') calls.
Proof.
  intros Hlo Hhi H. eapply Forall_impl; [exact H|].
  unfold in_stages. intros q. lia.
Qed.

Lemma in_stage_order_app (lo mid hi : nat) (l1 l2 : list request) :
  Forall (in_stages lo mid) l1 -> in_stage_order l1 ->
  Forall (in_stages mid hi) l2 -> in_stage_order l2 ->
  in_stage_order (l1 ++ l2).
Proof.
  intros H1 Ho1 H2 Ho2. induction l1 as [|q l1 IH]; [done|].
  inversion H1 as [|? ? Hq Hl1]; subst. destruct Ho1 as [Hle Ho1].
  cbn [app in_stage_order]. split; [|by apply IH].
  apply Forall_app. split; [done|].
  eapply Forall_impl; [exact H2|]. unfold in_stages, stage_le in *.
  intros q'. lia.
Qed.

Lemma staged_lift {A} (lo hi : nat) (r : result A) :
  staged lo hi (lift r : io pstate A).
Proof.
  intros w r' w' [= <- <-]. exists []. by rewrite app_nil_r.
Qed.

Lemma staged_weaken {A} (lo hi lo' hi' : nat) (m : io pstate A) :
  (lo' <= lo)%nat -> (hi <= hi')%nat -> staged lo hi m -> staged lo' hi' m.
Proof.
  intros Hlo Hhi Hm w r w' Hrun.
  destruct (Hm _ _ _ Hrun) as (calls & Hsent & Hcalls & Horder).
  exists calls. split; [done|]. split; [|done]. by eapply in_stages_weaken.
Qed.

Lemma staged_bind {A B} (lo mid hi : nat)
    (m : io pstate A) (f : A -> io pstate B) :
  (lo <= mid)%nat -> (mid <= hi)%nat ->
  staged lo mid m -> (forall a, staged mid hi (f a)) ->
  staged lo hi (m ≫= f).
Proof.
  intros Hlo Hhi Hm Hf w r w'. rewrite bind_run.
  destruct (m w) as [[a|e] w1] eqn:Hrun;
    destruct (Hm _ _ _ Hrun) as (calls & Hsent & Hcalls & Horder).
  - intros Hrest.
    destruct (Hf a _ _ _ Hrest) as (calls' & Hsent' & Hcalls' & Horder').
    exists (calls ++ calls'). rewrite Hsent', Hsent, app_assoc.
    split; [done|]. split; [|by eapply in_stage_order_app].
    apply Forall_app. split; by eapply in_stages_weaken; [| |eassumption].
  - intros [= <- <-]. exists calls. split; [done|]. split; [|done].
    by eapply in_stages_weaken; [| |eassumption].
Qed.

Lemma staged_lift_bind {A B} (lo hi : nat) (r : result A)
    (f : A -> io pstate B) :
  (forall a, staged lo hi (f a)) -> staged lo hi (lift r ≫= f).
Proof.
  intros Hf w r' w'. rewrite bind_run. cbn [lift].
  destruct r as [a|e]; [by apply Hf|].
  intros [= <- <-]. exists []. by rewrite app_nil_r.
Qed.

Lemma staged_invoke (n : nat) (op : operation) (kwargs : dict) :
  stage op = n -> staged n n (invoke respond op kwargs).
Proof.
  intros Hop w r w'. unfold invoke.
  destruct (respond (provider w) op kwargs) as [r0 p]. intros [= <- <-].
  exists [Request op kwargs]. split; [done|]. split; [|by repeat constructor].
  repeat constructor; unfold in_stages; cbn [req_op]; lia.
Qed.

Lemma staged_except {A} (n : nat)
    (m : io pstate A) (handler : string -> io pstate A) :
  staged n n m -> (forall code, staged n n (handler code)) ->
  staged n n (except_client_error m handler).
Proof.
  intros Hm Hh w r w'. unfold except_client_error.
  destruct (m w) as [[a|e] w1] eqn:Hrun;
    destruct (Hm _ _ _ Hrun) as (calls & Hsent & Hcalls & Horder).
  - intros [= <- <-]. by exists calls.
  - destruct e as [| | | | |code];
      try (intros [= <- <-]; by exists calls).
    intros Hrest.
    destruct (Hh code _ _ _ Hrest) as (calls' & Hsent' & Hcalls' & Horder').
    exists (calls ++ calls'). rewrite Hsent', Hsent, app_assoc.
    split; [done|]. split; [by apply Forall_app|].
    by eapply in_stage_order_app.
Qed.

Lemma staged_for_each {A B} (n : nat) (f : A -> io pstate B) (l : list A) :
  (forall x, staged n n (f x)) -> staged n n (for_each f l).
Proof.
  intros Hf. induction l as [|x l IH]; [apply (staged_lift n n (Ok []))|].
  cbn [for_each]. apply (staged_bind n n n); [done..|]. intros y.
  apply (staged_bind n n n); [done..|]. intros ys.
  apply (staged_lift n n (Ok (y :: ys))).
Qed.

Lemma staged_create_or_update (n : nat) (params : dict)
    (create_fn update_fn : operation) :
  stage create_fn = n -> stage update_fn = n ->
  staged n n (create_or_update_asset respond params create_fn update_fn).
Proof.
  intros Hcreate Hupdate. unfold create_or_update_asset.
  apply (staged_bind n n n); [done..| |].
  - apply staged_except; [by apply staged_invoke|]. intros code.
    destruct (String.eqb code "ResourceExistsException");
      [|apply staged_lift].
    apply staged_lift_bind. intros params1. by apply staged_invoke.
  - intros response. apply staged_lift_bind. intros status.
    destruct (negb (success_status status)); apply staged_lift.
Qed.

Lemma staged_import_datasources (account_id : string) (datasources : json) :
  staged 1 1 (import_datasources pstate respond account_id datasources).
Proof.
  unfold import_datasources. apply staged_lift_bind. intros items.
  apply staged_for_each. intros ds. apply staged_lift_bind. intros d.
  unfold import_datasource. do 3 (apply staged_lift_bind; intros ?).
  apply (staged_bind 1 1 1); [done..| |intros; apply staged_lift].
  by apply staged_create_or_update.
Qed.

Lemma staged_import_datasets (account_id : string) (datasets : json)
    (m1 m2 : gmap string json) :
  staged 2 2 (import_datasets pstate respond account_id datasets m1 m2).
Proof.
  unfold import_datasets. apply staged_lift_bind. intros items.
  apply (staged_bind 2 2 2); [done..| |intros; apply (staged_lift 2 2 (Ok _))].
  apply staged_for_each. intros ds. apply staged_lift_bind. intros d.
  apply (staged_bind 2 2 2); [done..| |intros; apply (staged_lift 2 2 (Ok _))].
  unfold import_dataset. do 3 (apply staged_lift_bind; intros ?).
  apply (staged_bind 2 2 2); [done..| |intros; apply staged_lift].
  by apply staged_create_or_update.
Qed.

Lemma staged_import_analysis (analysis : dict) :
  staged 3 3 (import_analysis pstate respond analysis).
Proof.
  unfold import_analysis. apply staged_lift_bind; intros ?.
  apply (staged_bind 3 3 3); [done..| |intros; apply staged_lift].
  by apply staged_create_or_update.
Qed.

Lemma staged_import_dashboard (account_id : string) (dashboard : dict) :
  staged 4 5 (import_dashboard pstate respond py_int account_id dashboard).
Proof.
  unfold import_dashboard.
  apply (staged_bind 4 4 5); [lia..| |].
  { by apply staged_create_or_update. }
  intros response. do 3 (apply staged_lift_bind; intros ?).
  apply (staged_bind 4 5 5); [lia..| |intros; apply staged_lift].
  apply (staged_weaken 5 5); [lia..|]. by apply staged_invoke.
Qed.

(** X22. An import only writes, and in one order: every call [import_dump]
    makes creates or updates a data source, a dataset, an analysis or a
    dashboard, or publishes the dashboard, and no call is followed by a call
    for an asset of an earlier kind in that list, however the import ends. *)
Theorem import_dump_stage_order
    (account_id : string) (assets_dump : json) (w w' : world pstate)
    (r : result dict) :
  import_dump pstate respond py_int account_id assets_dump w = (r, w') ->
  exists calls,
    sent w' = sent w ++ calls /\
    Forall (in_stages 1 5) calls /\
    in_stage_order calls.
Proof.
  revert w r w'.
  change (staged 1 5 (import_dump pstate respond py_int account_id assets_dump)).
  unfold import_dump. do 4 (apply staged_lift_bind; intros ?).
  apply (staged_bind 1 1 5); [lia..|apply staged_import_datasources|].
  intros datasources. do 2 (apply staged_lift_bind; intros ?).
  apply (staged_bind 1 2 5); [lia..| |].
  { apply (staged_weaken 2 2); [lia..|]. apply staged_import_datasets. }
  intros security. do 2 (apply staged_lift_bind; intros ?).
  apply (staged_bind 2 2 5); [lia..|apply staged_import_datasets|].
  intros imported. do 3 (apply staged_lift_bind; intros ?).
  apply (staged_bind 2 3 5); [lia..| |].
  { apply (staged_weaken 3 3); [lia..|]. apply staged_import_analysis. }
  intros analysis. apply staged_lift_bind; intros ?.
  apply (staged_bind 3 5 5); [lia..| |].
  { apply (staged_weaken 4 5); [lia..|]. apply staged_import_dashboard. }
  intros dashboard. apply staged_lift_bind; intros ?.
  apply (staged_lift 5 5 (Ok _)).
Qed.

End ImportOrder.

Lemma import_dump_stage_order_witness :
  exists r w' calls,
    import_dump Target.state Target.respond Decimal.parse "222222222222"
      (JDict Examples.bundle) Target.fresh = (r, w') /\
    sent w' = calls /\
    in_stage_order calls /\
    (stage ∘ req_op) <$> calls = [1; 2; 3; 4; 5]%nat.
Proof.
  edestruct (import_dump_stage_order Target.state Target.respond Decimal.parse
               "222222222222" (JDict Examples.bundle) Target.fresh)
    as (calls & Hsent & _ & Horder); [vm_compute; reflexivity|].
  do 2 eexists. exists calls. split; [vm_compute; reflexivity|].
  split; [exact Hsent|]. split; [exact Horder|].
  cbn [sent Target.fresh app] in Hsent. rewrite <- Hsent. reflexivity.
Defined.


(** ** What the import functions report *)

Section ImportReports.

Variable pstate : Type.
Variable respond : pstate -> operation -> dict -> result dict * pstate.
Variable py_int : string -> option Z.

Lemma for_each_ok {A B} (f : A -> io pstate B) (l : list A)
    (w w' : world pstate) (ys : list B) :
  for_each f l w = (Ok ys, w') ->
  Forall2 (fun x y => exists w1 w2, f x w1 = (Ok y, w2)) l ys.
Proof.
  revert w w' ys. induction l as [|x l IH]; intros w w' ys.
  - intros [= <- _]. constructor.
  - cbn [for_each]. intros H.
    apply bind_run_ok in H as (y & w1 & Hy & H).
    apply bind_run_ok in H as (rest & w2 & Hrest & [= <- _]).
    constructor; [by eauto|]. by eapply IH.
Qed.

Lemma import_datasource_run (datasource : dict) (w w' : world pstate)
    (result : dict) :
  import_datasource pstate respond datasource w = (Ok result, w') ->
  exists id name rest,
    Dict.get "DataSourceId" datasource = Some (JStr id) /\
    Dict.get "Name" datasource = Some name /\
    sent w' = sent w
              ++ Request create_data_source
                   (Dict.set "DataSourceId" (JStr (id +:+ "-imported"))
                      datasource) :: rest /\
    Dict.get "org_id" result = Some (JStr id) /\
    Dict.get "name" result = Some name.
Proof.
  unfold import_datasource. intros H.
  apply bind_run_ok in H as (name & w1 & Hname & H).
  apply lift_run_ok in Hname as [Hname ->].
  apply bind_run_ok in H as (original & w1 & Hid & H).
  apply lift_run_ok in Hid as [Hid ->].
  apply bind_run_ok in H as (target & w1 & Htarget & H).
  apply lift_run_ok in Htarget as [Htarget ->].
  apply bind_run_ok in H as (response & w1 & Hcreate & H).
  apply lift_run_ok in H as [H ->].
  destruct original as [| | |id| |]; try done. injection Htarget as <-.
  cbn [py_getitem] in Hname, Hid.
  destruct (Dict.get "Name" datasource) as [name'|] eqn:Hname'; [|done].
  destruct (Dict.get "DataSourceId" datasource) as [id'|] eqn:Hid'; [|done].
  injection Hname as ->. injection Hid as ->.
  destruct (create_or_update_starts pstate respond _ _ _ _ _ _ Hcreate)
    as (rest & Hsent).
  exists id, name, rest. do 3 (split; [done|]).
  cbn [py_getitem] in H. rewrite Hname' in H. cbn [mbind result_bind] in H.
  ok_steps. by subst result.
Qed.

Lemma import_dataset_run (dataset : dict) (w w' : world pstate)
    (result : dict) :
  import_dataset pstate respond dataset w = (Ok result, w') ->
  exists id name rest,
    Dict.get "DataSetId" dataset = Some (JStr id) /\
    Dict.get "Name" dataset = Some name /\
    sent w' = sent w
              ++ Request create_data_set
                   (Dict.set "DataSetId" (JStr (id +:+ "-imported")) dataset)
                 :: rest /\
    Dict.get "org_id" result = Some (JStr id) /\
    Dict.get "name" result = Some name.
Proof.
  unfold import_dataset. intros H.
  apply bind_run_ok in H as (name & w1 & Hname & H).
  apply lift_run_ok in Hname as [Hname ->].
  apply bind_run_ok in H as (original & w1 & Hid & H).
  apply lift_run_ok in Hid as [Hid ->].
  apply bind_run_ok in H as (target & w1 & Htarget & H).
  apply lift_run_ok in Htarget as [Htarget ->].
  apply bind_run_ok in H as (response & w1 & Hcreate & H).
  apply lift_run_ok in H as [H ->].
  destruct original as [| | |id| |]; try done. injection Htarget as <-.
  cbn [py_getitem] in Hname, Hid.
  destruct (Dict.get "Name" dataset) as [name'|] eqn:Hname'; [|done].
  destruct (Dict.get "DataSetId" dataset) as [id'|] eqn:Hid'; [|done].
  injection Hname as ->. injection Hid as ->.
  destruct (create_or_update_starts pstate respond _ _ _ _ _ _ Hcreate)
    as (rest & Hsent).
  exists id, name, rest. do 3 (split; [done|]).
  cbn [py_getitem] in H. rewrite DictFacts.get_set in H.
  cbn [String.eqb Ascii.eqb Bool.eqb] in H. rewrite Hname' in H.
  cbn [mbind result_bind] in H. ok_steps. by subst result.
Qed.

(** X23. [import_datasource] creates the data source under its identifier
    with the import suffix, with the other parameters as they were given,
    before anything else it sends; the record it returns reports the
    identifier it was given as [org_id] and the name it was given. *)
Theorem import_datasource_identifiers (datasource : dict)
    (w w' : world pstate) (result : dict) :
  import_datasource pstate respond datasource w = (Ok result, w') ->
  exists id name rest,
    Dict.get "DataSourceId" datasource = Some (JStr id) /\
    Dict.get "Name" datasource = Some name /\
    sent w' = sent w
              ++ Request create_data_source
                   (Dict.set "DataSourceId" (JStr (id +:+ "-imported"))
                      datasource) :: rest /\
    Dict.get "org_id" result = Some (JStr id) /\
    Dict.get "name" result = Some name.
Proof. apply import_datasource_run. Qed.

(** X24. [import_dataset] creates the dataset under its identifier with the
    import suffix before anything else it sends, and reports the identifier
    it was given as [org_id]. *)
Theorem import_dataset_identifiers (dataset : dict)
    (w w' : world pstate) (result : dict) :
  import_dataset pstate respond dataset w = (Ok result, w') ->
  exists id name rest,
    Dict.get "DataSetId" dataset = Some (JStr id) /\
    Dict.get "Name" dataset = Some name /\
    sent w' = sent w
              ++ Request create_data_set
                   (Dict.set "DataSetId" (JStr (id +:+ "-imported")) dataset)
                 :: rest /\
    Dict.get "org_id" result = Some (JStr id) /\
    Dict.get "name" result = Some name.
Proof. apply import_dataset_run. Qed.

Lemma prepare_datasource_definition_name (account_id : string)
    (datasource : json) (definition : dict) :
  prepare_datasource_definition account_id datasource = Ok definition ->
  exists name,
    py_getitem datasource "Name" = Ok (JStr name) /\
    Dict.get "Name" definition = Some (JStr (name +:+ "-imported")).
Proof.
  intros H. unfold prepare_datasource_definition in H. ok_steps.
  match goal with
  | H : py_add_str ?v _ = Ok _ |- _ =>
      destruct v; try discriminate H; injection H as <-
  end.
  subst definition. unfold Dict.update. cbn [fold_left fst snd].
  eexists. split; [done|]. by rewrite !DictFacts.get_set.
Qed.

Lemma prepare_dataset_definition_name (account_id : string)
    (dataset document : json) (m1 m2 : gmap string json) (definition : dict) :
  prepare_dataset_definition account_id dataset m1 m2
    = Ok (definition, document) ->
  exists name,
    py_getitem dataset "Name" = Ok (JStr name) /\
    Dict.get "Name" definition = Some (JStr (name +:+ "-imported")).
Proof.
  unfold prepare_dataset_definition. intros H.
  apply bind_ok in H as (fields & Hfields & H).
  apply bind_ok in H as (name & Hname & H).
  apply bind_ok in H as (new_name & Hnew_name & H).
  apply bind_ok in H as (physical & _ & H).
  apply bind_ok in H as (tables & _ & H).
  apply bind_ok in H as (tables' & _ & H).
  apply bind_ok in H as (rls' & _ & H).
  injection H as <- _.
  destruct name as [| | |name| |]; try done. injection Hnew_name as <-.
  exists name. split; [done|].
  unfold Dict.update. cbn [fold_left fst snd].
  destruct rls' as [rls|]; cbn [set_if_some];
    by rewrite !DictFacts.get_set.
Qed.

(** X25. [import_datasources] returns one record for each data source of
    the dump, in their order, and each reports the name of its data source
    with the import suffix. *)
Theorem import_datasources_results (account_id : string) (items : list json)
    (w w' : world pstate) (results : list dict) :
  import_datasources pstate respond account_id (JList items) w
    = (Ok results, w') ->
  Forall2 (fun datasource result =>
             exists name,
               py_getitem datasource "Name" = Ok (JStr name) /\
               Dict.get "name" result = Some (JStr (name +:+ "-imported")))
    items results.
Proof.
  unfold import_datasources. intros H.
  apply bind_run_ok in H as (items' & w1 & [= <- <-] & H).
  apply for_each_ok in H.
  eapply Forall2_impl; [exact H|]. clear H.
  intros datasource result (w1 & w2 & H).
  apply bind_run_ok in H as (definition & w3 & Hprepared & H).
  apply lift_run_ok in Hprepared as [Hprepared ->].
  apply prepare_datasource_definition_name in Hprepared
    as (name & Hname & Hnew).
  apply import_datasource_run in H
    as (id & name' & rest & _ & Hname' & _ & _ & Hresult).
  exists name. split; [done|]. congruence.
Qed.

(** X26. [import_datasets] returns one record for each dataset of the
    section it is given, in their order, and each reports the name of its
    dataset with the import suffix. *)
Theorem import_datasets_results (account_id : string) (items : list json)
    (m1 m2 : gmap string json) (w w' : world pstate)
    (results : list dict) (documents : json) :
  import_datasets pstate respond account_id (JList items) m1 m2 w
    = (Ok (results, documents), w') ->
  Forall2 (fun dataset result =>
             exists name,
               py_getitem dataset "Name" = Ok (JStr name) /\
               Dict.get "name" result = Some (JStr (name +:+ "-imported")))
    items results.
Proof.
  unfold import_datasets. intros H.
  apply bind_run_ok in H as (items' & w1 & [= <- <-] & H).
  apply bind_run_ok in H as (pairs & w2 & H & [= <- _ _]).
  apply for_each_ok in H. apply Forall2_fmap_r.
  eapply Forall2_impl; [exact H|]. clear H.
  intros dataset [result document] (w3 & w4 & H).
  apply bind_run_ok in H as ([definition document'] & w5 & Hprepared & H).
  apply lift_run_ok in Hprepared as [Hprepared ->].
  apply bind_run_ok in H as (imported & w6 & H & [= <- _ _]).
  apply prepare_dataset_definition_name in Hprepared
    as (name & Hname & Hnew).
  apply import_dataset_run in H
    as (id & name' & rest & _ & Hname' & _ & _ & Hresult).
  exists name. split; [done|]. cbn [fst] in *. congruence.
Qed.

(** X27. When [import_dashboard] returns, the last call it made publishes
    the dashboard: it names the account, the identifier in the response of
    [create_or_update_asset] and the version read from that response's
    [VersionArn]; the calls before it are create or update calls for the
    dashboard, and the record returned reports that identifier and that
    version. *)
Theorem import_dashboard_publishes (account_id : string) (dashboard : dict)
    (w w' : world pstate) (result : dict) :
  import_dashboard pstate respond py_int account_id dashboard w
    = (Ok result, w') ->
  exists calls response w1 id version,
    create_or_update_asset respond dashboard create_dashboard update_dashboard w
      = (Ok response, w1) /\
    sent w' = sent w ++ calls ++ [publication account_id id version] /\
    Forall (in_stages 4 4) calls /\
    Dict.get "DashboardId" response = Some id /\
    get_dashboard_version py_int
      (default JNull (Dict.get "VersionArn" response)) = Ok version /\
    Dict.get "id" result = Some id /\
    Dict.get "version" result = Some (JNum version).
Proof.
  unfold import_dashboard. intros H.
  apply bind_run_ok in H as (response & w1 & Hcreate & H).
  apply bind_run_ok in H as (version_arn & w2 & Harn & H).
  apply lift_run_ok in Harn as [Harn ->].
  apply bind_run_ok in H as (version & w2 & Hversion & H).
  apply lift_run_ok in Hversion as [Hversion ->].
  apply bind_run_ok in H as (id & w2 & Hid & H).
  apply lift_run_ok in Hid as [Hid ->].
  apply bind_run_ok in H as (publish_response & w2 & Hpublish & H).
  apply lift_run_ok in H as [H ->].
  unfold invoke in Hpublish.
  destruct (respond (provider w1) _ _) as [r0 p]. injection Hpublish as -> <-.
  destruct (staged_create_or_update pstate respond 4 dashboard
              create_dashboard update_dashboard eq_refl eq_refl _ _ _ Hcreate)
    as (calls & Hsent & Hcalls & _).
  cbn [py_getitem] in Harn, Hid.
  destruct (Dict.get "VersionArn" response) as [arn|] eqn:Harn'; [|done].
  destruct (Dict.get "DashboardId" response) as [id'|] eqn:Hid'; [|done].
  injection Harn as ->. injection Hid as ->.
  exists calls, response, w1, id, version. cbn [sent]. rewrite Hsent, Harn'.
  split; [done|]. split; [by rewrite <- app_assoc|]. do 3 (split; [done|]).
  cbn [py_getitem] in H. rewrite Hid' in H. ok_steps. subst. by split.
Qed.

End ImportReports.

Lemma import_datasource_identifiers_witness :
  exists result w',
    import_datasource Target.state Target.respond Examples.with_permissions
      Target.fresh = (Ok result, w') /\
    Dict.get "org_id" result = Some (JStr "warehouse") /\
    Dict.get "new_id" result = Some (JStr "warehouse-imported").
Proof.
  edestruct (import_datasource_identifiers Target.state Target.respond
               Examples.with_permissions Target.fresh)
    as (id & name & rest & Hid & _ & _ & Horg & _);
    [vm_compute; reflexivity|].
  do 2 eexists. split; [vm_compute; reflexivity|].
  injection Hid as <-. split; [exact Horg | reflexivity].
Defined.

Lemma import_dataset_identifiers_witness :
  exists result w',
    import_dataset Target.state Target.respond Examples.uploaded
      Target.fresh = (Ok result, w') /\
    Dict.get "org_id" result = Some (JStr "uploads") /\
    Dict.get "new_id" result = Some (JStr "uploads-imported").
Proof.
  edestruct (import_dataset_identifiers Target.state Target.respond
               Examples.uploaded Target.fresh)
    as (id & name & rest & Hid & _ & _ & Horg & _);
    [vm_compute; reflexivity|].
  do 2 eexists. split; [vm_compute; reflexivity|].
  injection Hid as <-. split; [exact Horg | reflexivity].
Defined.

Lemma import_datasources_results_witness :
  exists results w',
    import_datasources Target.state Target.respond "222222222222"
      (JList [Examples.datasource]) Target.fresh = (Ok results, w') /\
    Forall2 (fun datasource result =>
               exists name,
                 py_getitem datasource "Name" = Ok (JStr name) /\
                 Dict.get "name" result = Some (JStr (name +:+ "-imported")))
      [Examples.datasource] results.
Proof.
  do 2 eexists. split; [vm_compute; reflexivity|].
  eapply (import_datasources_results Target.state Target.respond
            "222222222222" [Examples.datasource] Target.fresh).
  vm_compute; reflexivity.
Defined.

Lemma import_datasets_results_witness :
  exists results documents w',
    import_datasets Target.state Target.respond "222222222222"
      (JList [Examples.dataset])
      {["warehouse" := Examples.new_arn]} ∅ Target.fresh
      = (Ok (results, documents), w') /\
    Forall2 (fun dataset result =>
               exists name,
                 py_getitem dataset "Name" = Ok (JStr name) /\
                 Dict.get "name" result = Some (JStr (name +:+ "-imported")))
      [Examples.dataset] results.
Proof.
  do 3 eexists. split; [vm_compute; reflexivity|].
  eapply (import_datasets_results Target.state Target.respond "222222222222"
            [Examples.dataset] {["warehouse" := Examples.new_arn]} ∅
            Target.fresh).
  vm_compute; reflexivity.
Defined.

Lemma import_dashboard_publishes_witness :
  exists result w',
    import_dashboard Target.state Target.respond Decimal.parse "222222222222"
      [("DashboardId", JStr "sales_dashboard"); ("Name", JStr "Sales")]
      Target.fresh = (Ok result, w') /\
    Dict.get "version" result = Some (JNum 1) /\
    last (sent w')
    = Some (publication "222222222222" (JStr "sales_dashboard") 1).
Proof.
  edestruct (import_dashboard_publishes Target.state Target.respond
               Decimal.parse "222222222222"
               [("DashboardId", JStr "sales_dashboard"); ("Name", JStr "Sales")]
               Target.fresh)
    as (calls & response & w1 & id & version
          & _ & Hsent & _ & _ & _ & _ & Hversion);
    [vm_compute; reflexivity|].
  do 2 eexists. split; [vm_compute; reflexivity|].
  split; [|reflexivity].
  vm_compute in Hversion. injection Hversion as <-. reflexivity.
Defined.


(** ** Describing an asset *)

Section DescribeRuns.

Variable pstate : Type.
Variable respond : pstate -> operation -> dict -> result dict * pstate.

(** X28. [describe_asset] makes one call, with the account added to the
    parameters; it returns only for an answer with a status in 200..299,
    and then the answer's lookup field, [None] when the answer lacks it, or
    the whole answer when no field or the empty field is asked for; an
    answer with a status outside that range (a missing status counts as 0)
    raises [ValueError] with the answer. *)
Theorem describe_asset_call
    (account_id : string) (describe_fn : operation) (params : dict)
    (lookup_field : option string) (w w' : world pstate) (r : result json) :
  Dict.mem "AwsAccountId" params = false ->
  describe_asset respond account_id describe_fn params lookup_field w
    = (r, w') ->
  sent w' = sent w
            ++ [Request describe_fn (describe_kwargs account_id params)] /\
  (forall v, r = Ok v ->
     exists response status,
       fst (respond (provider w) describe_fn
              (describe_kwargs account_id params)) = Ok response /\
       status_of response = Ok status /\ 200 <= status < 300 /\
       v = looked_up lookup_field response) /\
  (forall response status,
     fst (respond (provider w) describe_fn
            (describe_kwargs account_id params)) = Ok response ->
     status_of response = Ok status -> ~ (200 <= status < 300) ->
     r = Raise (ValueError (DescribeFailed response))).
Proof.
  intros Hparams. unfold describe_asset. rewrite Hparams, bind_run.
  unfold invoke, describe_kwargs.
  destruct (respond (provider w) describe_fn _) as [[response|e] p];
    cbn [fst].
  - rewrite bind_run. cbn [lift].
    destruct (status_of response) as [status|e] eqn:Hstatus.
    + destruct (success_status status) eqn:Hsuccess.
      * intros H.
        assert (r = Ok (looked_up lookup_field response) /\
                w' = World p (sent w ++ [Request describe_fn
                         (("AwsAccountId", JStr account_id) :: params)]))
          as [-> ->].
        { unfold looked_up. destruct lookup_field as [[|c f]|];
            by injection H as <- <-. }
        split; [done|]. unfold success_status in Hsuccess.
        apply andb_true_iff in Hsuccess as [Hlo Hhi].
        apply Z.leb_le in Hlo. apply Z.ltb_lt in Hhi. split.
        -- intros v [= <-]. exists response, status.
           split; [done|]. split; [done|]. split; [lia|done].
        -- intros response' status' [= <-] Hstatus' Hnot.
           rewrite Hstatus in Hstatus'. injection Hstatus' as <-. lia.
      * intros [= <- <-]. split; [done|]. split; [done|].
        by intros response' status' [= <-] _ _.
    + intros [= <- <-]. split; [done|]. split; [done|].
      intros response' status' [= <-] Hstatus'. congruence.
  - intros [= <- <-]. split; [done|]. split; [done|]. done.
Qed.

End DescribeRuns.

Lemma describe_asset_call_witness :
  exists v w',
    describe_asset Source.respond "111111111111" describe_data_source
      [("DataSourceId", JStr "warehouse")] (Some "DataSource") Source.start
    = (Ok v, w') /\
    req_op <$> sent w' = [describe_data_source] /\
    v <> JNull.
Proof.
  edestruct (describe_asset_call unit Source.respond "111111111111"
               describe_data_source [("DataSourceId", JStr "warehouse")]
               (Some "DataSource") Source.start)
    as (Hsent & Hreturned & _); [reflexivity | vm_compute; reflexivity|].
  do 2 eexists. split; [vm_compute; reflexivity|].
  split; [by rewrite Hsent | discriminate].
Defined.

(** ** The result of an import *)

Section ImportResult.

Variable pstate : Type.
Variable respond : pstate -> operation -> dict -> result dict * pstate.
Variable py_int : string -> option Z.

Lemma import_datasources_length (account_id : string) (section : json)
    (w w' : world pstate) (results : list dict) :
  import_datasources pstate respond account_id section w = (Ok results, w') ->
  exists items, py_iter section = Ok items /\ length results = length items.
Proof.
  unfold import_datasources. intros H.
  apply bind_run_ok in H as (items & w1 & Hitems & H).
  apply lift_run_ok in Hitems as [Hitems ->].
  exists items. split; [done|]. by eapply for_each_length.
Qed.

Lemma import_datasets_length (account_id : string) (section : json)
    (m1 m2 : gmap string json) (w w' : world pstate)
    (results : list dict) (documents : json) :
  import_datasets pstate respond account_id section m1 m2 w
    = (Ok (results, documents), w') ->
  exists items, py_iter section = Ok items /\ length results = length items.
Proof.
  unfold import_datasets. intros H.
  apply bind_run_ok in H as (items & w1 & Hitems & H).
  apply lift_run_ok in Hitems as [Hitems ->].
  apply bind_run_ok in H as (pairs & w2 & H & [= <- _ _]).
  exists items. split; [done|]. rewrite length_fmap.
  by eapply for_each_length.
Qed.

(** X29. The result [import_dump] returns names the target account and
    has, in [datasources], [security_datasets] and [analysis_datasets], one
    record for each item of the section of that name in the dump. *)
Theorem import_dump_reports (account_id : string) (bundle : dict)
    (w w' : world pstate) (result : dict) :
  import_dump pstate respond py_int account_id (JDict bundle) w
    = (Ok result, w') ->
  Dict.get "target_account" result = Some (JStr account_id) /\
  reported "datasources" bundle result /\
  reported "security_datasets" bundle result /\
  reported "analysis_datasets" bundle result.
Proof.
  unfold import_dump. intros H.
  do 3 (apply bind_run_ok in H as (? & ? & Hcheck & H);
        apply lift_run_ok in Hcheck as [_ ->]).
  apply bind_run_ok in H as (s1 & w1 & Hs1 & H).
  apply lift_run_ok in Hs1 as [Hs1 ->].
  apply bind_run_ok in H as (datasources & w1 & Hdatasources & H).
  apply bind_run_ok in H as (m1 & w2 & Hm1 & H).
  apply lift_run_ok in Hm1 as [_ ->].
  apply bind_run_ok in H as (s2 & w2 & Hs2 & H).
  apply lift_run_ok in Hs2 as [Hs2 ->].
  apply bind_run_ok in H as ([security documents2] & w2 & Hsecurity & H).
  apply bind_run_ok in H as (m2 & w3 & Hm2 & H).
  apply lift_run_ok in Hm2 as [_ ->].
  apply bind_run_ok in H as (s3 & w3 & Hs3 & H).
  apply lift_run_ok in Hs3 as [Hs3 ->].
  apply bind_run_ok in H as ([imported documents3] & w3 & Himported & H).
  apply bind_run_ok in H as (m3 & w4 & Hm3 & H).
  apply lift_run_ok in Hm3 as [_ ->].
  apply bind_run_ok in H as (s4 & w4 & Hs4 & H).
  apply lift_run_ok in Hs4 as [_ ->].
  apply bind_run_ok in H as (prepared & w4 & Hprepared & H).
  apply lift_run_ok in Hprepared as [_ ->].
  apply bind_run_ok in H as (analysis & w4 & _ & H).
  apply bind_run_ok in H as (dashboard_definition & w5 & Hdashboard & H).
  apply lift_run_ok in Hdashboard as [_ ->].
  apply bind_run_ok in H as (dashboard & w5 & _ & H).
  apply bind_run_ok in H as (assets_dump' & w6 & Hdump & H).
  apply lift_run_ok in Hdump as [_ ->].
  injection H as <- _.
  apply import_datasources_length in Hdatasources as (items1 & Hitems1 & Hn1).
  apply import_datasets_length in Hsecurity as (items2 & Hitems2 & Hn2).
  apply import_datasets_length in Himported as (items3 & Hitems3 & Hn3).
  cbn [py_getitem] in Hs1, Hs2, Hs3.
  destruct (Dict.get "datasources" bundle) as [section1|] eqn:H1; [|done].
  destruct (Dict.get "security_datasets" bundle) as [section2|] eqn:H2;
    [|done].
  destruct (Dict.get "analysis_datasets" bundle) as [section3|] eqn:H3;
    [|done].
  injection Hs1 as ->. injection Hs2 as ->. injection Hs3 as ->.
  cbn [fst] in *. split; [done|]. unfold reported, section_size.
  cbn [Dict.get String.eqb Ascii.eqb Bool.eqb]. rewrite !length_fmap.
  split; [|split]; do 2 eexists;
    (split; [eassumption|]); (split; [eassumption|]); by f_equal.
Qed.

End ImportResult.

Lemma import_dump_reports_witness :
  exists result w',
    import_dump Target.state Target.respond Decimal.parse "222222222222"
      (JDict Examples.bundle) Target.fresh = (Ok result, w') /\
    section_size "datasources" result = Some 1%nat /\
    section_size "security_datasets" result = Some 0%nat.
Proof.
  edestruct (import_dump_reports Target.state Target.respond Decimal.parse
               "222222222222" Examples.bundle Target.fresh)
    as (_ & (s1 & items1 & Hs1 & Hitems1 & Hn1)
          & (s2 & items2 & Hs2 & Hitems2 & Hn2) & _);
    [vm_compute; reflexivity|].
  do 2 eexists. split; [vm_compute; reflexivity|].
  vm_compute in Hs1. injection Hs1 as <-.
  vm_compute in Hs2. injection Hs2 as <-.
  vm_compute in Hitems1. injection Hitems1 as <-.
  vm_compute in Hitems2. injection Hitems2 as <-.
  split; [exact Hn1 | exact Hn2].
Defined.

Lemma import_dump_checked_sections_witness :
  exists message w,
    import_dump Target.state Target.respond Decimal.parse "222222222222"
      (JDict [("datasources", JList []); ("analysis", JDict [])]) Target.fresh
    = (Raise (ValueError (MissingSection message)), w) /\
    sent w = [].
Proof.
  destruct (import_dump_checked_sections Target.state Target.respond
              Decimal.parse "222222222222"
              [("datasources", JList []); ("analysis", JDict [])]
              Target.fresh) as [message Hrun];
    [right; left; reflexivity|].
  exists message, Target.fresh. split; [exact Hrun | reflexivity].
Defined.
